(** * Tool layer of the agent: calculator, file, web and time tools,
      their base class and the tool factory.

    A shallow embedding of [src/tools/__init__.py],
    [src/tools/calculator_tool.py], [src/tools/file_tool.py],
    [src/tools/web_tool.py] and [src/tools/tool_factory.py], followed by
    the properties of the specification that were checked against it.

    Conventions of the embedding.
    - A Python [str] is the list of its code points ([N]); [py "..."]
      reads a literal (written in UTF-8) into that list.
    - A Python [float] is a binary64 number of [SpecFloat], with the
      correctly rounded operations [SFadd], [SFmul], [SFdiv] at
      precision 53.
    - A computation that can raise and that acts on the outside world is
      a function [world -> outcome A * world]. [try] with handlers for
      [Exception] and classes below it is [catch]: an exception that is
      no instance of [Exception] ([SystemExit], [KeyboardInterrupt])
      passes it. A bare [except:] is [catch_all]. An exception arises
      where the code raises it or where the run time answers with one;
      interrupts at other places are no part of the model.
    - What the Python run time or a third-party library computes
      ([eval], [statistics], [requests], [bs4], [json], [csv], the clock)
      is a field of the record [Runtime]; every call of an effectful one
      is recorded in the trace of the world.
    - The platform is POSIX and the interpreter is CPython 3.11: paths
      are separated by [/], the line separator is [\n], and the file
      system of the model has directories and regular files, no
      symbolic links. What the tree does not show of the operating
      system (the calls it refuses for want of a permission, for a name
      that is too long, for a device that is full; the access times it
      records) is the record [os] of the world.
    - The case mapping of strings is that of the ASCII letters, and
      [\d] is 0-9. *)

From Stdlib Require Import ZArith NArith List String Ascii Bool Lia.
From Stdlib Require Import Floats.SpecFloat.
From stdpp Require Import base option list gmap.
Import ListNotations.

Set Default Proof Using "Type".
Local Open Scope N_scope.

(* ===================================================================== *)
(** * Python strings *)
(* ===================================================================== *)

Module Py.

Definition char := N.
Definition str := list char.

(** UTF-8 decoding of a literal (well-formed by construction). *)
Fixpoint utf8_decode (bs : list N) : str :=
  match bs with
  | [] => []
  | b :: r =>
      if b <? 128 then b :: utf8_decode r
      else match r with
        | [] => [b]
        | b1 :: r1 =>
            if b <? 224 then ((b - 192) * 64 + (b1 - 128)) :: utf8_decode r1
            else match r1 with
              | [] => [b]
              | b2 :: r2 =>
                  if b <? 240
                  then ((b - 224) * 4096 + (b1 - 128) * 64 + (b2 - 128))
                         :: utf8_decode r2
                  else match r2 with
                    | [] => [b]
                    | b3 :: r3 =>
                        ((b - 240) * 262144 + (b1 - 128) * 4096
                         + (b2 - 128) * 64 + (b3 - 128)) :: utf8_decode r3
                    end
              end
        end
  end.

Definition py (s : string) : str :=
  utf8_decode (map N_of_ascii (list_ascii_of_string s)).

(** A literal that contains double quotes, each written as a
    backquote. *)
Definition dq (s : string) : str :=
  flat_map (fun c => if c =? 96 then [34] else [c]) (py s).

(** Number of bytes of the UTF-8 encoding of a code point. *)
Definition utf8_width (c : char) : N :=
  if c <? 128 then 1 else if c <? 2048 then 2 else if c <? 65536 then 3 else 4.

Definition utf8_size (s : str) : N :=
  fold_right (fun c n => utf8_width c + n) 0 s.

(** Lone surrogates have no UTF-8 encoding ([UnicodeEncodeError]). *)
Definition encodable (c : char) : bool :=
  (c <? 55296) || ((57343 <? c) && (c <? 1114112)).

Definition str_eqb (a b : str) : bool := bool_decide (a = b).

(** [str.isspace] of one character, which is also [\s] of [re] and
    what [str.strip()] removes. *)
Definition is_space (c : char) : bool :=
  ((9 <=? c) && (c <=? 13)) || ((28 <=? c) && (c <=? 32))
  || (c =? 133) || (c =? 160) || (c =? 5760)
  || ((8192 <=? c) && (c <=? 8202))
  || (c =? 8232) || (c =? 8233) || (c =? 8239) || (c =? 8287)
  || (c =? 12288).

Definition is_upper_ascii (c : char) : bool := (65 <=? c) && (c <=? 90).
Definition is_lower_ascii (c : char) : bool := (97 <=? c) && (c <=? 122).
Definition is_alpha_ascii (c : char) : bool :=
  is_upper_ascii c || is_lower_ascii c.
Definition is_digit (c : char) : bool := (48 <=? c) && (c <=? 57).

(** [str.lower] and [str.upper]. The case mapping is that of the
    letters A-Z and a-z; cased letters outside ASCII are left as they
    are (the Unicode case tables are not part of the model). *)
Definition lower_char (c : char) : char :=
  if is_upper_ascii c then c + 32 else c.
Definition upper_char (c : char) : char :=
  if is_lower_ascii c then c - 32 else c.
Definition lower (s : str) : str := map lower_char s.
Definition upper (s : str) : str := map upper_char s.

(** [s.startswith(p)] *)
Fixpoint startswith (s p : str) : bool :=
  match p, s with
  | [], _ => true
  | _ :: _, [] => false
  | a :: p', b :: s' => (a =? b) && startswith s' p'
  end.

(** [p in s] for strings. *)
Fixpoint contains (s p : str) : bool :=
  startswith s p ||
  match s with
  | [] => false
  | _ :: s' => contains s' p
  end.

(** [s.strip()] *)
Fixpoint lstrip (s : str) : str :=
  match s with
  | c :: s' => if is_space c then lstrip s' else s
  | [] => []
  end.
Definition rstrip (s : str) : str := rev (lstrip (rev s)).
Definition strip (s : str) : str := rstrip (lstrip s).

(** [s.split(sep)] for a non-empty separator: the occurrences of [sep]
    are found left to right and do not overlap. [skip] counts the
    characters of an occurrence still to be passed over. *)
Fixpoint split_go (sep : str) (skip : nat) (cur : str) (s : str)
  : list str :=
  match s with
  | [] => [rev cur]
  | c :: s' =>
      match skip with
      | S k => split_go sep k cur s'
      | O =>
          if startswith s sep
          then rev cur :: split_go sep (length sep - 1)%nat [] s'
          else split_go sep O (c :: cur) s'
      end
  end.
Definition split (s sep : str) : list str := split_go sep O [] s.

(** [s.replace(old, new)] for a one-character [old]. *)
Definition replace_char (old : char) (new : str) (s : str) : str :=
  flat_map (fun c => if c =? old then new else [c]) s.

(** [sep.join(l)] *)
Fixpoint join (sep : str) (l : list str) : str :=
  match l with
  | [] => []
  | [x] => x
  | x :: l' => x ++ sep ++ join sep l'
  end.

(** [str(n)] of an integer. *)
Definition digit_char (d : N) : char := 48 + d.

Fixpoint digits_pos (fuel : nat) (n : N) (acc : str) : str :=
  match fuel with
  | O => acc
  | S f =>
      let acc' := digit_char (n mod 10) :: acc in
      if n <? 10 then acc' else digits_pos f (n / 10) acc'
  end.

Definition str_of_N (n : N) : str := digits_pos (S (N.to_nat (N.log2 n))) n [].

Definition str_of_Z (z : Z) : str :=
  match z with
  | Z0 => [48]
  | Zpos p => str_of_N (Npos p)
  | Zneg p => 45 :: str_of_N (Npos p)
  end.

Definition str_of_nat (n : nat) : str := str_of_N (N.of_nat n).

(** [s[:n]] *)
Definition slice_to (n : nat) (s : str) : str := take n s.

(** [s[-n:]] *)
Definition slice_last (n : nat) (s : str) : str :=
  drop (length s - n)%nat s.

End Py.
Export Py.
Arguments py : simpl never.
Arguments dq : simpl never.

(* ===================================================================== *)
(** * Python floats: binary64 *)
(* ===================================================================== *)

Module PyFloat.
Local Open Scope Z_scope.

Definition float := spec_float.

Definition prec : Z := 53.
Definition emax : Z := 1024.

Definition fadd : float -> float -> float := SFadd prec emax.
Definition fsub : float -> float -> float := SFsub prec emax.
Definition fmul : float -> float -> float := SFmul prec emax.
Definition fdiv : float -> float -> float := SFdiv prec emax.
Definition feqb : float -> float -> bool := SFeqb.

(** The float nearest to the rational [n / d] ([0 < d]), ties to even:
    what [float(...)] and a float literal denote. *)
Definition float_of_ratio (n d : Z) : float :=
  match n, d with
  | Z0, _ => S754_zero false
  | Zpos a, Zpos b => fdiv (S754_finite false a 0) (S754_finite false b 0)
  | Zneg a, Zpos b => fdiv (S754_finite true a 0) (S754_finite false b 0)
  | _, _ => S754_nan
  end.

(** [float(n)] of an integer. *)
Definition float_of_Z (n : Z) : float := float_of_ratio n 1.

Definition is_zero (x : float) : bool :=
  match x with S754_zero _ => true | _ => false end.

Definition is_finite (x : float) : bool :=
  match x with S754_zero _ | S754_finite _ _ _ => true | _ => false end.

Definition sign_of (x : float) : bool :=
  match x with
  | S754_zero s | S754_infinity s | S754_finite s _ _ => s
  | S754_nan => false
  end.

(** The value of a finite float as a fraction [num / den] of
    non-negative integers (sign apart). *)
Definition magnitude (x : float) : Z * Z :=
  match x with
  | S754_finite _ m e =>
      if 0 <=? e then (Zpos m * 2 ^ e, 1) else (Zpos m, 2 ^ (- e))
  | _ => (0, 1)
  end.

(** [num / den] rounded to the nearest integer, ties to even. *)
Definition round_half_even (num den : Z) : Z :=
  let q := num / den in
  let r := num mod den in
  match 2 * r ?= den with
  | Lt => q
  | Gt => q + 1
  | Eq => if Z.even q then q else q + 1
  end.

(** [x.is_integer()] and [int(x)] for such an [x]. *)
Definition is_integer (x : float) : bool :=
  match x with
  | S754_zero _ => true
  | S754_finite _ _ _ => let '(n, d) := magnitude x in n mod d =? 0
  | _ => false
  end.

Definition int_of_float (x : float) : Z :=
  let '(n, d) := magnitude x in
  if sign_of x then - (n / d) else n / d.

(** The decimal digits of a non-negative integer, at least [width] of
    them (zeros are added on the left). *)
Definition pad_digits (width : nat) (n : Z) : str :=
  let ds := str_of_N (Z.to_N n) in
  repeat 48%N (width - length ds)%nat ++ ds.

Definition sign_str (x : float) : str := if sign_of x then [45%N] else [].

(** [format(x, '.<nd>f')]: the exact value of [x] rounded, ties to
    even, to [nd] fractional digits. *)
Definition format_f (nd : nat) (x : float) : str :=
  match x with
  | S754_nan => py "nan"
  | S754_infinity s => sign_str x ++ py "inf"
  | _ =>
      let '(n, d) := magnitude x in
      let q := round_half_even (n * 10 ^ Z.of_nat nd) d in
      let ds := pad_digits (S nd) q in
      let k := (length ds - nd)%nat in
      sign_str x ++ take k ds
        ++ (match nd with O => [] | _ => 46%N :: drop k ds end)
  end.

(** [round(x, nd)] of a float: the float nearest to the decimal that
    [format(x, '.<nd>f')] prints. *)
Definition round_digits (nd : nat) (x : float) : float :=
  match x with
  | S754_finite s _ _ =>
      let '(n, d) := magnitude x in
      let q := round_half_even (n * 10 ^ Z.of_nat nd) d in
      if q =? 0 then S754_zero s
      else float_of_ratio (if s then - q else q) (10 ^ Z.of_nat nd)
  | _ => x
  end.

(** ** [repr(x)]: the shortest decimal that reads back as [x]. *)

(** [decpt] with [10^(decpt-1) <= n/d < 10^decpt], found from an
    estimate by the bit lengths and corrected by comparison. *)
Fixpoint adjust_decpt (fuel : nat) (n d p : Z) : Z :=
  match fuel with
  | O => p
  | S f =>
      let ge_pow q := (* 10^q <= n/d *)
        if 0 <=? q then d * 10 ^ q <=? n else d <=? n * 10 ^ (- q) in
      if ge_pow p then adjust_decpt f n d (p + 1)
      else if ge_pow (p - 1) then p
      else adjust_decpt f n d (p - 1)
  end.

Definition decimal_point (n d : Z) : Z :=
  let guess := (Z.log2 n - Z.log2 d) * 30103 / 100000 in
  adjust_decpt 8 n d guess.

(** The [k]-digit decimal nearest to [n/d]: its digits as an integer
    and its decimal point. *)
Definition nearest_decimal (k : Z) (n d : Z) : Z * Z :=
  let p := decimal_point n d in
  let t := k - p in
  let q := if 0 <=? t then round_half_even (n * 10 ^ t) d
           else round_half_even n (d * 10 ^ (- t)) in
  if q =? 10 ^ k then (10 ^ (k - 1), p + 1) else (q, p).

Definition float_of_decimal (digits decpt k : Z) : float :=
  let t := decpt - k in
  if 0 <=? t then float_of_ratio (digits * 10 ^ t) 1
  else float_of_ratio digits (10 ^ (- t)).

Fixpoint shortest_go (fuel : nat) (k : Z) (x : float) (n d : Z) : Z * Z * Z :=
  let '(q, p) := nearest_decimal k n d in
  match fuel with
  | O => (q, p, k)
  | S f =>
      if feqb (float_of_decimal q p k) (SFabs x) then (q, p, k)
      else shortest_go f (k + 1) x n d
  end.

(** Trailing zeros of the digit string are dropped (the digits of 10.0
    are "1"). *)
Fixpoint strip_zeros (fuel : nat) (q k : Z) : Z * Z :=
  match fuel with
  | O => (q, k)
  | S f => if (q mod 10 =? 0) && (1 <? k) then strip_zeros f (q / 10) (k - 1)
           else (q, k)
  end.

Definition shortest_digits (x : float) : str * Z :=
  let '(n, d) := magnitude x in
  let '(q, p, k) := shortest_go 16 1 x n d in
  let '(q', _) := strip_zeros 17 q k in
  (str_of_N (Z.to_N q'), p).

Definition repr_float (x : float) : str :=
  match x with
  | S754_nan => py "nan"
  | S754_infinity s => sign_str x ++ py "inf"
  | S754_zero s => sign_str x ++ py "0.0"
  | S754_finite s _ _ =>
      let '(ds, decpt) := shortest_digits x in
      let k := Z.of_nat (length ds) in
      sign_str x ++
      if (decpt <=? -4) || (16 <? decpt) then
        let e := decpt - 1 in
        take 1 ds
          ++ (match drop 1 ds with [] => [] | fr => 46%N :: fr end)
          ++ [101%N] ++ (if e <? 0 then [45%N] else [43%N])
          ++ pad_digits 2 (Z.abs e)
      else if decpt <=? 0 then
        py "0." ++ repeat 48%N (Z.to_nat (- decpt)) ++ ds
      else if k <=? decpt then
        ds ++ repeat 48%N (Z.to_nat (decpt - k)) ++ py ".0"
      else
        take (Z.to_nat decpt) ds ++ 46%N :: drop (Z.to_nat decpt) ds
  end.

(** ** [float(s)] on the strings the tools pass to it: digits and dots,
    possibly surrounded by white space. Such a string converts when it
    has at least one digit and at most one dot. *)

Fixpoint read_digits (s : str) (acc : Z) (count : nat) : Z * nat * str :=
  match s with
  | c :: s' =>
      if is_digit c
      then read_digits s' (acc * 10 + Z.of_N (c - 48)) (S count)
      else (acc, count, s)
  | [] => (acc, count, [])
  end.

Definition float_of_str (s : str) : option float :=
  let '(ip, ni, rest) := read_digits (strip s) 0 O in
  match rest with
  | [] => if (0 <? ni)%nat then Some (float_of_Z ip) else None
  | c :: rest' =>
      if (c =? 46)%N then
        let '(all, nf, rest'') := read_digits rest' ip O in
        match rest'' with
        | [] => if (0 <? ni + nf)%nat
                then Some (float_of_ratio all (10 ^ Z.of_nat nf))
                else None
        | _ => None
        end
      else None
  end.

(** A float literal of the source text. *)
Definition lit (s : string) : float :=
  default S754_nan (float_of_str (py s)).

End PyFloat.
Export PyFloat.

(* ===================================================================== *)
(** * The regular expressions of the tools ([re]) *)
(* ===================================================================== *)

Module Re.

(** The patterns of the source are sequences of single characters (or
    character classes) and of starred classes; [Many p least cap] is
    the greedy [p*] ([least = 0]) or [p+] ([least = 1]), which is a
    capture group when [cap] holds. *)
Inductive item :=
| One (p : char -> bool)
| Many (p : char -> bool) (least : nat) (cap : bool).

Definition regex := list item.

(** A pattern letter under [re.IGNORECASE]: a character matches when
    its lower case is the letter, and by the case-fix table of [re]
    the dotless and the dotted i match [i], the long s matches [s], the
    Kelvin sign matches [k]. *)
Definition ci (c x : char) : bool :=
  (lower_char x =? lower_char c)
  || ((c =? 105) && ((x =? 304) || (x =? 305)))
  || ((c =? 115) && (x =? 383))
  || ((c =? 107) && (x =? 8490)).

Definition lit (c x : char) : bool := x =? c.
(** [.] matches anything but a newline. *)
Definition dot (x : char) : bool := negb (x =? 10).
(** [\s] *)
Definition ws (x : char) : bool := is_space x.
(** [\d]: the decimal digits 0-9 (the decimal digits of other scripts
    are not part of the model). *)
Definition digit (x : char) : bool := is_digit x.

Definition word_i (w : string) : regex := map (fun c => One (ci c)) (py w).
Definition word (w : string) : regex := map (fun c => One (lit c)) (py w).

(** Greedy repetition with backtracking: the longest run of [p] first,
    then shorter ones, until the continuation accepts. *)
Fixpoint many {R} (p : char -> bool) (k : str -> str -> option R)
  (taken : str) (s : str) : option R :=
  match s with
  | c :: s' =>
      if p c then
        match many p k (c :: taken) s' with
        | Some r => Some r
        | None => k (rev taken) s
        end
      else k (rev taken) s
  | [] => k (rev taken) []
  end.

(** A match starting at the head of [s]: the groups and what is left
    of [s] after the match. *)
Fixpoint match_here (r : regex) (groups : list str) (s : str)
  : option (list str * str) :=
  match r with
  | [] => Some (groups, s)
  | One p :: r' =>
      match s with
      | c :: s' => if p c then match_here r' groups s' else None
      | [] => None
      end
  | Many p least cap :: r' =>
      many p (fun taken rest =>
                if (least <=? length taken)%nat
                then match_here r' (if cap then groups ++ [taken] else groups) rest
                else None) [] s
  end.

(** [re.match(r, s)]: its groups, if it matches. *)
Definition re_match (r : regex) (s : str) : option (list str) :=
  fst <$> match_here r [] s.

(** [re.search(r, s)], as a truth value. *)
Fixpoint search (r : regex) (s : str) : bool :=
  match match_here r [] s with
  | Some _ => true
  | None => match s with [] => false | _ :: s' => search r s' end
  end.

(** [re.search(r, s)]: the groups of the leftmost match. *)
Fixpoint search_groups (r : regex) (s : str) : option (list str) :=
  match match_here r [] s with
  | Some (g, _) => Some g
  | None => match s with [] => None | _ :: s' => search_groups r s' end
  end.

(** [re.sub(r, repl, s)] for a pattern that matches no empty string:
    the leftmost matches, which do not overlap, are replaced. *)
Fixpoint sub_go (r : regex) (repl : str) (skip : nat) (s : str) : str :=
  match s with
  | [] => []
  | c :: s' =>
      match skip with
      | S k => sub_go r repl k s'
      | O =>
          match match_here r [] s with
          | Some (_, rest) =>
              repl ++ sub_go r repl (length s - length rest - 1)%nat s'
          | None => c :: sub_go r repl O s'
          end
      end
  end.
Definition sub (r : regex) (repl : str) (s : str) : str := sub_go r repl O s.

End Re.

(* ===================================================================== *)
(** * Exceptions *)
(* ===================================================================== *)

(** The classes of the exceptions. The handlers of the tools name
    [Exception] and classes below it; [SystemExit] and
    [KeyboardInterrupt] derive from [BaseException] alone. *)
Inductive exn_class :=
| BaseException_        (* any other class outside Exception *)
| SystemExit | KeyboardInterrupt
| Exception_            (* any other subclass of Exception *)
| ZeroDivisionError | ValueError | JSONDecodeError | UnicodeEncodeError
| TypeError | NameError | SyntaxError | NotImplementedError
| OSError | FileNotFoundError | FileExistsError | PermissionError
| IsADirectoryError | NotADirectoryError
| RequestException | Timeout | HTTPError | ConnectionError.

#[global] Instance exn_class_eq_dec : EqDecision exn_class.
Proof. solve_decision. Defined.

(** [exn_msg] is [str(e)]; [exn_status] is [e.response.status_code] of an
    [HTTPError]. *)
Record exn := Exn { exn_cls : exn_class; exn_msg : str; exn_status : N }.

Definition mk_exn (c : exn_class) (msg : str) : exn := Exn c msg 0.

(** The classes an exception class inherits from (itself included). *)
Definition ancestors (c : exn_class) : list exn_class :=
  match c with
  | BaseException_ => [BaseException_]
  | SystemExit => [SystemExit; BaseException_]
  | KeyboardInterrupt => [KeyboardInterrupt; BaseException_]
  | Exception_ => [Exception_; BaseException_]
  | ZeroDivisionError => [ZeroDivisionError; Exception_; BaseException_]
  | ValueError => [ValueError; Exception_; BaseException_]
  | JSONDecodeError => [JSONDecodeError; ValueError; Exception_; BaseException_]
  | UnicodeEncodeError =>
      [UnicodeEncodeError; ValueError; Exception_; BaseException_]
  | TypeError => [TypeError; Exception_; BaseException_]
  | NameError => [NameError; Exception_; BaseException_]
  | SyntaxError => [SyntaxError; Exception_; BaseException_]
  | NotImplementedError => [NotImplementedError; Exception_; BaseException_]
  | OSError => [OSError; Exception_; BaseException_]
  | FileNotFoundError => [FileNotFoundError; OSError; Exception_; BaseException_]
  | FileExistsError => [FileExistsError; OSError; Exception_; BaseException_]
  | PermissionError => [PermissionError; OSError; Exception_; BaseException_]
  | IsADirectoryError => [IsADirectoryError; OSError; Exception_; BaseException_]
  | NotADirectoryError =>
      [NotADirectoryError; OSError; Exception_; BaseException_]
  | RequestException => [RequestException; OSError; Exception_; BaseException_]
  | Timeout => [Timeout; RequestException; OSError; Exception_; BaseException_]
  | HTTPError =>
      [HTTPError; RequestException; OSError; Exception_; BaseException_]
  | ConnectionError =>
      [ConnectionError; RequestException; OSError; Exception_; BaseException_]
  end.

Definition isinstance (e : exn) (c : exn_class) : bool :=
  bool_decide (c ∈ ancestors (exn_cls e)).

Inductive outcome (A : Type) :=
| Ret (a : A)
| Raise (e : exn).
Arguments Ret {A} a.
Arguments Raise {A} e.

(* ===================================================================== *)
(** * The file system, the trace and the world *)
(* ===================================================================== *)

(** [st_mode], and the three time stamps in seconds. *)
Record metadata := Meta {
  st_mode : N; st_ctime : Z; st_mtime : Z; st_atime : Z }.

(** A directory lists its entries in the order in which the operating
    system reports them; a regular file holds its text. The model has no
    symbolic links. *)
#[local] Unset Elimination Schemes.
Inductive node :=
| File (data : str) (meta : metadata)
| Dir (entries : list (str * node)) (meta : metadata).
#[local] Set Elimination Schemes.

Definition node_meta (n : node) : metadata :=
  match n with File _ m | Dir _ m => m end.

(** [st_size]: the number of bytes of the (UTF-8) text of a file, one
    block for a directory. *)
Definition st_size (n : node) : N :=
  match n with File d _ => utf8_size d | Dir _ _ => 4096 end.

Fixpoint find_entry (name : str) (es : list (str * node)) : option node :=
  match es with
  | [] => None
  | (k, n) :: es' => if str_eqb k name then Some n else find_entry name es'
  end.

Fixpoint set_entry (name : str) (new : node) (es : list (str * node))
  : list (str * node) :=
  match es with
  | [] => [(name, new)]
  | (k, n) :: es' =>
      if str_eqb k name then (k, new) :: es' else (k, n) :: set_entry name new es'
  end.

(** An absolute path is the list of its components below the root. *)
Definition abspath := list str.

Fixpoint fs_lookup (root : node) (p : abspath) : option node :=
  match p with
  | [] => Some root
  | c :: p' =>
      match root with
      | Dir es _ => n ← find_entry c es; fs_lookup n p'
      | File _ _ => None
      end
  end.

(** Put [new] at [p]; the parent of [p] is an existing directory when
    this is called. *)
Fixpoint fs_put (root : node) (p : abspath) (new : node) : node :=
  match p with
  | [] => new
  | c :: p' =>
      match root with
      | Dir es m =>
          match find_entry c es, p' with
          | Some n, _ => Dir (set_entry c (fs_put n p' new) es) m
          | None, [] => Dir (set_entry c new es) m
          | None, _ :: _ => root
          end
      | File _ _ => root
      end
  end.

Inductive log_level := INFO | ERROR.

Inductive event :=
| EvEval (expr : str)                           (* eval(expr, safe_dict) *)
| EvStatistics (fn : str) (data : list float)   (* statistics.<fn>(data) *)
| EvRequest (method : str) (url : str)          (* requests.<method>(url) *)
| EvClock                                       (* datetime.now() *)
| EvLog (level : log_level) (msg : str).        (* self.logger.<level> *)

(** The calls of the operating system that the tools make on a path. *)
Inductive os_call :=
| SysStat        (* os.stat *)
| SysOpenRead    (* open(p, 'r') *)
| SysOpenWrite   (* open(p, 'w') *)
| SysWrite       (* f.write and f.close *)
| SysListdir     (* os.listdir, os.scandir *)
| SysMkdir.      (* os.mkdir *)

#[global] Instance os_call_eq_dec : EqDecision os_call.
Proof. solve_decision. Defined.

(** What the tree does not show of the operating system. *)
Record os := Os {
  (** the error with which a call on a path is refused, if it is
      refused for a reason that the tree does not show: the permission
      bits against the identity of the process, a name longer than the
      file system allows, a quota, a device that is full or read-only *)
  os_refuses : os_call -> abspath -> option exn;
  (** the mode and the time stamps of a file and of a directory that
      are created now *)
  os_new_file : metadata;
  os_new_dir : metadata;
  (** the access time recorded on a node that is read, if one is
      recorded (none on a file system mounted [noatime]) *)
  os_atime : node -> option Z;
  (** how many characters of a text reach the file when the writing
      of it fails *)
  os_written : str -> nat;
}.

(** A file system: its tree, and the operating system that serves it. *)
Record filesystem := Fs { fs_root :> node; fs_os : os }.

Record world := World { w_fs : filesystem; w_trace : list event }.

(** ** Computations *)

Definition M (A : Type) : Type := world -> outcome A * world.

Definition ret {A} (a : A) : M A := fun w => (Ret a, w).
Definition raise {A} (e : exn) : M A := fun w => (Raise e, w).
Definition bind {A B} (m : M A) (k : A -> M B) : M B :=
  fun w => match m w with
           | (Ret a, w') => k a w'
           | (Raise e, w') => (Raise e, w')
           end.
(** [try: m  except ... Exception as e: h e]: the last handler of a
    [try] of the tools is for [Exception], or all its handlers are for
    classes below it, and [h] tells them apart. *)
Definition catch {A} (m : M A) (h : exn -> M A) : M A :=
  fun w => match m w with
           | (Ret a, w') => (Ret a, w')
           | (Raise e, w') =>
               if isinstance e Exception_ then h e w' else (Raise e, w')
           end.
(** [try: m  except: h] *)
Definition catch_all {A} (m : M A) (h : M A) : M A :=
  fun w => match m w with
           | (Ret a, w') => (Ret a, w')
           | (Raise e, w') => h w'
           end.
Definition lift {A} (o : outcome A) : M A := fun w => (o, w).
Definition emit (ev : event) : M unit :=
  fun w => (Ret tt, World (w_fs w) (w_trace w ++ [ev])).
Definition get_fs : M node := fun w => (Ret (fs_root (w_fs w)), w).
Definition get_os : M os := fun w => (Ret (fs_os (w_fs w)), w).
Definition set_fs (root : node) : M unit :=
  fun w => (Ret tt, World (Fs root (fs_os (w_fs w))) (w_trace w)).

Declare Scope py_scope.
Delimit Scope py_scope with py.
Notation "'let!' x ':=' m 'in' k" := (bind m (fun x => k))
  (at level 10, x pattern, m at level 100, k at level 200) : py_scope.
Notation "m1 ';;;' m2" := (bind m1 (fun _ => m2))
  (at level 100, right associativity) : py_scope.
Local Open Scope py_scope.

(** The events a computation adds to the trace. *)
Definition events_of {A} (m : M A) (w : world) : list event :=
  drop (length (w_trace w)) (w_trace (snd (m w))).

Definition result_of {A} (m : M A) (w : world) : outcome A := fst (m w).

(* ===================================================================== *)
(** * The Python run time and the libraries the tools call *)
(* ===================================================================== *)

(** What [eval] can return: an [int], a [float], a [str], or another
    object, of which only [str(...)] is observed. *)
Inductive pyval :=
| PInt (z : Z)
| PFloat (x : float)
| PStr (s : str)
| PObj (shown : str).

Definition str_of_pyval (v : pyval) : str :=
  match v with
  | PInt z => str_of_Z z
  | PFloat x => repr_float x
  | PStr s => s
  | PObj s => s
  end.

(** [sys.get_int_max_str_digits()], as the interpreter starts. *)
Definition int_max_str_digits : nat := 4300.

(** [str(z)] of an [int]: beyond the limit of digits it raises
    [ValueError]. *)
Definition digits_error : exn :=
  mk_exn ValueError
    (py "Exceeds the limit (4300 digits) for integer string conversion; use sys.set_int_max_str_digits() to increase the limit").

Definition str_of_int (z : Z) : outcome str :=
  if (int_max_str_digits <? length (str_of_N (Z.abs_N z)))%nat
  then Raise digits_error
  else Ret (str_of_Z z).

(** [str(v)], as an f-string computes it. *)
Definition py_str (v : pyval) : outcome str :=
  match v with
  | PInt z => str_of_int z
  | _ => Ret (str_of_pyval v)
  end.

(** A parsed JSON document. *)
#[local] Unset Elimination Schemes.
Inductive json :=
| JNull | JBool (b : bool) | JInt (z : Z) | JFloat (x : float) | JStr (s : str)
| JList (l : list json)
| JDict (d : list (str * json)).
#[local] Set Elimination Schemes.

(** A [requests.Response]: the status line, the final URL and the body. *)
Module Response.
Record t := Make { status_code : N; reason : str; url : str; text : str }.
End Response.
Definition response : Type := Response.t.

Record Runtime := {
  (** [eval(expr, safe_dict)] with the dictionary of [_evaluate_math] *)
  rt_eval : str -> outcome pyval;
  (** [statistics.mean], [.median], [.stdev], [.variance] *)
  rt_statistics : str -> list float -> outcome float;
  (** [requests.get], [.post], [.put], [.delete]: the method, the URL
      and the JSON body, if one is sent *)
  rt_request : str -> str -> option str -> outcome response;
  (** [bs4]: the text of a page without scripts and styles; the string
      of its title element, if it has a title ([None] inside when the
      element has no single string); its anchors with an href (href,
      stripped text) and its images with a src (src, alt) *)
  rt_html_text : str -> str;
  rt_html_title : str -> option (option str);
  rt_html_links : str -> list (str * str);
  rt_html_images : str -> list (str * option str);
  rt_urljoin : str -> str -> str;
  (** [json.loads] and [json.dumps(..., ensure_ascii=False, indent=2)] *)
  rt_json_loads : str -> outcome json;
  rt_json_dumps : json -> str;
  (** [csv.reader] and [pandas.read_excel(...).to_string()] *)
  rt_csv_rows : str -> outcome (list (list str));
  rt_read_excel : abspath -> outcome str;
  (** [fnmatch.fnmatch(name, pattern)] *)
  rt_fnmatch : str -> str -> bool;
  (** [datetime.fromtimestamp(t).strftime('%Y-%m-%d %H:%M:%S')] *)
  rt_strftime : Z -> str;
  (** the body of the [try] block of [TimeTool.execute], which reads the
      clock *)
  rt_time_answer : str -> outcome str;
}.

(** [repr(s)] of a string of digits, dots and white space, as it appears
    in the message of [float(s)]. *)
Definition hex_digit (d : N) : char := if d <? 10 then 48 + d else 87 + d.

Definition repr_char (c : char) : str :=
  if c =? 9 then py "\t" else if c =? 10 then py "\n"
  else if c =? 13 then py "\r"
  else if is_space c && negb (c =? 32) then
    if c <? 256 then py "\x" ++ [hex_digit (c / 16); hex_digit (c mod 16)]
    else py "\u" ++ [hex_digit (c / 4096); hex_digit (c / 256 mod 16);
                     hex_digit (c / 16 mod 16); hex_digit (c mod 16)]
  else [c].

Definition repr_str (s : str) : str := py "'" ++ flat_map repr_char s ++ py "'".

(** [float(s)] *)
Definition py_float (s : str) : outcome float :=
  match float_of_str s with
  | Some x => Ret x
  | None => Raise (mk_exn ValueError
                     (py "could not convert string to float: " ++ repr_str s))
  end.

(** [str(l)] of a list of floats. *)
Definition str_of_floats (l : list float) : str :=
  py "[" ++ join (py ", ") (map repr_float l) ++ py "]".

Definition kwargs := gmap str str.

(** [d.get(key, '')] *)
Definition kw_get (d : kwargs) (key : str) : str := default [] (d !! key).

(** The binding of the positional and keyword arguments of a call to
    the parameters of the callee (name and default value), which may
    have a catch-all keyword parameter of its own. *)
Fixpoint bind_positional (params : list (str * option str)) (args : list str)
  (acc : kwargs) : option (kwargs * list (str * option str)) :=
  match args, params with
  | [], _ => Some (acc, params)
  | _ :: _, [] => None
  | a :: args', (p, _) :: params' =>
      bind_positional params' args' (<[p := a]> acc)
  end.

Fixpoint bind_rest (params : list (str * option str)) (kw acc : kwargs)
  : option (kwargs * kwargs) :=
  match params with
  | [] => Some (acc, kw)
  | (p, dflt) :: params' =>
      match kw !! p, dflt with
      | Some v, _ => bind_rest params' (delete p kw) (<[p := v]> acc)
      | None, Some v => bind_rest params' kw (<[p := v]> acc)
      | None, None => None
      end
  end.

Definition bind_args (params : list (str * option str)) (var_kw : bool)
  (args : list str) (kw : kwargs) : outcome (kwargs * kwargs) :=
  let bad := Raise (mk_exn TypeError (py "execute() arguments do not match")) in
  match bind_positional params args ∅ with
  | None => bad
  | Some (acc, rest) =>
      if existsb (fun p => bool_decide (is_Some (kw !! p)))
           (take (length args) (map fst params))
      then bad
      else match bind_rest rest kw acc with
           | None => bad
           | Some (bound, extra) =>
               if var_kw || bool_decide (extra = ∅) then Ret (bound, extra)
               else bad
           end
  end.

(* ===================================================================== *)
(** * [src/tools/__init__.py]: the base class of the tools *)
(* ===================================================================== *)

Module BaseTool.

(** A tool object: its attributes and its two overridable methods.
    [execute] receives the positional and the keyword arguments of the
    call. *)
Record t := Make {
  name : str;
  description : str;
  validate_input : kwargs -> M bool;
  execute : list str -> kwargs -> M str;
}.

(** [BaseTool.validate_input] and [BaseTool.execute], which a subclass
    overrides. *)
Definition base_validate_input (input_data : kwargs) : M bool := ret true.

Definition base_execute (args : list str) (kw : kwargs) : M str :=
  raise (mk_exn NotImplementedError []).

(** [BaseTool.__call__] *)
Definition call (self : t) (args : list str) (kw : kwargs) : M str :=
  catch
    (let! ok := validate_input self kw in
     if ok : bool then
       let! result := execute self args kw in
       emit (EvLog INFO (py "工具 " ++ name self ++ py " 执行成功"));;;
       ret result
     else
       let error_msg := py "工具 " ++ name self ++ py " 输入验证失败" in
       emit (EvLog ERROR error_msg);;;
       ret error_msg)
    (fun e =>
       let error_msg :=
         py "工具 " ++ name self ++ py " 执行失败: " ++ exn_msg e in
       emit (EvLog ERROR error_msg);;;
       ret error_msg).

End BaseTool.

(* ===================================================================== *)
(** * [src/tools/calculator_tool.py] *)
(* ===================================================================== *)

Module CalculatorTool.
Import Re.

Definition name : str := py "calculator".

Definition description : str :=
  dq "执行数学计算和统计分析。支持：
1. 基本运算: +, -, *, /, %, **, //
2. 数学函数: sin, cos, tan, log, exp, sqrt, abs, round
3. 统计分析: 平均值、中位数、标准差、方差
4. 单位转换: 长度、重量、温度、货币
5. 表达式示例: `2+3 * 4`, `sqrt(16)`, `mean([1,2,3,4,5])`, `10km to m`
".

(** A value of the unit table: the factors are numbers, the entries of
    the temperature category are names. *)
Inductive uval :=
| UInt (z : Z)
| UFloat (x : float)
| UStr (s : str).

Definition length_units : gmap str uval :=
  list_to_map
    [ (py "m", UInt 1); (py "km", UInt 1000);
      (py "cm", UFloat (PyFloat.lit "0.01"));
      (py "mm", UFloat (PyFloat.lit "0.001"));
      (py "inch", UFloat (PyFloat.lit "0.0254"));
      (py "ft", UFloat (PyFloat.lit "0.3048"));
      (py "mile", UFloat (PyFloat.lit "1609.344")) ].

Definition weight_units : gmap str uval :=
  list_to_map
    [ (py "kg", UInt 1); (py "g", UFloat (PyFloat.lit "0.001"));
      (py "mg", UFloat (PyFloat.lit "0.000001"));
      (py "lb", UFloat (PyFloat.lit "0.453592"));
      (py "oz", UFloat (PyFloat.lit "0.0283495")) ].

Definition temperature_names : gmap str uval :=
  list_to_map
    [ (py "c", UStr (py "celsius")); (py "f", UStr (py "fahrenheit"));
      (py "k", UStr (py "kelvin")) ].

(** [self.units]; the categories are visited in this order. *)
Definition units : list (str * gmap str uval) :=
  [ (py "length", length_units); (py "weight", weight_units);
    (py "temperature", temperature_names) ].

(** [dangerous_patterns], compiled with [re.IGNORECASE]. *)
Definition dangerous_patterns : list regex :=
  [ word_i "import" ++ [Many ws 1 false];
    word_i "exec" ++ [Many ws 0 false] ++ word_i "(";
    word_i "eval" ++ [Many ws 0 false] ++ word_i "(";
    word_i "__" ++ [Many dot 0 false] ++ word_i "__";
    word_i "open" ++ [Many ws 0 false] ++ word_i "(";
    word_i "os.";
    word_i "sys.";
    word_i "subprocess." ].

(** [CalculatorTool.validate_input]. The keyword arguments are
    strings, so [isinstance(expression, str)] holds. *)
Definition validate_input (input_data : kwargs) : bool :=
  let expression := kw_get input_data (py "expression") in
  if bool_decide (expression = []) then false
  else if existsb (fun pattern => search pattern expression)
            dangerous_patterns
  then false
  else true.

(** One [re.sub(r'<fn>\s*\(', repl, expr, flags=re.IGNORECASE)]. *)
Definition sub_call (fn : string) (repl : string) (expr : str) : str :=
  sub (word_i fn ++ [Many ws 0 false] ++ word_i "(") (py repl) expr.

(** [CalculatorTool._preprocess_expression] *)
Definition _preprocess_expression (expr : str) : str :=
  let expr := replace_char 215 (py "*") expr in     (* the sign of multiplication *)
  let expr := replace_char 247 (py "/") expr in     (* the sign of division *)
  let expr := replace_char 94 (py "**") expr in     (* ^ *)
  let expr := sub_call "sin" "math.sin(" expr in
  let expr := sub_call "cos" "math.cos(" expr in
  let expr := sub_call "tan" "math.tan(" expr in
  let expr := sub_call "sqrt" "math.sqrt(" expr in
  let expr := sub_call "log" "math.log10(" expr in
  let expr := sub_call "ln" "math.log(" expr in
  let expr := sub_call "exp" "math.exp(" expr in
  let expr := sub_call "abs" "abs(" expr in
  expr.

(** Arithmetic of a float with a value of the table. *)
Definition mul_uval (x : float) (u : uval) : outcome float :=
  match u with
  | UInt z => Ret (fmul x (float_of_Z z))
  | UFloat y => Ret (fmul x y)
  | UStr _ => Raise (mk_exn TypeError
                (py "can't multiply sequence by non-int of type 'float'"))
  end.

Definition div_uval (x : float) (u : uval) : outcome float :=
  let div y :=
    if is_zero y
    then Raise (mk_exn ZeroDivisionError (py "float division by zero"))
    else Ret (fdiv x y) in
  match u with
  | UInt z => div (float_of_Z z)
  | UFloat y => div y
  | UStr _ => Raise (mk_exn TypeError
                (py "unsupported operand type(s) for /: 'float' and 'str'"))
  end.

Definition temperature_units : list str := [py "c"; py "f"; py "k"].

(** [CalculatorTool._convert_temperature] *)
Definition _convert_temperature (value : float) (from_unit to_unit : str)
  : outcome float :=
  let to_target (celsius : float) : outcome float :=
    if str_eqb to_unit (py "c") then Ret celsius
    else if str_eqb to_unit (py "f") then
      Ret (fadd (fdiv (fmul celsius (float_of_Z 9)) (float_of_Z 5))
                (float_of_Z 32))
    else if str_eqb to_unit (py "k") then
      Ret (fadd celsius (PyFloat.lit "273.15"))
    else Raise (mk_exn ValueError (py "不支持的温度单位: " ++ to_unit)) in
  if str_eqb from_unit (py "c") then to_target value
  else if str_eqb from_unit (py "f") then
    to_target (fdiv (fmul (fsub value (float_of_Z 32)) (float_of_Z 5))
                    (float_of_Z 9))
  else if str_eqb from_unit (py "k") then
    to_target (fsub value (PyFloat.lit "273.15"))
  else Raise (mk_exn ValueError (py "不支持的温度单位: " ++ from_unit)).

(** The first category in which both units are registered. *)
Fixpoint find_category (table : list (str * gmap str uval))
  (from_unit to_unit : str) : option (str * gmap str uval) :=
  match table with
  | [] => None
  | (category, us) :: table' =>
      if bool_decide (is_Some (us !! from_unit))
         && bool_decide (is_Some (us !! to_unit))
      then Some (category, us)
      else find_category table' from_unit to_unit
  end.

(** [r'([\d\.]+)\s*([a-zA-Z]+)'] *)
Definition value_unit_pattern : regex :=
  [ Many (fun c => digit c || lit 46 c) 1 true;
    Many ws 0 false;
    Many is_alpha_ascii 1 true ].

(** The text of a request, cut at the word [to]: the part before it
    and the target unit, when there is exactly one [to]. *)
Definition split_request (expr : str) : option (str * str) :=
  match split (lower expr) (py "to") with
  | [a; b] => Some (strip a, strip b)
  | _ => None
  end.

(** [d[key]] of the table; both lookups follow a successful search of
    the category. *)
Definition factor (us : gmap str uval) (u : str) : outcome uval :=
  match us !! u with
  | Some v => Ret v
  | None => Raise (mk_exn Exception_ (repr_str u))   (* KeyError *)
  end.

Definition outcome_bind {A B} (o : outcome A) (k : A -> outcome B)
  : outcome B :=
  match o with Ret a => k a | Raise e => Raise e end.

(** [CalculatorTool._convert_units]; no step of it acts on the world. *)
Definition _convert_units (expr : str) : str :=
  let body : outcome str :=
    match split_request expr with
    | None => Ret (py "格式错误，请使用 '10km to m' 格式")
    | Some (from_part, to_unit) =>
        match re_match value_unit_pattern from_part with
        | Some [number; from_unit] =>
            outcome_bind (py_float number) (fun value =>
            if bool_decide (from_unit ∈ temperature_units)
               && bool_decide (to_unit ∈ temperature_units)
            then
              outcome_bind (_convert_temperature value from_unit to_unit)
                (fun result =>
              Ret (repr_float value ++ upper from_unit ++ py " = "
                   ++ repr_float result ++ upper to_unit))
            else
              match find_category units from_unit to_unit with
              | None =>
                  Ret (py "不支持 " ++ from_unit ++ py " 到 " ++ to_unit
                       ++ py " 的转换")
              | Some (_, us) =>
                  outcome_bind (factor us from_unit) (fun f_from =>
                  outcome_bind (mul_uval value f_from) (fun base_value =>
                  outcome_bind (factor us to_unit) (fun f_to =>
                  outcome_bind (div_uval base_value f_to) (fun result =>
                  Ret (repr_float value ++ from_unit ++ py " = "
                       ++ format_f 4 result ++ to_unit)))))
              end)
        | _ => Ret (py "无法解析数值和单位")
        end
    end in
  match body with
  | Ret s => s
  | Raise e => py "单位转换错误: " ++ exn_msg e
  end.

Section WithRuntime.
Context (rt : Runtime).

(** [CalculatorTool._evaluate_math]: the expression is handed to
    [eval], and a float result is shown as an integer when it is
    one, rounded to six digits otherwise. *)
Definition _evaluate_math (expr : str) : M pyval :=
  emit (EvEval expr);;;
  let! result := lift (rt_eval rt expr) in
  match result with
  | PFloat x =>
      if is_integer x then ret (PInt (int_of_float x))
      else ret (PFloat (round_digits 6 x))
  | _ => ret result
  end.

(** [r'\(\[([\d\.,\s]+)\]\)'] *)
Definition data_pattern : regex :=
  word "([" ++
  [ Many (fun c => digit c || lit 46 c || lit 44 c || ws c) 1 true ]
  ++ word "])".

Fixpoint floats_of (items : list str) : outcome (list float) :=
  match items with
  | [] => Ret []
  | x :: items' =>
      outcome_bind (py_float (strip x)) (fun v =>
      outcome_bind (floats_of items') (fun vs => Ret (v :: vs)))
  end.

(** [CalculatorTool._statistical_analysis] *)
Definition _statistical_analysis (expr : str) : M str :=
  catch
    (match search_groups data_pattern expr with
     | Some [data_str] =>
         let! data := lift (floats_of (split data_str (py ","))) in
         let stat (fn operation : str) : M str :=
           emit (EvStatistics fn data);;;
           let! result := lift (rt_statistics rt fn data) in
           ret (operation ++ py ": " ++ format_f 4 result
                ++ py " (数据: " ++ str_of_floats data ++ py ")") in
         if startswith expr (py "mean(")
         then stat (py "mean") (py "平均值")
         else if startswith expr (py "median(")
         then stat (py "median") (py "中位数")
         else if startswith expr (py "std(")
         then stat (py "stdev") (py "标准差")
         else if startswith expr (py "var(")
         then stat (py "variance") (py "方差")
         else ret (py "不支持的统计函数")
     | _ => ret (py "格式错误，请使用 'mean([1,2,3,4,5])' 格式")
     end)
    (fun e => ret (py "统计分析错误: " ++ exn_msg e)).

(** [CalculatorTool.execute] *)
Definition execute (expression : str) : M str :=
  catch
    (let expr := _preprocess_expression expression in
     if contains (lower expr) (py "to") then ret (_convert_units expr)
     else if startswith expr (py "mean(") || startswith expr (py "median(")
             || startswith expr (py "std(") || startswith expr (py "var(")
     then _statistical_analysis expr
     else
       let! result := _evaluate_math expr in
       let! shown := lift (py_str result) in
       ret (py "计算结果: " ++ shown))
    (fun e =>
       if isinstance e ZeroDivisionError then ret (py "错误：除数不能为零")
       else if isinstance e ValueError
       then ret (py "输入错误: " ++ exn_msg e)
       else ret (py "计算错误: " ++ exn_msg e)).

(** The method [execute] as [__call__] reaches it: its one parameter
    is [expression]. *)
Definition execute_call (args : list str) (kw : kwargs) : M str :=
  let! bound := lift (bind_args [(py "expression", None)] false args kw) in
  execute (kw_get (fst bound) (py "expression")).

(** The module-level instance [calculator_tool]. *)
Definition calculator_tool : BaseTool.t :=
  BaseTool.Make name description
    (fun input_data => ret (validate_input input_data)) execute_call.

End WithRuntime.
End CalculatorTool.

(* ===================================================================== *)
(** * Paths ([pathlib]) and the primitives of the operating system *)
(* ===================================================================== *)

Module Path.

(** A [pathlib.Path]: whether it is anchored at the root, and its
    components. *)
Record t := Make { is_absolute : bool; parts : list str }.

Definition sep : char := 47.
Definition dotdot : str := py "..".

(** [Path(s)]: empty components and [.] components are dropped, [..]
    components are kept. *)
Definition of_str (s : str) : t :=
  Make (startswith s [sep])
       (filter (fun c => c ≠ [] ∧ c ≠ py ".") (split s [sep])).

(** [a / b] for an absolute [a]. *)
Definition join (a : abspath) (b : t) : abspath :=
  if is_absolute b then parts b else a ++ parts b.

(** [p.resolve()]. The file system of the model has no symbolic
    links, so the canonical path is obtained from the components
    alone: a [..] component removes the component before it, and is
    dropped at the root. *)
Fixpoint resolve_go (acc : list str) (p : list str) : abspath :=
  match p with
  | [] => rev acc
  | c :: p' =>
      if str_eqb c dotdot then resolve_go (tail acc) p'
      else resolve_go (c :: acc) p'
  end.
Definition resolve (p : abspath) : abspath := resolve_go [] p.

(** [p.relative_to(base)] succeeds when the components of [base] are
    the first components of [p]; it raises [ValueError] otherwise. *)
Fixpoint is_relative_to (p base : abspath) : bool :=
  match base, p with
  | [], _ => true
  | _ :: _, [] => false
  | b :: base', c :: p' => str_eqb b c && is_relative_to p' base'
  end.

(** [str(p)] *)
Definition to_str (p : abspath) : str :=
  match p with
  | [] => [sep]
  | _ => flat_map (fun c => sep :: c) p
  end.

Definition parent (p : abspath) : abspath := removelast p.

(** A path one of whose components holds the character NUL: no call of
    the operating system takes it. *)
Definition has_nul (p : list str) : bool :=
  existsb (fun c => bool_decide (0 ∈ c)) p.

(** [p.name] *)
Definition name (p : abspath) : str := List.last p [].

(** [p.suffix]: the last dot of the name and what follows it, unless
    that dot is the first or the last character of the name. *)
Fixpoint last_dot (s : str) (i : nat) (found : option nat) : option nat :=
  match s with
  | [] => found
  | c :: s' => last_dot s' (S i) (if c =? 46 then Some i else found)
  end.

Definition suffix (p : abspath) : str :=
  let n := name p in
  match last_dot n O None with
  | Some i =>
      if (0 <? i)%nat && (i <? length n - 1)%nat then drop i n else []
  | None => []
  end.

End Path.

Module OS.

(** The location a path denotes: the operating system walks the
    components, and a [..] component is followed from an existing
    directory only. *)
Fixpoint canon_go (root : node) (acc : list str) (p : list str)
  : option abspath :=
  match p with
  | [] => Some (rev acc)
  | c :: p' =>
      if str_eqb c Path.dotdot then
        match fs_lookup root (rev acc) with
        | Some (Dir _ _) => canon_go root (tail acc) p'
        | _ => None
        end
      else canon_go root (c :: acc) p'
  end.
Definition canon (root : node) (p : abspath) : option abspath :=
  canon_go root [] p.

(** What the tree holds at [p]. *)
Definition stat (root : node) (p : abspath) : option node :=
  q ← canon root p; fs_lookup root q.

Definition exists_ (root : node) (p : abspath) : bool :=
  bool_decide (is_Some (stat root p)).
Definition is_file (root : node) (p : abspath) : bool :=
  match stat root p with Some (File _ _) => true | _ => false end.
Definition is_dir (root : node) (p : abspath) : bool :=
  match stat root p with Some (Dir _ _) => true | _ => false end.

Definition errno_msg (what : string) (p : abspath) : str :=
  py what ++ py ": '" ++ Path.to_str p ++ py "'".

Definition nul_error : exn := mk_exn ValueError (py "embedded null byte").

(** The error of a call on a path that the tree does not hold:
    [ENOTDIR] when a regular file is on the way, [ENOENT] otherwise. *)
Definition absent (root : node) (p : abspath) : exn :=
  if existsb (fun k => is_file root (take k p)) (seq 0 (length p))
  then mk_exn NotADirectoryError (errno_msg "[Errno 20] Not a directory" p)
  else mk_exn FileNotFoundError
         (errno_msg "[Errno 2] No such file or directory" p).

(** The operating system refuses the call, or lets it go on. *)
Definition refusal (call : os_call) (p : abspath) : M unit :=
  let! os := get_os in
  match os_refuses os call p with
  | Some e => raise e
  | None => ret tt
  end.

(** [os.stat(p)] *)
Definition path_stat (p : abspath) : M node :=
  if Path.has_nul p then raise nul_error
  else
    refusal SysStat p;;;
    let! root := get_fs in
    match stat root p with
    | Some n => ret n
    | None => raise (absent root p)
    end.

(** [Path.exists], [Path.is_file] and [Path.is_dir] are a [stat] and a
    test of its answer; the answer is [False] when [stat] fails with
    [ENOENT] or [ENOTDIR], or with a [ValueError], and another error is
    raised. *)
Definition probe (test : node -> bool) (p : abspath) : M bool :=
  catch
    (let! n := path_stat p in ret (test n))
    (fun e =>
       if isinstance e FileNotFoundError || isinstance e NotADirectoryError
          || isinstance e ValueError
       then ret false
       else raise e).

Definition path_exists : abspath -> M bool := probe (fun _ => true).
Definition path_is_file : abspath -> M bool :=
  probe (fun n => match n with File _ _ => true | Dir _ _ => false end).
Definition path_is_dir : abspath -> M bool :=
  probe (fun n => match n with Dir _ _ => true | File _ _ => false end).

(** The time stamps. A node that is read gets the access time that the
    operating system records, if it records one. *)
Definition with_atime (t : Z) (n : node) : node :=
  let set m := Meta (st_mode m) (st_ctime m) (st_mtime m) t in
  match n with
  | File d m => File d (set m)
  | Dir es m => Dir es (set m)
  end.

Definition touch_at (q : abspath) : M unit :=
  let! root := get_fs in
  let! os := get_os in
  match fs_lookup root q with
  | Some n =>
      match os_atime os n with
      | Some t => set_fs (fs_put root q (with_atime t n))
      | None => ret tt
      end
  | None => ret tt
  end.

Definition touch (p : abspath) : M unit :=
  let! root := get_fs in
  match canon root p with
  | Some q => touch_at q
  | None => ret tt
  end.

(** A node whose content changes gets the time of the change as its
    [st_mtime] and [st_ctime]. *)
Definition changed (now m : metadata) : metadata :=
  Meta (st_mode m) (st_ctime now) (st_mtime now) (st_atime m).

Definition restamp (now : metadata) (n : node) : node :=
  match n with
  | File d m => File d (changed now m)
  | Dir es m => Dir es (changed now m)
  end.

(** A new node is entered at [q]: the directory that receives it
    changes. *)
Definition put_new (root : node) (q : abspath) (new : node) : node :=
  let root := fs_put root q new in
  match fs_lookup root (Path.parent q) with
  | Some d => fs_put root (Path.parent q) (restamp (node_meta new) d)
  | None => root
  end.

(** Reading in text mode: [\r\n] and a lone [\r] become [\n]. *)
Fixpoint universal_newlines (s : str) : str :=
  match s with
  | [] => []
  | c :: s' =>
      if c =? 13 then
        match s' with
        | d :: s'' => if d =? 10 then 10 :: universal_newlines s''
                      else 10 :: universal_newlines s'
        | [] => [10]
        end
      else c :: universal_newlines s'
  end.

(** [open(p, 'r', encoding='utf-8')] followed by [f.read()]. *)
Definition read_text (p : abspath) : M str :=
  if Path.has_nul p then raise nul_error
  else
    refusal SysOpenRead p;;;
    let! root := get_fs in
    match stat root p with
    | Some (File data _) => touch p;;; ret (universal_newlines data)
    | Some (Dir _ _) =>
        raise (mk_exn IsADirectoryError
                 (errno_msg "[Errno 21] Is a directory" p))
    | None => raise (absent root p)
    end.

(** The characters that UTF-8 cannot encode: the surrogates. *)
Definition is_surrogate (c : char) : bool := (55296 <=? c) && (c <=? 57343).

Fixpoint run_length (s : str) : nat :=
  match s with
  | c :: s' => if is_surrogate c then S (run_length s') else O
  | [] => O
  end.

(** The first surrogate of a text, its position, and how many more
    follow it at once. *)
Fixpoint first_surrogates (s : str) (i : nat) : option (char * nat * nat) :=
  match s with
  | [] => None
  | c :: s' =>
      if is_surrogate c then Some (c, i, run_length s')
      else first_surrogates s' (S i)
  end.

Definition encode_error (s : str) : option exn :=
  match first_surrogates s O with
  | None => None
  | Some (c, i, more) =>
      Some (mk_exn UnicodeEncodeError
        (py "'utf-8' codec can't encode character"
         ++ (match more with
             | O => py " '\u" ++ [hex_digit (c / 4096); hex_digit (c / 256 mod 16);
                                  hex_digit (c / 16 mod 16); hex_digit (c mod 16)]
                    ++ py "' in position " ++ str_of_nat i
             | _ => py "s in position " ++ str_of_nat i ++ py "-"
                    ++ str_of_nat (i + more)
             end)
         ++ py ": surrogates not allowed"))
  end.

(** What [f.write(content)] and the closing of the file leave in the
    file, and the error they end with, if there is one: a text that
    cannot be encoded is not written at all. *)
Definition written (os : os) (p : abspath) (content : str)
  : str * option exn :=
  match encode_error content with
  | Some e => ([], Some e)
  | None =>
      match os_refuses os SysWrite p with
      | Some e => (take (os_written os content) content, Some e)
      | None => (content, None)
      end
  end.

(** [open(p, 'w', encoding='utf-8')] followed by [f.write(content)]:
    the file is created, or emptied, when it is opened, and holds
    afterwards what was written. Line ends are written as they are
    (the line separator of the platform is [\n]). *)
Definition write_text (p : abspath) (content : str) : M unit :=
  if Path.has_nul p then raise nul_error
  else
    refusal SysOpenWrite p;;;
    let! root := get_fs in
    let! os := get_os in
    let '(text, failure) := written os p content in
    let finish : M unit :=
      match failure with Some e => raise e | None => ret tt end in
    match canon root p with
    | None => raise (absent root p)
    | Some q =>
        match fs_lookup root q, fs_lookup root (Path.parent q) with
        | Some (Dir _ _), _ =>
            raise (mk_exn IsADirectoryError
                     (errno_msg "[Errno 21] Is a directory" p))
        | Some (File _ m), _ =>
            set_fs (fs_put root q (File text (changed (os_new_file os) m)));;;
            finish
        | None, Some (Dir _ _) =>
            set_fs (put_new root q (File text (os_new_file os)));;;
            finish
        | None, _ => raise (absent root p)
        end
    end.

(** The entries of a directory of the tree: names and nodes. *)
Definition iterdir (root : node) (p : abspath) : list (str * node) :=
  match stat root p with
  | Some (Dir es _) => es
  | _ => []
  end.

(** [list(p.iterdir())] *)
Definition listdir (p : abspath) : M (list (str * node)) :=
  if Path.has_nul p then raise nul_error
  else
    refusal SysListdir p;;;
    let! root := get_fs in
    match stat root p with
    | Some (Dir es _) => touch p;;; ret es
    | Some (File _ _) =>
        raise (mk_exn NotADirectoryError
                 (errno_msg "[Errno 20] Not a directory" p))
    | None => raise (absent root p)
    end.

(** The [stat] of each entry of a directory, in their order. *)
Fixpoint stat_entries (p : abspath) (items : list (str * node)) : M unit :=
  match items with
  | [] => ret tt
  | (name, _) :: items' =>
      refusal SysStat (p ++ [name]);;; stat_entries p items'
  end.

(** [os.mkdir(p)] *)
Definition sys_mkdir (p : abspath) : M unit :=
  if Path.has_nul p then raise nul_error
  else
    refusal SysMkdir p;;;
    let! root := get_fs in
    let! os := get_os in
    match canon root p with
    | None => raise (absent root p)
    | Some q =>
        match fs_lookup root q, fs_lookup root (Path.parent q) with
        | Some _, _ =>
            raise (mk_exn FileExistsError
                     (errno_msg "[Errno 17] File exists" p))
        | None, Some (Dir _ _) =>
            set_fs (put_new root q (Dir [] (os_new_dir os)))
        | None, _ => raise (absent root p)
        end
    end.

(** [p.mkdir(parents=False, exist_ok=True)]: an [OSError] of
    [os.mkdir] is passed over when [p] is a directory. *)
Definition mkdir_exist_ok (p : abspath) : M unit :=
  catch (sys_mkdir p)
    (fun e =>
       if isinstance e OSError then
         let! there := path_is_dir p in
         if there : bool then ret tt else raise e
       else raise e).

(** [p.mkdir(parents=True, exist_ok=True)]: when [os.mkdir] fails for
    want of the parent, the parent is made in the same way, and then
    [p]. *)
Fixpoint mkdir_parents (fuel : nat) (p : abspath) : M unit :=
  catch (sys_mkdir p)
    (fun e =>
       if isinstance e FileNotFoundError then
         match fuel, p with
         | S fuel', _ :: _ =>
             mkdir_parents fuel' (Path.parent p);;; mkdir_exist_ok p
         | _, _ => raise e
         end
       else if isinstance e OSError then
         let! there := path_is_dir p in
         if there : bool then ret tt else raise e
       else raise e).

Definition mkdir (p : abspath) : M unit := mkdir_parents (length p) p.

(** [os.path.join(a, b)] for a relative [b]. *)
Definition path_join (a b : str) : str :=
  if bool_decide (List.last a 0 = Path.sep) then a ++ b else a ++ [Path.sep] ++ b.

(** [os.walk(top)]: a directory, then the directories below it in the
    order of its entries; a directory whose listing is refused is
    passed over with all that is below it. Each directory comes with
    its place in the tree. *)
Fixpoint walk (refused : abspath -> bool) (top : str) (p : abspath) (n : node)
  : list (abspath * (str * list str)) :=
  match n with
  | File _ _ => []
  | Dir es _ =>
      if refused p then []
      else
        let files :=
          omap (fun e => match snd e with File _ _ => Some (fst e) | _ => None end) es in
        (p, (top, files)) ::
        (fix below (es : list (str * node)) : list (abspath * (str * list str)) :=
           match es with
           | [] => []
           | (name, child) :: es' =>
               walk refused (path_join top name) (p ++ [name]) child ++ below es'
           end) es
  end.

(** The directories that a walk has listed get their access time. *)
Fixpoint touch_all (ps : list abspath) : M unit :=
  match ps with
  | [] => ret tt
  | p :: ps' => touch_at p;;; touch_all ps'
  end.

End OS.

(* ===================================================================== *)
(** * [src/tools/file_tool.py] *)
(* ===================================================================== *)

Module FileTool.

Definition name : str := py "file_tool".

Definition description : str :=
  dq "文件系统操作工具。支持：
1. 文件读取: 读取文本、JSON、CSV、Excel文件
2. 文件写入: 写入文本、JSON、CSV文件
3. 目录管理: 列出目录、创建目录、删除目录
4. 文件信息: 获取文件大小、修改时间、类型
5. 文件搜索: 按名称搜索文件
6. 示例: `读取data.txt`, `列出当前目录`, `创建目录test`, `搜索*.py文件`
".

(** The attributes [__init__] sets. *)
Record t := Make {
  base_path : abspath;
  restricted_paths : list abspath;
}.

(** [FileTool.__init__(base_path)], run in the working directory
    [cwd] by a user whose home directory is [home]. *)
Definition init (cwd home : abspath) (base : str) : t :=
  Make (Path.join cwd (Path.of_str base))
       [ []; [py "Windows"]; [py "System"]; [py "etc"]; [py "usr"];
         home ++ [py "Desktop"]; home ++ [py "Documents"] ].

Definition supported_extensions : gmap str str :=
  list_to_map
    [ (py ".txt", py "文本文件"); (py ".json", py "JSON文件");
      (py ".csv", py "CSV文件"); (py ".xlsx", py "Excel文件");
      (py ".xls", py "Excel文件"); (py ".py", py "Python文件");
      (py ".md", py "Markdown文件"); (py ".log", py "日志文件") ].

(** [FileTool._get_safe_path] *)
Definition _get_safe_path (self : t) (path : str) : outcome abspath :=
  if bool_decide (path = []) || str_eqb path (py ".") then Ret (base_path self)
  else
    let target_path := Path.of_str path in
    let target_path := Path.join (base_path self) target_path in
    (* [resolve] asks the operating system for each component, and
       passes over the errors of the system *)
    if Path.has_nul target_path
    then Raise (mk_exn ValueError (py "embedded null byte"))
    else
    let target_path := Path.resolve target_path in
    if Path.is_relative_to target_path (base_path self) then Ret target_path
    else Raise (mk_exn PermissionError (py "访问路径超出允许范围: " ++ path)).

(** [FileTool._is_path_safe] *)
Definition _is_path_safe (self : t) (path : abspath) : bool :=
  negb (existsb (fun restricted => Path.is_relative_to path restricted)
          (restricted_paths self)).

(** [FileTool.validate_input] *)
Definition validate_input (self : t) (input_data : kwargs) : bool :=
  let operation := kw_get input_data (py "operation") in
  let path := kw_get input_data (py "path") in
  if bool_decide (operation = []) then false
  else if bool_decide (path = []) then true
  else match _get_safe_path self path with
       | Ret full_path => _is_path_safe self full_path
       | Raise _ => false
       end.

(** [FileTool._format_size] *)
Fixpoint format_size_loop (size_bytes : float) (names : list str) : str :=
  match names with
  | [] => format_f 1 size_bytes ++ py " TB"
  | unit :: names' =>
      if SFltb size_bytes (float_of_Z 1024)
      then format_f 1 size_bytes ++ py " " ++ unit
      else format_size_loop (fdiv size_bytes (float_of_Z 1024)) names'
  end.

Definition _format_size (size_bytes : N) : str :=
  format_size_loop (float_of_Z (Z.of_N size_bytes))
    [py "B"; py "KB"; py "MB"; py "GB"].

(** [FileTool._get_help] *)
Definition _get_help : str :=
  dq "
可用操作:
1. 读取文件: operation=`read`, path=`文件名`
2. 写入文件: operation=`write`, path=`文件名`, content=`内容`
3. 列出目录: operation=`list`, path=`目录路径` (可选)
4. 文件信息: operation=`info`, path=`文件路径`
5. 创建目录: operation=`create_dir`, path=`目录路径`
6. 搜索文件: operation=`search`, path=`目录路径`, pattern=`*.py`
7. 检查存在: operation=`exists`, path=`路径`

示例:
- 读取data.txt: operation=`read`, path=`data.txt`
- 列出当前目录: operation=`list`
- 创建test目录: operation=`create_dir`, path=`test`
".

Definition nl : str := [10].

Section WithRuntime.
Context (rt : Runtime) (self : t).

(** [FileTool._read_file] *)
Definition _read_file (filepath : str) : M str :=
  catch
    (let! full_path := lift (_get_safe_path self filepath) in
     let! found := OS.path_exists full_path in
     if negb found then ret (py "文件不存在: " ++ filepath)
     else
     let! is_file := OS.path_is_file full_path in
     if negb is_file then ret (py "不是文件: " ++ filepath)
     else
     let! stat := OS.path_stat full_path in
     if (10 * 1024 * 1024 <? st_size stat)
     then ret (py "文件过大（超过10MB）: " ++ filepath)
     else
       let ext := lower (Path.suffix full_path) in
       if str_eqb ext (py ".json") then
         let! f := OS.read_text full_path in
         let! data := lift (rt_json_loads rt f) in
         ret (py "JSON内容:" ++ nl ++ rt_json_dumps rt data)
       else if str_eqb ext (py ".csv") then
         let! f := OS.read_text full_path in
         let! rows := lift (rt_csv_rows rt f) in
         match rows with
         | [] => ret (py "CSV文件为空")
         | _ =>
             let preview := join nl (map (join (py ",")) (take 5 rows)) in
             let total := length rows in
             ret (py "CSV内容 (前5行/共" ++ str_of_nat total ++ py "行):"
                  ++ nl ++ preview)
         end
       else if str_eqb ext (py ".xlsx") || str_eqb ext (py ".xls") then
         catch_all
           (let! df := lift (rt_read_excel rt full_path) in
            ret (py "Excel内容 (前5行):" ++ nl ++ df))
           (ret (py "无法读取Excel文件，可能需要安装openpyxl或xlrd"))
       else
         let! f := OS.read_text full_path in
         let content := take 5000 f in
         let content :=
           if (length content =? 5000)%nat
           then content ++ nl ++ py "...(内容截断，只显示前5000字符)"
           else content in
         ret (py "文件内容:" ++ nl ++ content))
    (fun e =>
       if isinstance e PermissionError
       then ret (py "没有权限读取文件: " ++ filepath)
       else ret (py "读取文件失败: " ++ exn_msg e)).

(** [FileTool._write_file] *)
Definition _write_file (filepath content : str) : M str :=
  catch
    (let! full_path := lift (_get_safe_path self filepath) in
     let parent := Path.parent full_path in
     let! found := OS.path_exists parent in
     if negb found
     then ret (py "父目录不存在: " ++ Path.to_str parent)
     else
       OS.write_text full_path content;;;
       ret (py "文件保存成功: " ++ filepath))
    (fun e =>
       if isinstance e PermissionError
       then ret (py "没有权限写入文件: " ++ filepath)
       else ret (py "写入文件失败: " ++ exn_msg e)).

(** The two lists [_list_directory] fills, in the order of the
    entries. *)
Definition dir_lines (items : list (str * node)) : list str :=
  omap (fun item =>
          match snd item with
          | Dir _ _ => Some (py "📁 " ++ fst item ++ py "/")
          | File _ _ => None
          end) items.

Definition file_lines (items : list (str * node)) : list str :=
  omap (fun item =>
          match snd item with
          | Dir _ _ => None
          | File _ _ =>
              let size := st_size (snd item) in
              let size_str := _format_size size in
              Some (py "📄 " ++ fst item ++ py " (" ++ size_str ++ py ")")
          end) items.

(** [FileTool._list_directory]; the handlers see [dirpath] as the
    first statement of the [try] leaves it. *)
Definition _list_directory (dirpath : str) : M str :=
  let dirpath := if bool_decide (dirpath = []) then py "." else dirpath in
  catch
    (let! full_path := lift (_get_safe_path self dirpath) in
     let! found := OS.path_exists full_path in
     if negb found then ret (py "目录不存在: " ++ dirpath)
     else
     let! is_dir := OS.path_is_dir full_path in
     if negb is_dir then ret (py "不是目录: " ++ dirpath)
     else
       let! items := OS.listdir full_path in
       match items with
       | [] => ret (py "目录为空: " ++ dirpath)
       | _ =>
           (* [item.is_dir()], and [item.stat()] of a file *)
           OS.stat_entries full_path items;;;
           let dirs := dir_lines items in
           let files := file_lines items in
           let result := [py "目录: " ++ dirpath] in
           let result :=
             match dirs with
             | [] => result
             | _ => result ++ [nl ++ py "📁 目录:"] ++ take 10 dirs
             end in
           let result :=
             match files with
             | [] => result
             | _ => result ++ [nl ++ py "📄 文件:"] ++ take 10 files
             end in
           let total_count := (length dirs + length files)%nat in
           let result :=
             if (20 <? total_count)%nat
             then result ++ [nl ++ py "... 共 " ++ str_of_nat total_count
                             ++ py " 个项目，只显示前20个"]
             else result in
           ret (join nl result)
       end)
    (fun e =>
       if isinstance e PermissionError
       then ret (py "没有权限访问目录: " ++ dirpath)
       else ret (py "列出目录失败: " ++ exn_msg e)).

(** [oct(mode)[-3:]] *)
Fixpoint oct_digits (fuel : nat) (n : N) (acc : str) : str :=
  match fuel with
  | O => acc
  | S f =>
      let acc' := digit_char (n mod 8) :: acc in
      if n <? 8 then acc' else oct_digits f (n / 8) acc'
  end.
Definition oct (n : N) : str :=
  py "0o" ++ oct_digits (S (N.to_nat (N.log2 n))) n [].

(** [FileTool._get_file_info] *)
Definition _get_file_info (filepath : str) : M str :=
  catch
    (let! full_path := lift (_get_safe_path self filepath) in
     let! found := OS.path_exists full_path in
     if negb found then ret (py "文件不存在: " ++ filepath)
     else
       let! stat := OS.path_stat full_path in
       let m := node_meta stat in
       let info :=
         [ py "📁 文件: " ++ filepath;
           py "📊 大小: " ++ _format_size (st_size stat);
           py "📅 创建: " ++ rt_strftime rt (st_ctime m);
           py "✏️  修改: " ++ rt_strftime rt (st_mtime m);
           py "👀 访问: " ++ rt_strftime rt (st_atime m);
           py "🔢 模式: " ++ slice_last 3 (oct (st_mode m)) ] in
       let! is_file := OS.path_is_file full_path in
       let info :=
         if is_file : bool
         then info ++
              [ py "📄 类型: " ++
                default (py "未知文件")
                  (supported_extensions !! lower (Path.suffix full_path)) ]
         else info in
       ret (join nl info))
    (fun e =>
       if isinstance e PermissionError
       then ret (py "没有权限访问文件: " ++ filepath)
       else ret (py "获取文件信息失败: " ++ exn_msg e)).

(** [FileTool._create_directory] *)
Definition _create_directory (dirpath : str) : M str :=
  catch
    (let! full_path := lift (_get_safe_path self dirpath) in
     let! found := OS.path_exists full_path in
     if found : bool
     then ret (py "目录已存在: " ++ dirpath)
     else
       OS.mkdir full_path;;;
       ret (py "目录创建成功: " ++ dirpath))
    (fun e =>
       if isinstance e PermissionError
       then ret (py "没有权限创建目录: " ++ dirpath)
       else ret (py "创建目录失败: " ++ exn_msg e)).

Definition count_sep (s : str) : nat :=
  length (filter (fun c => c = Path.sep) s).

(** The loop of [_search_files] over [os.walk(full_path)]: a
    directory more than three levels down is passed over, and the
    loop ends once twenty matches are collected. It answers the
    matches and the directories that the walk has listed by then. *)
Fixpoint search_loop (top : str) (pattern : str)
  (dirs : list (abspath * (str * list str))) (matches : list str)
  (listed : list abspath) : list str * list abspath :=
  match dirs with
  | [] => (matches, listed)
  | (p, (root, files)) :: dirs' =>
      let listed := listed ++ [p] in
      if (3 <? count_sep root - count_sep top)%nat
      then search_loop top pattern dirs' matches listed
      else
        let matches :=
          matches ++ map (OS.path_join root)
                       (filter (fun file => Is_true (rt_fnmatch rt file pattern)) files) in
        if (20 <=? length matches)%nat then (matches, listed)
        else search_loop top pattern dirs' matches listed
  end.

(** [os.path.relpath(m, top)] of a path [m] below [top]. *)
Definition relpath (m top : str) : str :=
  drop (length (OS.path_join top [])) m.

Definition numbered (l : list str) : list str :=
  imap (fun i x => str_of_nat (S i) ++ py ". " ++ x) l.

(** [FileTool._search_files] *)
Definition _search_files (dirpath pattern : str) : M str :=
  let dirpath := if bool_decide (dirpath = []) then py "." else dirpath in
  catch
    (let! full_path := lift (_get_safe_path self dirpath) in
     let! found := OS.path_exists full_path in
     if negb found then ret (py "目录不存在: " ++ dirpath)
     else
     let! is_dir := OS.path_is_dir full_path in
     if negb is_dir then ret (py "不是目录: " ++ dirpath)
     else
       let! root := get_fs in
       let! os := get_os in
       let top := Path.to_str full_path in
       let refused (p : abspath) :=
         Path.has_nul p || bool_decide (is_Some (os_refuses os SysListdir p)) in
       let walked :=
         match OS.stat root full_path with
         | Some n => OS.walk refused top full_path n
         | None => []
         end in
       let '(matches, listed) := search_loop top pattern walked [] [] in
       OS.touch_all listed;;;
       match matches with
       | [] => ret (py "在 " ++ dirpath ++ py " 中未找到匹配 '" ++ pattern
                    ++ py "' 的文件")
       | _ =>
           let result :=
             [ py "在 " ++ dirpath ++ py " 中找到 "
               ++ str_of_nat (length matches) ++ py " 个匹配 '" ++ pattern
               ++ py "' 的文件:" ] in
           let result :=
             result ++ numbered (map (fun m => relpath m top) (take 10 matches)) in
           let result :=
             if (10 <? length matches)%nat
             then result ++ [ py "... 还有 "
                              ++ str_of_nat (length matches - 10)
                              ++ py " 个文件未显示" ]
             else result in
           ret (join nl result)
       end)
    (fun e =>
       if isinstance e PermissionError
       then ret (py "没有权限搜索目录: " ++ dirpath)
       else ret (py "搜索文件失败: " ++ exn_msg e)).

(** [FileTool._check_exists] *)
Definition _check_exists (path : str) : M str :=
  catch
    (let! full_path := lift (_get_safe_path self path) in
     let! found := OS.path_exists full_path in
     if found : bool then
       let! is_file := OS.path_is_file full_path in
       if is_file : bool then ret (py "文件存在: " ++ path)
       else ret (py "目录存在: " ++ path)
     else ret (py "不存在: " ++ path))
    (fun e => ret (py "检查失败: " ++ exn_msg e)).

(** [FileTool.execute]; [kw] holds the further keyword arguments. *)
Definition execute (operation path content : str) (kw : kwargs) : M str :=
  catch
    (let operation := strip (lower operation) in
     let is_one_of (l : list str) := bool_decide (operation ∈ l) in
     if is_one_of [py "read"; py "读取"] then _read_file path
     else if is_one_of [py "write"; py "写入"; py "保存"]
     then _write_file path content
     else if is_one_of [py "list"; py "列出"; py "ls"]
     then _list_directory path
     else if is_one_of [py "info"; py "信息"; py "详情"]
     then _get_file_info path
     else if is_one_of [py "create_dir"; py "创建目录"; py "mkdir"]
     then _create_directory path
     else if is_one_of [py "search"; py "搜索"; py "查找"] then
       let pattern := default (py "*") (kw !! py "pattern") in
       _search_files path pattern
     else if is_one_of [py "exists"; py "存在"; py "检查"]
     then _check_exists path
     else if is_one_of [py "help"; py "帮助"] then ret _get_help
     else ret (py "不支持的操作: " ++ operation ++ nl ++ _get_help))
    (fun e => ret (py "文件操作错误: " ++ exn_msg e)).

(** The method [execute] as [__call__] reaches it. *)
Definition execute_call (args : list str) (kw : kwargs) : M str :=
  let! bound := lift (bind_args
                        [ (py "operation", None); (py "path", Some []);
                          (py "content", Some []) ] true args kw) in
  execute (kw_get (fst bound) (py "operation"))
          (kw_get (fst bound) (py "path"))
          (kw_get (fst bound) (py "content")) (snd bound).

Definition as_tool : BaseTool.t :=
  BaseTool.Make name description
    (fun input_data => ret (validate_input self input_data)) execute_call.

End WithRuntime.
End FileTool.

(* ===================================================================== *)
(** * [src/tools/web_tool.py] *)
(* ===================================================================== *)

Module WebTool.

Definition name : str := py "web_tool".

Definition description : str :=
  dq "网页相关操作工具。支持：
1. 获取网页内容: 抓取网页文本内容
2. 提取链接: 提取网页中所有链接
3. 提取图片: 提取网页中所有图片
4. 调用API: 调用RESTful API接口
5. 解析JSON: 解析JSON格式数据
6. 示例: `获取https://example.com内容`, `提取页面链接`, `调用API获取数据`
".

Definition dangerous_domains : list str :=
  [py "localhost"; py "127.0.0.1"; py "192.168."; py "10."].

Definition is_http (url : str) : bool :=
  startswith url (py "http://") || startswith url (py "https://").

(** [WebTool.validate_input] *)
Definition validate_input (input_data : kwargs) : bool :=
  let operation := kw_get input_data (py "operation") in
  let url := kw_get input_data (py "url") in
  if bool_decide (operation = []) then false
  else if bool_decide (url = []) then true
  else if negb (is_http url) then false
  else if existsb (fun domain => contains url domain) dangerous_domains
  then false
  else true.

(** [WebTool._get_help] *)
Definition _get_help : str :=
  dq "
可用操作:
1. 获取网页: operation=`fetch`, url=`https://example.com`
2. 提取链接: operation=`links`, url=`https://example.com`
3. 提取图片: operation=`images`, url=`https://example.com`
4. 调用API: operation=`api`, url=`https://api.example.com`, method=`GET`, data={{}} (可选)
5. 解析JSON: operation=`parse_json`, json_str='{{`key`: `value`}}'

示例:
- 获取网页: operation=`fetch`, url=`https://example.com`
- 调用API: operation=`api`, url=`https://api.example.com/data`, method=`GET`
- 解析JSON: operation=`parse_json`, json_str='{{`name`: `test`}}'
".

Definition nl : str := [10].

(** [s.splitlines()] *)
Definition is_linebreak (c : char) : bool :=
  ((10 <=? c) && (c <=? 13)) || ((28 <=? c) && (c <=? 30))
  || (c =? 133) || (c =? 8232) || (c =? 8233).

Fixpoint splitlines_go (cur : str) (s : str) : list str :=
  match s with
  | [] => match cur with [] => [] | _ => [rev cur] end
  | c :: s' =>
      if is_linebreak c then
        rev cur ::
        match s' with
        | d :: s'' => if (c =? 13) && (d =? 10) then splitlines_go [] s''
                      else splitlines_go [] s'
        | [] => []
        end
      else splitlines_go (c :: cur) s'
  end.
Definition splitlines (s : str) : list str := splitlines_go [] s.

(** The cleaning of the page text in [_fetch_webpage]. *)
Definition clean_text (text : str) : str :=
  let lines := map strip (splitlines text) in
  let chunks := flat_map (fun line => map strip (split line (py "  "))) lines in
  join nl (filter (fun chunk => chunk ≠ []) chunks).

(** [type(v).__name__] *)
Definition type_name (v : json) : str :=
  match v with
  | JNull => py "NoneType" | JBool _ => py "bool" | JInt _ => py "int"
  | JFloat _ => py "float" | JStr _ => py "str" | JList _ => py "list"
  | JDict _ => py "dict"
  end.

(** The histogram of [_analyze_json]: a dictionary from type names to
    counts, in the order in which the names were first met. *)
Fixpoint bump (t : str) (types : list (str * nat)) : list (str * nat) :=
  match types with
  | [] => [(t, 1%nat)]
  | (k, n) :: types' =>
      if str_eqb k t then (k, S n) :: types' else (k, n) :: bump t types'
  end.

(** [WebTool._analyze_json] *)
Definition _analyze_json (data : json) : str :=
  match data with
  | JDict d =>
      let count := length d in
      let types := fold_left (fun types kv => bump (type_name (snd kv)) types) d [] in
      let type_str :=
        join (py ", ")
             (map (fun kv => fst kv ++ py ":" ++ str_of_nat (snd kv)) types) in
      py "对象 (" ++ str_of_nat count ++ py "个键), 类型: " ++ type_str
  | JList l =>
      match l with
      | sample :: _ =>
          py "数组 (" ++ str_of_nat (length l) ++ py "个元素), 示例类型: "
          ++ type_name sample
      | [] => py "空数组"
      end
  | _ => py "值类型: " ++ type_name data
  end.

Section WithRuntime.
Context (rt : Runtime).

(** One call of [requests]. *)
Definition request (method url : str) (body : option str) : M response :=
  emit (EvRequest method url);;;
  lift (rt_request rt method url body).

(** [response.raise_for_status()] *)
Definition raise_for_status (r : response) : M unit :=
  let status := Response.status_code r in
  let msg (kind : str) :=
    str_of_N status ++ kind ++ Response.reason r ++ py " for url: "
    ++ Response.url r in
  if (400 <=? status) && (status <? 500)
  then raise (Exn HTTPError (msg (py " Client Error: ")) status)
  else if (500 <=? status) && (status <? 600)
  then raise (Exn HTTPError (msg (py " Server Error: ")) status)
  else ret tt.

(** [WebTool._fetch_webpage] *)
Definition _fetch_webpage (url : str) : M str :=
  catch
    (let! response := request (py "GET") url None in
     raise_for_status response;;;
     let text := clean_text (rt_html_text rt (Response.text response)) in
     let text :=
       if (2000 <? length text)%nat
       then take 2000 text ++ nl ++ py "...(内容截断，只显示前2000字符)"
       else text in
     let title :=
       match rt_html_title rt (Response.text response) with
       | Some (Some s) => s
       | Some None => py "None"
       | None => py "无标题"
       end in
     let result :=
       [ py "🌐 网页: " ++ url;
         py "📄 标题: " ++ title;
         py "📊 状态: " ++ str_of_N (Response.status_code response);
         py "📏 长度: " ++ str_of_nat (length (Response.text response)) ++ py " 字符";
         nl ++ py "📝 内容摘要:" ++ nl ++ text ] in
     ret (join nl result))
    (fun e =>
       if isinstance e Timeout then ret (py "请求超时: " ++ url)
       else if isinstance e HTTPError
       then ret (py "HTTP错误: " ++ str_of_N (exn_status e) ++ py " - " ++ url)
       else if isinstance e ConnectionError then ret (py "连接错误: " ++ url)
       else if isinstance e RequestException
       then ret (py "请求错误: " ++ exn_msg e)
       else ret (py "解析错误: " ++ exn_msg e)).

Definition numbered (l : list str) : list str :=
  imap (fun i x => str_of_nat (S i) ++ py ". " ++ x) l.

(** [WebTool._extract_links] *)
Definition _extract_links (url : str) : M str :=
  catch
    (let! response := request (py "GET") url None in
     raise_for_status response;;;
     let links :=
       omap (fun link =>
               let '(href, text) := link in
               let keep (href : str) :=
                 Some (match text with
                       | [] => href
                       | _ => text ++ py ": " ++ href
                       end) in
               if startswith href (py "/") then keep (rt_urljoin rt url href)
               else if negb (is_http href) then None
               else keep href)
            (rt_html_links rt (Response.text response)) in
     match links with
     | [] => ret (py "未找到链接")
     | _ =>
         let result :=
           [py "在 " ++ url ++ py " 中找到 " ++ str_of_nat (length links)
            ++ py " 个链接:"] ++ numbered (take 10 links) in
         let result :=
           if (10 <? length links)%nat
           then result ++ [py "... 还有 " ++ str_of_nat (length links - 10)
                           ++ py " 个链接未显示"]
           else result in
         ret (join nl result)
     end)
    (fun e => ret (py "提取链接失败: " ++ exn_msg e)).

(** [WebTool._extract_images] *)
Definition _extract_images (url : str) : M str :=
  catch
    (let! response := request (py "GET") url None in
     raise_for_status response;;;
     let images :=
       omap (fun img =>
               let '(src, alt) := img in
               let alt := default (py "无描述") alt in
               let keep (src : str) := Some (alt ++ py ": " ++ src) in
               if startswith src (py "/") then keep (rt_urljoin rt url src)
               else if negb (is_http src || startswith src (py "data:image"))
               then None
               else keep src)
            (rt_html_images rt (Response.text response)) in
     match images with
     | [] => ret (py "未找到图片")
     | _ =>
         let result :=
           [py "在 " ++ url ++ py " 中找到 " ++ str_of_nat (length images)
            ++ py " 张图片:"] ++ numbered (take 5 images) in
         let result :=
           if (5 <? length images)%nat
           then result ++ [py "... 还有 " ++ str_of_nat (length images - 5)
                           ++ py " 张图片未显示"]
           else result in
         ret (join nl result)
     end)
    (fun e => ret (py "提取图片失败: " ++ exn_msg e)).

(** [WebTool._call_api]; [data] is the JSON body of the request. *)
Definition _call_api (url method data : str) : M str :=
  catch
    (let method := upper method in
     let answer (response : response) : M str :=
       raise_for_status response;;;
       let report (body : str) :=
         join nl [ py "🌐 API: " ++ url;
                   py "📤 方法: " ++ method;
                   py "📊 状态: " ++ str_of_N (Response.status_code response);
                   nl ++ py "📄 响应:" ++ nl ++ body ] in
       catch
         (let! json_data := lift (rt_json_loads rt (Response.text response)) in
          let formatted := rt_json_dumps rt json_data in
          let formatted :=
            if (2000 <? length formatted)%nat
            then take 2000 formatted ++ nl ++ py "...(JSON截断)"
            else formatted in
          ret (report formatted))
         (fun e =>
            if isinstance e ValueError then
              let text := take 1000 (Response.text response) in
              let text :=
                if (1000 <? length (Response.text response))%nat
                then text ++ nl ++ py "...(文本截断)"
                else text in
              ret (report text)
            else raise e) in
     if str_eqb method (py "GET")
     then let! r := request (py "GET") url None in answer r
     else if str_eqb method (py "POST")
     then let! r := request (py "POST") url (Some data) in answer r
     else if str_eqb method (py "PUT")
     then let! r := request (py "PUT") url (Some data) in answer r
     else if str_eqb method (py "DELETE")
     then let! r := request (py "DELETE") url None in answer r
     else ret (py "不支持的HTTP方法: " ++ method))
    (fun e =>
       if isinstance e RequestException
       then ret (py "API调用失败: " ++ exn_msg e)
       else ret (py "API处理失败: " ++ exn_msg e)).

(** [WebTool._parse_json] *)
Definition _parse_json (json_str : str) : M str :=
  catch
    (let! data := lift (rt_json_loads rt json_str) in
     let formatted := rt_json_dumps rt data in
     let formatted :=
       if (2000 <? length formatted)%nat
       then take 2000 formatted ++ nl ++ py "...(JSON截断)"
       else formatted in
     let stats := _analyze_json data in
     ret (join nl [ py "📄 JSON解析结果:";
                    py "📊 统计: " ++ stats;
                    nl ++ py "🔍 内容:" ++ nl ++ formatted ]))
    (fun e =>
       if isinstance e JSONDecodeError
       then ret (py "JSON解析错误: " ++ exn_msg e)
       else ret (py "JSON处理失败: " ++ exn_msg e)).

(** [WebTool.execute]; [kw] holds the further keyword arguments. *)
Definition execute (operation url : str) (kw : kwargs) : M str :=
  catch
    (let operation := strip (lower operation) in
     let is_one_of (l : list str) := bool_decide (operation ∈ l) in
     if is_one_of [py "fetch"; py "获取"; py "抓取"] then _fetch_webpage url
     else if is_one_of [py "links"; py "链接"; py "提取链接"]
     then _extract_links url
     else if is_one_of [py "images"; py "图片"; py "提取图片"]
     then _extract_images url
     else if is_one_of [py "api"; py "调用api"] then
       let method := default (py "GET") (kw !! py "method") in
       let data := default (py "{}") (kw !! py "data") in
       _call_api url method data
     else if is_one_of [py "parse_json"; py "解析json"] then
       let json_str := kw_get kw (py "json_str") in
       _parse_json json_str
     else if is_one_of [py "help"; py "帮助"] then ret _get_help
     else ret (py "不支持的操作: " ++ operation ++ nl ++ _get_help))
    (fun e => ret (py "网页操作错误: " ++ exn_msg e)).

(** The method [execute] as [__call__] reaches it. *)
Definition execute_call (args : list str) (kw : kwargs) : M str :=
  let! bound := lift (bind_args [ (py "operation", None); (py "url", Some []) ]
                        true args kw) in
  execute (kw_get (fst bound) (py "operation"))
          (kw_get (fst bound) (py "url")) (snd bound).

(** The module-level instance [web_tool]. *)
Definition web_tool : BaseTool.t :=
  BaseTool.Make name description
    (fun input_data => ret (validate_input input_data)) execute_call.

End WithRuntime.
End WebTool.

(* ===================================================================== *)
(** * [src/tools/time_tool.py] *)
(* ===================================================================== *)

Module TimeTool.

Definition name : str := py "time_tool".

Definition description : str :=
  dq "获取和处理时间信息。支持：
1. 当前时间: 查询本地时间、UTC时间、指定时区时间
2. 日期计算: 计算未来/过去日期、日期差、工作日计算
3. 时间格式: 多种格式显示时间
4. 时区转换: 全球主要时区转换
5. 示例: `现在时间`, `UTC时间`, `北京时间`, `3天后`, `2024-01-01到2024-12-31的天数`
".

Section WithRuntime.
Context (rt : Runtime).

(** [TimeTool.execute]: the query is normalised, and whatever the
    handlers of the [try] block raise becomes a message. The
    handlers read the clock; their answer is the field
    [rt_time_answer] of the run time. *)
Definition execute (query : str) : M str :=
  let query := strip (lower query) in
  catch
    (emit EvClock;;; lift (rt_time_answer rt query))
    (fun e => ret (py "时间查询错误: " ++ exn_msg e)).

Definition execute_call (args : list str) (kw : kwargs) : M str :=
  let! bound := lift (bind_args [(py "query", None)] false args kw) in
  execute (kw_get (fst bound) (py "query")).

(** The module-level instance [time_tool]; [validate_input] is the
    inherited one. *)
Definition time_tool : BaseTool.t :=
  BaseTool.Make name description BaseTool.base_validate_input execute_call.

End WithRuntime.
End TimeTool.

(* ===================================================================== *)
(** * [src/tools/tool_factory.py] *)
(* ===================================================================== *)

Module ToolFactory.

(** A [langchain.tools.Tool]: a name, a description and the function
    the agent calls with the text of its action. *)
Record Tool := MakeTool {
  tool_name : str;
  tool_description : str;
  func : str -> M str;
}.

Section WithRuntime.
(** The run time, and the directory and the user of the process:
    the module-level [file_tool] is [FileTool()], whose base path is
    the working directory. *)
Context (rt : Runtime) (cwd home : abspath).

Definition file_tool : FileTool.t := FileTool.init cwd home (py ".").

(** [ToolFactory._register_tools], from the empty dictionary. *)
Definition _register_tools : gmap str Tool :=
  let _tools : gmap str Tool := ∅ in
  let _tools :=
    <[ py "calculator" :=
         MakeTool CalculatorTool.name (take 200 CalculatorTool.description)
           (fun x => CalculatorTool.execute rt x) ]> _tools in
  let _tools :=
    <[ py "time_tool" :=
         MakeTool TimeTool.name (take 200 TimeTool.description)
           (fun x => TimeTool.execute rt x) ]> _tools in
  let _tools :=
    <[ py "file_tool" :=
         MakeTool FileTool.name (take 200 FileTool.description)
           (fun x =>
              match x with
              | _ :: _ => FileTool.execute rt file_tool (py "list") x [] ∅
              | [] => FileTool.execute rt file_tool (py "list") [] [] ∅
              end) ]> _tools in
  let _tools :=
    <[ py "web_tool" :=
         MakeTool WebTool.name (take 200 WebTool.description)
           (fun x => WebTool.execute rt (py "fetch") x ∅) ]> _tools in
  _tools.

(** [ToolFactory.get_tool] *)
Definition get_tool (tool_name : str) : option Tool :=
  _register_tools !! tool_name.

End WithRuntime.
End ToolFactory.

(* ===================================================================== *)
(** * A reference run time *)
(* ===================================================================== *)

(** The statements below hold for every run time. To run the tools on
    concrete inputs, this module gives one: an evaluator of Python
    expressions for the fragment made of numbers, names, parentheses,
    attribute access, calls and the arithmetic operators, and plain
    answers for the libraries. The evaluator answers [None] on an
    expression outside its fragment. *)
Module Reference.
Local Open Scope Z_scope.

Inductive token :=
| TInt (z : Z)
| TFloat (x : float)
| TName (s : str)
| TOp (s : str).

Definition is_name_start (c : char) : bool := is_alpha_ascii c || (c =? 95)%N.
Definition is_name_char (c : char) : bool := is_name_start c || is_digit c.

Fixpoint span (p : char -> bool) (s : str) : str * str :=
  match s with
  | c :: s' => if p c then let '(a, b) := span p s' in (c :: a, b) else ([], s)
  | [] => ([], [])
  end.

Definition keywords : list str :=
  map py [ "False"; "None"; "True"; "and"; "as"; "assert"; "async"; "await";
           "break"; "class"; "continue"; "def"; "del"; "elif"; "else";
           "except"; "finally"; "for"; "from"; "global"; "if"; "import";
           "in"; "is"; "lambda"; "nonlocal"; "not"; "or"; "pass"; "raise";
           "return"; "try"; "while"; "with"; "yield" ]%string.

(** The tokens of an expression; blanks separate them. *)
Fixpoint tokens (fuel : nat) (s : str) : option (list token) :=
  match fuel with
  | O => None
  | S f =>
      match s with
      | [] => Some []
      | c :: s' =>
          if ((c =? 32) || (c =? 9))%N then tokens f s'
          else if is_digit c then
            let '(ds, r) := span is_digit s in
            match r with
            | d :: r' =>
                if (d =? 46)%N then
                  let '(fs, r'') := span is_digit r' in
                  match r'' with
                  | e :: _ => if is_name_char e then None else
                              x ← float_of_str (ds ++ [46%N] ++ fs);
                              ts ← tokens f r''; Some (TFloat x :: ts)
                  | [] => x ← float_of_str (ds ++ [46%N] ++ fs);
                          Some [TFloat x]
                  end
                else if is_name_char d then None
                else if (1 <? length ds)%nat && bool_decide (head ds = Some 48%N)
                then None
                else ts ← tokens f r;
                     Some (TInt (fst (fst (read_digits ds 0 O))) :: ts)
            | [] =>
                if (1 <? length ds)%nat && bool_decide (head ds = Some 48%N)
                then None
                else Some [TInt (fst (fst (read_digits ds 0 O)))]
            end
          else if is_name_start c then
            let '(n, r) := span is_name_char s in
            if bool_decide (n ∈ keywords) then None
            else ts ← tokens f r; Some (TName n :: ts)
          else if startswith s (py "**") || startswith s (py "//") then
            ts ← tokens f (drop 2 s); Some (TOp (take 2 s) :: ts)
          else if bool_decide (c ∈ py "+-*/%().,") then
            ts ← tokens f s'; Some (TOp [c] :: ts)
          else None
      end
  end.

Inductive binop := Add | Sub | Mul | Div | FloorDiv | Mod | Pow.

#[local] Unset Elimination Schemes.
Inductive expr :=
| Num (v : pyval)
| Name (s : str)
| Attr (e : expr) (s : str)
| Call (f : expr) (args : list expr)
| Neg (e : expr)
| Pos (e : expr)
| Bin (op : binop) (l r : expr).
#[local] Set Elimination Schemes.

Inductive level := LExpr | LTerm | LFactor | LPower | LPrimary.

Definition op_at (lvl : level) (s : str) : option binop :=
  match lvl with
  | LExpr => if str_eqb s (py "+") then Some Add
             else if str_eqb s (py "-") then Some Sub else None
  | LTerm => if str_eqb s (py "*") then Some Mul
             else if str_eqb s (py "/") then Some Div
             else if str_eqb s (py "//") then Some FloorDiv
             else if str_eqb s (py "%") then Some Mod else None
  | _ => None
  end.

(** The grammar of Python expressions, restricted to the fragment. *)
Fixpoint parse (fuel : nat) (lvl : level) (ts : list token)
  : option (expr * list token) :=
  match fuel with
  | O => None
  | S f =>
      match lvl with
      | LExpr => '(l, ts1) ← parse f LTerm ts; rest f LExpr l ts1
      | LTerm => '(l, ts1) ← parse f LFactor ts; rest f LTerm l ts1
      | LFactor =>
          match ts with
          | TOp o :: ts' =>
              if str_eqb o (py "-")
              then '(e, ts1) ← parse f LFactor ts'; Some (Neg e, ts1)
              else if str_eqb o (py "+")
              then '(e, ts1) ← parse f LFactor ts'; Some (Pos e, ts1)
              else parse f LPower ts
          | _ => parse f LPower ts
          end
      | LPower =>
          '(b, ts1) ← parse f LPrimary ts;
          match ts1 with
          | TOp o :: ts2 =>
              if str_eqb o (py "**")
              then '(e, ts3) ← parse f LFactor ts2; Some (Bin Pow b e, ts3)
              else Some (b, ts1)
          | _ => Some (b, ts1)
          end
      | LPrimary =>
          match ts with
          | TInt z :: ts' => rest f LPrimary (Num (PInt z)) ts'
          | TFloat x :: ts' => rest f LPrimary (Num (PFloat x)) ts'
          | TName n :: ts' => rest f LPrimary (Name n) ts'
          | TOp o :: ts' =>
              if str_eqb o (py "(") then
                '(e, ts1) ← parse f LExpr ts';
                match ts1 with
                | TOp c :: ts2 =>
                    if str_eqb c (py ")") then rest f LPrimary e ts2 else None
                | _ => None
                end
              else None
          | [] => None
          end
      end
  end
with rest (fuel : nat) (lvl : level) (left : expr) (ts : list token)
  : option (expr * list token) :=
  match fuel with
  | O => None
  | S f =>
      match lvl, ts with
      | LPrimary, TOp o :: ts' =>
          if str_eqb o (py ".") then
            match ts' with
            | TName n :: ts1 => rest f LPrimary (Attr left n) ts1
            | _ => None
            end
          else if str_eqb o (py "(") then
            match ts' with
            | TOp c :: ts1 =>
                if str_eqb c (py ")") then rest f LPrimary (Call left []) ts1
                else '(args, ts2) ← arguments f ts';
                     rest f LPrimary (Call left args) ts2
            | _ => '(args, ts2) ← arguments f ts';
                   rest f LPrimary (Call left args) ts2
            end
          else Some (left, ts)
      | _, TOp o :: ts' =>
          match op_at lvl o with
          | Some op =>
              '(r, ts1) ← parse f (match lvl with LExpr => LTerm | _ => LFactor end) ts';
              rest f lvl (Bin op left r) ts1
          | None => Some (left, ts)
          end
      | _, _ => Some (left, ts)
      end
  end
with arguments (fuel : nat) (ts : list token)
  : option (list expr * list token) :=
  match fuel with
  | O => None
  | S f =>
      '(a, ts1) ← parse f LExpr ts;
      match ts1 with
      | TOp c :: ts2 =>
          if str_eqb c (py ")") then Some ([a], ts2)
          else if str_eqb c (py ",") then
            '(more, ts3) ← arguments f ts2; Some (a :: more, ts3)
          else None
      | _ => None
      end
  end.

Definition zero_division (msg : string) : outcome pyval :=
  Raise (mk_exn ZeroDivisionError (py msg)).

Definition to_float (v : pyval) : option float :=
  match v with
  | PInt z => let x := float_of_Z z in if is_finite x then Some x else None
  | PFloat x => Some x
  | _ => None
  end.

Definition float_op (op : binop) (x y : float) : option (outcome pyval) :=
  match op with
  | Add => Some (Ret (PFloat (fadd x y)))
  | Sub => Some (Ret (PFloat (fsub x y)))
  | Mul => Some (Ret (PFloat (fmul x y)))
  | Div => if is_zero y then Some (zero_division "float division by zero")
           else Some (Ret (PFloat (fdiv x y)))
  | _ => None
  end.

(** Arithmetic on two values. *)
Definition apply (op : binop) (a b : pyval) : option (outcome pyval) :=
  match a, b with
  | PInt x, PInt y =>
      match op with
      | Add => Some (Ret (PInt (x + y)))
      | Sub => Some (Ret (PInt (x - y)))
      | Mul => Some (Ret (PInt (x * y)))
      | Div =>
          if y =? 0 then Some (zero_division "division by zero")
          else let q := float_of_ratio (x * Z.sgn y) (Z.abs y) in
               if is_finite q then Some (Ret (PFloat q)) else None
      | FloorDiv =>
          if y =? 0 then Some (zero_division "integer division or modulo by zero")
          else Some (Ret (PInt (x / y)))
      | Mod =>
          if y =? 0 then Some (zero_division "integer modulo by zero")
          else Some (Ret (PInt (x mod y)))
      | Pow => if 0 <=? y then Some (Ret (PInt (x ^ y))) else None
      end
  | _, _ => x ← to_float a; y ← to_float b; float_op op x y
  end.

(** The names of [safe_dict] that denote numbers. *)
Definition constants : list (str * pyval) :=
  [ (py "pi", PFloat (PyFloat.lit "3.141592653589793"));
    (py "e", PFloat (PyFloat.lit "2.718281828459045")) ].

Definition other_names : list str :=
  map py [ "math"; "abs"; "round"; "sum"; "min"; "max"; "Decimal"; "sin";
           "cos"; "tan"; "sqrt"; "log"; "log10"; "exp"; "__builtins__" ]%string.

Definition name_error (n : str) : outcome pyval :=
  Raise (mk_exn NameError (py "name '" ++ n ++ py "' is not defined")).

Fixpoint eval (e : expr) : option (outcome pyval) :=
  match e with
  | Num v => Some (Ret v)
  | Name n =>
      match find (fun kv => str_eqb (fst kv) n) constants with
      | Some (_, v) => Some (Ret v)
      | None => if bool_decide (n ∈ other_names) then None
                else Some (name_error n)
      end
  | Attr e _ | Call e _ =>
      match eval e with
      | Some (Raise x) => Some (Raise x)
      | _ => None
      end
  | Neg e =>
      match eval e with
      | Some (Ret (PInt z)) => Some (Ret (PInt (- z)))
      | Some (Ret (PFloat x)) => Some (Ret (PFloat (SFopp x)))
      | Some (Raise x) => Some (Raise x)
      | _ => None
      end
  | Pos e =>
      match eval e with
      | Some (Ret (PInt z)) => Some (Ret (PInt z))
      | Some (Ret (PFloat x)) => Some (Ret (PFloat x))
      | Some (Raise x) => Some (Raise x)
      | _ => None
      end
  | Bin op l r =>
      match eval l with
      | Some (Ret a) =>
          match eval r with
          | Some (Ret b) => apply op a b
          | other => other
          end
      | other => other
      end
  end.

(** [eval(s, safe_dict)] on the fragment. *)
Definition py_eval (s : str) : option (outcome pyval) :=
  ts ← tokens (S (length s)) (lstrip s);
  match parse (4 * S (length ts)) LExpr ts with
  | Some (e, []) => eval e
  | _ => None
  end.

Definition unmodelled {A} : outcome A :=
  Raise (mk_exn Exception_ (py "(not modelled by the reference run time)")).

Definition runtime : Runtime := {|
  rt_eval := fun s => default unmodelled (py_eval s);
  rt_statistics := fun _ _ => unmodelled;
  rt_request := fun _ u _ => Ret (Response.Make 200 (py "OK") u []);
  rt_html_text := fun s => s;
  rt_html_title := fun _ => None;
  rt_html_links := fun _ => [];
  rt_html_images := fun _ => [];
  rt_urljoin := fun _ b => b;
  rt_json_loads := fun _ => unmodelled;
  rt_json_dumps := fun _ => [];
  rt_csv_rows := fun _ => unmodelled;
  rt_read_excel := fun _ => unmodelled;
  rt_fnmatch := fun _ _ => false;
  rt_strftime := fun _ => [];
  rt_time_answer := fun _ => unmodelled;
|}.

End Reference.

(* ===================================================================== *)
(** * The notions of the statements *)
(* ===================================================================== *)

(** [guarded m]: in every world, [m] ends with a value, or with an
    exception that is no instance of [Exception]. *)
Definition guarded {A} (m : M A) : Prop :=
  ∀ w, match result_of m w with
       | Ret _ => True
       | Raise e => isinstance e Exception_ = false
       end.


(** The route of an action of the agent through the registry: the tool
    is looked up by its name with [get_tool], and its [func] is called
    with the argument. [None] stands for the answer of [get_tool] on a
    name that is not registered. *)
Definition registry_route (rt : Runtime) (cwd home : abspath)
  (tool_name argument : str) : M (option str) :=
  match ToolFactory.get_tool rt cwd home tool_name with
  | Some tool => let! text := ToolFactory.func tool argument in ret (Some text)
  | None => ret None
  end.

(** An operating system that refuses nothing and records no access
    time; what it creates has the usual modes. *)
Definition plain_os : os :=
  Os (fun _ _ => None) (Meta 33188 0 0 0) (Meta 16877 0 0 0)
     (fun _ => None) (fun _ => O).

(** An empty file system and an empty trace. *)
Definition empty_world : world :=
  World (Fs (Dir [] (Meta 493 0 0 0)) plain_os) [].


(** An expression with a dunder name, as the agent may receive it from
    the model. *)
Definition injection : str := py "__import__('os').system('id')".






(** The three branches of [CalculatorTool.execute]. *)
Inductive route := Conversion | Statistics | Arithmetic.

(** The three-way test of [CalculatorTool.execute] on the preprocessed
    expression. *)
Definition route_of (expression : str) : route :=
  let expr := CalculatorTool._preprocess_expression expression in
  if contains (lower expr) (py "to") then Conversion
  else if startswith expr (py "mean(") || startswith expr (py "median(")
          || startswith expr (py "std(") || startswith expr (py "var(")
  then Statistics
  else Arithmetic.

(** The formulas of the specification, through the Celsius scale. *)
Module TemperatureSpec.



End TemperatureSpec.


(** The extensions [_read_file] does not read as plain text. *)
Definition structured_extensions : list str :=
  [py ".json"; py ".csv"; py ".xlsx"; py ".xls"].

(** A sandbox at /sandbox that holds the given entries, and the file
    tool constructed there. *)
Definition file_meta : metadata := Meta 33188 0 0 0.
Definition dir_meta : metadata := Meta 16877 0 0 0.

Definition sandbox_world (entries : list (str * node)) : world :=
  World (Fs (Dir [(py "sandbox", Dir entries dir_meta)] dir_meta) plain_os) [].

Definition sandbox_tool : FileTool.t :=
  FileTool.init [py "sandbox"] [py "home"; py "user"] (py ".").

(** The empty sandbox, under an operating system that refuses one
    kind of call with [e]. *)
Definition refusing_world (refused : os_call) (e : exn) : world :=
  World
    (Fs (w_fs (sandbox_world []))
        (Os (fun call _ =>
               if bool_decide (call = refused) then Some e else None)
            (os_new_file plain_os) (os_new_dir plain_os)
            (os_atime plain_os) (os_written plain_os))) [].

(** The operating system refuses no call on [p]. *)
Definition granted (w : world) (p : abspath) : Prop :=
  ∀ call, os_refuses (fs_os (w_fs w)) call p = None.

(** A content of 5000 characters, far below the cap of ten megabytes on
    the size of a file that is read. *)
Definition long_content : str := repeat 97 5000.

(** The world once this content is written to big.txt. *)
Definition world_after_long_write : world :=
  snd (FileTool._write_file sandbox_tool (py "big.txt")
         long_content (sandbox_world [])).

(** The agent started in a project below the Documents directory of
    its user: the sandbox is that project, and it holds one file. *)
Definition user_home : abspath := [py "home"; py "user"].
Definition project : abspath := user_home ++ [py "Documents"; py "agent"].

Definition project_world : world :=
  World
    (Fs (Dir [(py "home",
               Dir [(py "user",
                     Dir [(py "Documents",
                           Dir [(py "agent",
                                 Dir [(py "notes.txt",
                                       File (py "hello") file_meta)]
                                     dir_meta)] dir_meta)] dir_meta)] dir_meta)]
             dir_meta) plain_os) [].

(** Eleven file names. *)
Definition eleven_names : list str :=
  map py [ "f01"; "f02"; "f03"; "f04"; "f05"; "f06"; "f07"; "f08"; "f09";
           "f10"; "f11" ]%string.

(** A sandbox with eleven files of one byte and no directory. *)
Definition eleven_files : world :=
  sandbox_world (map (fun n => (n, File (py "x") file_meta)) eleven_names).

(** The listing of these files, as [_list_directory] returns it. *)
Definition eleven_listing : str :=
  join FileTool.nl
    ([ py "目录: ."; FileTool.nl ++ py "📄 文件:" ]
     ++ map (fun n => py "📄 " ++ n ++ py " (1.0 B)") (take 10 eleven_names)).

(** ** The notions of the further properties *)

(** A token of the deny list of the calculator, in any letter case:
    one of the three module prefixes; a call of [exec], [eval] or
    [open], with or without blanks before the parenthesis; the word
    [import] and a blank; two underscores twice on one line. *)
Inductive deny_listed_token : str → Prop :=
| deny_prefix (w : str) :
    lower w ∈ [py "os."; py "sys."; py "subprocess."] →
    deny_listed_token w
| deny_call (w blanks : str) :
    lower w ∈ [py "exec"; py "eval"; py "open"] →
    Forall (fun c => is_space c = true) blanks →
    deny_listed_token (w ++ blanks ++ py "(")
| deny_import (w : str) (blank : char) :
    lower w = py "import" → is_space blank = true →
    deny_listed_token (w ++ [blank])
| deny_dunder (between : str) :
    10 ∉ between →
    deny_listed_token (py "__" ++ between ++ py "__").



(** Two places of the file system neither of which lies below the
    other. *)
Definition apart (p q : abspath) : Prop :=
  Path.is_relative_to p q = false ∧ Path.is_relative_to q p = false.

(** A computation that takes every world to a related one. *)
Definition keeps {A} (R : world → world → Prop) (m : M A) : Prop :=
  ∀ w, R w (snd (m w)).

(** What is found at [q] is the same in the two worlds. *)
Definition same_at (q : abspath) (w w' : world) : Prop :=
  fs_lookup (w_fs w') q = fs_lookup (w_fs w) q.

(** A tree without its access times. *)
Definition no_atime (m : metadata) : metadata :=
  Meta (st_mode m) (st_ctime m) (st_mtime m) 0.

Fixpoint forget_atime (n : node) : node :=
  match n with
  | File d m => File d (no_atime m)
  | Dir es m =>
      Dir ((fix entries (es : list (str * node)) : list (str * node) :=
              match es with
              | [] => []
              | (name, child) :: es' => (name, forget_atime child) :: entries es'
              end) es)
          (no_atime m)
  end.

(** Two worlds that differ by access times at most: the same names,
    contents, modes and times of change, the same operating system and
    the same trace. *)
Definition same_but_atime (w w' : world) : Prop :=
  forget_atime (w_fs w') = forget_atime (w_fs w)
  ∧ fs_os (w_fs w') = fs_os (w_fs w)
  ∧ w_trace w' = w_trace w.

(** The characters on which the case mapping of the model is that of
    Python: those of ASCII, and the CJK ideographs, which have no
    case. *)
Definition plain_case (c : char) : bool :=
  (c <? 128) || ((19968 <=? c) && (c <=? 40959)).

(** [p] is on the line of [base]: at [base], below it or above it. *)
Definition on_line (base p : abspath) : Prop :=
  (∃ r, p = base ++ r) ∨ (∃ r, base = p ++ r).

(** The operations of the file tool that write. *)
Definition changing_operations : list str :=
  [ py "write"; py "写入"; py "保存"; py "create_dir"; py "创建目录"; py "mkdir" ].

(* ===================================================================== *)
(** * Properties *)
(* ===================================================================== *)

(** A decidable proposition on closed terms, by evaluation. *)
Ltac by_decide :=
  match goal with
  | |- ?P => apply (bool_decide_unpack P); vm_compute; exact I
  end.

(** A handler that answers with a message, whatever the exception. *)
Ltac message_handler :=
  intros ? ?;
  repeat match goal with |- context [if ?b then _ else _] => destruct b end;
  reflexivity.


(** ** Exceptions and the handlers *)

(** Every class but the three outside [Exception] is below it. *)
Lemma below_exception (e : exn) (c : exn_class) :
  isinstance e c = true →
  c ∉ [BaseException_; SystemExit; KeyboardInterrupt] →
  isinstance e Exception_ = true.
Proof.
  destruct e as [cls msg status]. unfold isinstance. cbn [exn_cls].
  intros Hc Hout. apply bool_decide_eq_true_1 in Hc.
  apply bool_decide_eq_true_2.
  destruct cls; cbn [ancestors] in *;
    repeat (apply elem_of_cons in Hc as [-> | Hc]);
    try (by apply elem_of_nil in Hc);
    try (exfalso; apply Hout; by_decide);
    by_decide.
Qed.

Lemma guarded_ret {A} (a : A) : guarded (ret a).
Proof. by intros w. Qed.

Lemma guarded_emit ev : guarded (emit ev).
Proof. by intros w. Qed.

Lemma guarded_bind {A B} (m : M A) (k : A → M B) :
  guarded m → (∀ a, guarded (k a)) → guarded (bind m k).
Proof.
  intros Hm Hk w. specialize (Hm w). unfold result_of, bind in *.
  destruct (m w) as [[a|e] w']; [ apply Hk | exact Hm ].
Qed.

(** A [try] whose handlers are guarded lets no instance of [Exception]
    out, whatever its body does. *)
Lemma guarded_catch {A} (m : M A) (h : exn → M A) :
  (∀ e, guarded (h e)) → guarded (catch m h).
Proof.
  intros Hh w. unfold result_of, catch. destruct (m w) as [[a|e] w']; [done|].
  destruct (isinstance e Exception_) eqn:He; [ apply Hh | exact He ].
Qed.

Lemma guarded_if {A} (b : bool) (m1 m2 : M A) :
  guarded m1 → guarded m2 → guarded (if b then m1 else m2).
Proof. by destruct b. Qed.

(** Bodies made of [try], [if], sequence and [return]. *)
Ltac solve_guarded :=
  repeat first
    [ apply guarded_catch; intros ?
    | apply guarded_if
    | apply guarded_ret
    | apply guarded_bind; [ | intros ? ]
    | apply guarded_emit ].

Lemma call_guarded (self : BaseTool.t) args kw : guarded (BaseTool.call self args kw).
Proof. unfold BaseTool.call. solve_guarded. Qed.

Section Guarded.
Context (rt : Runtime).




End Guarded.

(** ** The registry *)



(** ** C4: the registry route and the exceptions *)









(** [invoke("nonexistent_tool", "x")] *)
Example route_nonexistent_tool rt cwd home w :
  registry_route rt cwd home (py "nonexistent_tool") (py "x") w = (Ret None, w).
Proof. reflexivity. Qed.




(** ** C1 and C3: validation and the registry route *)

Lemma events_of_app {A} (m : M A) (w : world) (l : list event) :
  w_trace (snd (m w)) = w_trace w ++ l → events_of m w = l.
Proof. unfold events_of. intros ->. by rewrite drop_app_length. Qed.

(** A handler that only builds a message leaves the world alone, so
    the world after a [try] is the world after its body. *)
Lemma snd_catch {A} (m : M A) (h : exn → M A) (w : world) :
  (∀ e w', snd (h e w') = w') → snd (catch m h w) = snd (m w).
Proof.
  intros Hh. unfold catch. destruct (m w) as [[a|e] w']; simpl; [done|].
  destruct (isinstance e Exception_); [ apply Hh | done ].
Qed.

Lemma snd_bind_ret {A B} (m : M A) (f : A → B) (w : world) :
  snd (bind m (fun a => ret (f a)) w) = snd (m w).
Proof. unfold bind, ret. by destruct (m w) as [[a|e] w']. Qed.

(** Through [__call__], an expression that [validate_input] rejects is
    answered with the validation failure, and the only event is the
    log entry: [eval] is not called. *)
Lemma calculator_call_rejects rt args kw w :
  CalculatorTool.validate_input kw = false →
  result_of (BaseTool.call (CalculatorTool.calculator_tool rt) args kw) w
  = Ret (py "工具 calculator 输入验证失败")
  ∧ events_of (BaseTool.call (CalculatorTool.calculator_tool rt) args kw) w
    = [EvLog ERROR (py "工具 calculator 输入验证失败")].
Proof.
  intros Hv. split.
  - unfold result_of, BaseTool.call, catch, bind; simpl. by rewrite Hv.
  - apply events_of_app.
    unfold BaseTool.call, catch, bind; simpl. by rewrite Hv.
Qed.

(** Through [__call__], a URL that [validate_input] rejects is answered
    with the validation failure and no request is issued. *)
Lemma web_call_rejects rt args kw w :
  WebTool.validate_input kw = false →
  result_of (BaseTool.call (WebTool.web_tool rt) args kw) w
  = Ret (py "工具 web_tool 输入验证失败")
  ∧ events_of (BaseTool.call (WebTool.web_tool rt) args kw) w
    = [EvLog ERROR (py "工具 web_tool 输入验证失败")].
Proof.
  intros Hv. split.
  - unfold result_of, BaseTool.call, catch, bind; simpl. by rewrite Hv.
  - apply events_of_app.
    unfold BaseTool.call, catch, bind; simpl. by rewrite Hv.
Qed.

(** C1 at its failing input. The expression matches the deny list
    ([validate_input] rejects it), and yet the function registered for
    "calculator" calls [execute] without the validation: on the registry
    route the expression is handed to [eval], whatever the run time. *)
Theorem calculator_route_skips_validation rt cwd home w :
  CalculatorTool.validate_input {[ py "expression" := injection ]} = false
  ∧ events_of (registry_route rt cwd home (py "calculator") injection) w
    = [EvEval injection].
Proof.
  split; [ by vm_compute | ].
  apply events_of_app.
  unfold registry_route.
  change (ToolFactory.get_tool rt cwd home (py "calculator"))
    with (Some (ToolFactory.MakeTool CalculatorTool.name
                  (take 200 CalculatorTool.description)
                  (fun x => CalculatorTool.execute rt x))).
  unfold bind at 1, ToolFactory.func, CalculatorTool.execute, catch, bind.
  change (CalculatorTool._preprocess_expression injection) with injection.
  change (contains (lower injection) (py "to")) with false.
  change (startswith injection (py "mean(") || startswith injection (py "median(")
          || startswith injection (py "std(") || startswith injection (py "var("))
    with false.
  cbv beta iota.
  unfold CalculatorTool._evaluate_math, bind, emit, lift, ret, py_str.
  destruct (rt_eval rt injection) as [[z|x|s|s]|e]; cbv beta iota;
    repeat match goal with
           | |- context [match str_of_int ?z with _ => _ end] =>
               destruct (str_of_int z)
           | |- context [if ?b then _ else _] => destruct b
           end;
    reflexivity.
Qed.

(** C3 at its failing input. [validate_input] rejects the loopback URL,
    and yet the function registered for "web_tool" calls [execute]
    without the validation: on the registry route the request is
    issued, whatever the run time. *)
Theorem web_route_skips_validation rt cwd home w :
  WebTool.validate_input
    (<[ py "operation" := py "fetch" ]> {[ py "url" := py "http://127.0.0.1/" ]})
  = false
  ∧ events_of (registry_route rt cwd home (py "web_tool") (py "http://127.0.0.1/")) w
    = [EvRequest (py "GET") (py "http://127.0.0.1/")].
Proof.
  split; [ by vm_compute | ].
  apply events_of_app.
  unfold registry_route.
  change (ToolFactory.get_tool rt cwd home (py "web_tool"))
    with (Some (ToolFactory.MakeTool WebTool.name
                  (take 200 WebTool.description)
                  (fun x => WebTool.execute rt (py "fetch") x ∅))).
  cbv beta iota. rewrite snd_bind_ret. unfold ToolFactory.func, WebTool.execute.
  change (bool_decide (strip (lower (py "fetch")) ∈ [py "fetch"; py "获取"; py "抓取"]))
    with true.
  cbv beta iota zeta.
  rewrite snd_catch by message_handler.
  unfold WebTool._fetch_webpage. rewrite snd_catch by message_handler.
  unfold WebTool.request, WebTool.raise_for_status, bind, emit, lift, raise, ret.
  destruct (rt_request rt (py "GET") (py "http://127.0.0.1/") None) as [r|e];
    [ | reflexivity ].
  repeat match goal with |- context [if ?b then _ else _] => destruct b end;
    reflexivity.
Qed.

(** ** The branch [execute] takes *)

(** ** C5: division by zero *)

(** C5. When an expression is evaluated as arithmetic and the
    evaluation divides by zero ([eval] raises [ZeroDivisionError]),
    [execute] returns the message "错误：除数不能为零" as its result; the
    exception does not leave [execute]. *)
Theorem division_by_zero_reported rt (expression : str) (e : exn) (w : world) :
  route_of expression = Arithmetic →
  rt_eval rt (CalculatorTool._preprocess_expression expression) = Raise e →
  isinstance e ZeroDivisionError = true →
  CalculatorTool.execute rt expression w
  = (Ret (py "错误：除数不能为零"),
     World (w_fs w)
       (w_trace w ++ [EvEval (CalculatorTool._preprocess_expression expression)])).
Proof.
  unfold route_of, CalculatorTool.execute. cbv zeta.
  intros Hroute Heval Hzero.
  destruct (contains _ _); [discriminate|].
  destruct (_ || _); [discriminate|].
  unfold catch, bind, CalculatorTool._evaluate_math, emit, lift, bind.
  rewrite Heval, Hzero.
  rewrite (below_exception e ZeroDivisionError Hzero) by by_decide.
  reflexivity.
Qed.

(** [evaluate("10/0")] with the reference run time. *)
Lemma division_by_zero_witness :
  CalculatorTool.execute Reference.runtime (py "10/0") empty_world
  = (Ret (py "错误：除数不能为零"), World (w_fs empty_world) [EvEval (py "10/0")]).
Proof.
  apply (division_by_zero_reported Reference.runtime (py "10/0")
           (mk_exn ZeroDivisionError (py "division by zero")) empty_world);
    vm_compute; reflexivity.
Defined.

(** [evaluate("2+3*4")] with the reference run time. *)
Example evaluate_arithmetic :
  result_of (CalculatorTool.execute Reference.runtime (py "2+3*4")) empty_world
  = Ret (py "计算结果: 14").
Proof. vm_compute. reflexivity. Qed.

(** ** C10: the word [to] *)

(** The first test of [execute]: with [to] in the preprocessed text,
    the answer is that of [_convert_units] and the world is as before. *)
Lemma conversion_branch rt (expression : str) (w : world) :
  contains (lower (CalculatorTool._preprocess_expression expression)) (py "to")
  = true →
  CalculatorTool.execute rt expression w
  = (Ret (CalculatorTool._convert_units
            (CalculatorTool._preprocess_expression expression)), w).
Proof.
  intros Hto. unfold CalculatorTool.execute. cbv zeta. rewrite Hto. reflexivity.
Qed.

(** C10, as amended. An expression whose preprocessed text contains
    the two letters [to], in any case and at any place, is answered by
    [_convert_units] and by nothing else: the world is unchanged, so
    neither [eval] nor [statistics] is called. An identifier is caught
    by this only when it contains these two letters in a row, as
    "factorial" does. *)
Theorem to_routes_to_conversion rt (expression : str) (w : world) :
  contains (lower (CalculatorTool._preprocess_expression expression)) (py "to")
  = true →
  CalculatorTool.execute rt expression w
  = (Ret (CalculatorTool._convert_units
            (CalculatorTool._preprocess_expression expression)), w).
Proof. apply conversion_branch. Qed.

Lemma to_routes_to_conversion_witness :
  CalculatorTool.execute Reference.runtime (py "factorial(5)") empty_world
  = (Ret (py "无法解析数值和单位"), empty_world).
Proof.
  rewrite (to_routes_to_conversion Reference.runtime (py "factorial(5)")
             empty_world); vm_compute; reflexivity.
Defined.

(** C10, as stated, fails on its example: "atan" does not contain [to],
    and [atan(1)] is handed to [eval] (as [amath.tan(1)], after the
    rewriting of [tan(]). *)
Lemma atan_is_evaluated :
  contains (lower (CalculatorTool._preprocess_expression (py "atan(1)"))) (py "to")
  = false
  ∧ route_of (py "atan(1)") = Arithmetic
  ∧ events_of (CalculatorTool.execute Reference.runtime (py "atan(1)")) empty_world
    = [EvEval (py "amath.tan(1)")].
Proof. vm_compute. done. Qed.

(** ** C8: temperatures *)




(** ** C7: conversion of units *)








(** ** Facts on paths and on the file system *)

Lemma str_eqb_refl (s : str) : str_eqb s s = true.
Proof. unfold str_eqb. by apply bool_decide_eq_true_2. Qed.

Lemma str_eqb_eq (a b : str) : str_eqb a b = true → a = b.
Proof. unfold str_eqb. apply bool_decide_eq_true_1. Qed.

Lemma str_eqb_ne (a b : str) : a ≠ b → str_eqb a b = false.
Proof. unfold str_eqb. apply bool_decide_eq_false_2. Qed.

Lemma is_relative_to_refl (p : abspath) : Path.is_relative_to p p = true.
Proof. induction p as [|c p IH]; [done|]. simpl. by rewrite str_eqb_refl. Qed.

(** [is_relative_to p base] says that [base] is a prefix of [p]. *)
Lemma is_relative_to_prefix (p base : abspath) :
  Path.is_relative_to p base = true ↔ ∃ rest, p = base ++ rest.
Proof.
  revert p. induction base as [|b base IH]; intros p; simpl.
  - destruct p; (split; [ intros _; by eexists | done ]).
  - destruct p as [|c p]; [ split; [done | intros [? [=]]] | ].
    simpl. rewrite andb_true_iff, IH. split.
    + intros [Hbc [rest ->]]. apply str_eqb_eq in Hbc as ->. by exists rest.
    + intros [rest [= -> ->]]. split; [apply str_eqb_refl | by exists rest].
Qed.

(** The invariant of the sandbox: a path that [_get_safe_path] returns
    is the base path or lies below it. *)
Lemma safe_path_is_contained (self : FileTool.t) (path : str) (p : abspath) :
  FileTool._get_safe_path self path = Ret p →
  ∃ rest, p = FileTool.base_path self ++ rest.
Proof.
  unfold FileTool._get_safe_path.
  destruct (_ || _).
  - intros [= <-]. exists []. by rewrite app_nil_r.
  - destruct (Path.has_nul _); [ discriminate | ].
    destruct (Path.is_relative_to _ _) eqn:Hrel; [ | discriminate ].
    intros [= <-]. by apply is_relative_to_prefix.
Qed.

Lemma resolve_go_no_dotdot (acc p : list str) :
  Path.dotdot ∉ acc → Path.dotdot ∉ Path.resolve_go acc p.
Proof.
  revert acc. induction p as [|c p IH]; intros acc Hacc; simpl.
  - by rewrite list_elem_of_In, <- in_rev, <- list_elem_of_In.
  - destruct (str_eqb c Path.dotdot) eqn:Hc; apply IH.
    + destruct acc as [|a acc]; [done|]. simpl.
      intros Hin. apply Hacc. by right.
    + rewrite not_elem_of_cons. split; [|done].
      intros <-. by rewrite str_eqb_refl in Hc.
Qed.

(** A canonical path has no [..] component. *)
Lemma safe_path_no_dotdot (self : FileTool.t) (path : str) (p : abspath) :
  Path.dotdot ∉ FileTool.base_path self →
  FileTool._get_safe_path self path = Ret p →
  Path.dotdot ∉ p.
Proof.
  intros Hbase. unfold FileTool._get_safe_path.
  destruct (_ || _); [ by intros [= <-] | ].
  destruct (Path.has_nul _); [ discriminate | ].
  destruct (Path.is_relative_to _ _); [ | discriminate ].
  intros [= <-]. apply resolve_go_no_dotdot. apply not_elem_of_nil.
Qed.

Lemma canon_go_no_dotdot (root : node) (acc p : list str) :
  Path.dotdot ∉ p → OS.canon_go root acc p = Some (rev acc ++ p).
Proof.
  revert acc. induction p as [|c p IH]; intros acc Hp; simpl.
  - by rewrite app_nil_r.
  - apply not_elem_of_cons in Hp as [Hc Hp].
    rewrite str_eqb_ne by done. rewrite IH by done. simpl.
    by rewrite <- app_assoc.
Qed.

Lemma canon_no_dotdot (root : node) (p : abspath) :
  Path.dotdot ∉ p → OS.canon root p = Some p.
Proof. intros Hp. unfold OS.canon. by rewrite canon_go_no_dotdot. Qed.

Lemma find_set_entry (name : str) (new : node) (es : list (str * node)) :
  find_entry name (set_entry name new es) = Some new.
Proof.
  induction es as [|[k n] es IH]; simpl.
  - by rewrite str_eqb_refl.
  - destruct (str_eqb k name) eqn:Hk; simpl; by rewrite Hk.
Qed.

(** What is put at a path whose parent is a directory is found there. *)
Lemma fs_lookup_put (q : abspath) (root new : node) :
  q ≠ [] →
  (∃ es m, fs_lookup root (Path.parent q) = Some (Dir es m)) →
  fs_lookup (fs_put root q new) q = Some new.
Proof.
  revert root. induction q as [|c q IH]; intros root Hne (es & m & Hparent);
    [done|].
  destruct q as [|c' q].
  - simpl in Hparent. injection Hparent as ->. simpl.
    destruct (find_entry c es); simpl; by rewrite find_set_entry.
  - change (Path.parent (c :: c' :: q)) with (c :: Path.parent (c' :: q))
      in Hparent.
    simpl in Hparent. destruct root as [|es' m']; [done|].
    destruct (find_entry c es') as [n|] eqn:Hfind; [ | done ].
    simpl in Hparent.
    change (fs_put (Dir es' m') (c :: c' :: q) new)
      with (match find_entry c es', c' :: q with
            | Some n, _ => Dir (set_entry c (fs_put n (c' :: q) new) es') m'
            | None, [] => Dir (set_entry c new es') m'
            | None, _ :: _ => Dir es' m'
            end).
    rewrite Hfind.
    change (fs_lookup (Dir (set_entry c (fs_put n (c' :: q) new) es') m')
              (c :: c' :: q))
      with (n' ← find_entry c (set_entry c (fs_put n (c' :: q) new) es');
            fs_lookup n' (c' :: q)).
    rewrite find_set_entry. simpl. apply IH; [done|]. by exists es, m.
Qed.

Lemma universal_newlines_id (s : str) :
  13 ∉ s → OS.universal_newlines s = s.
Proof.
  induction s as [|c s IH]; [done|]. intros Hs.
  apply not_elem_of_cons in Hs as [Hc Hs]. simpl.
  destruct (N.eqb_spec c 13) as [->|_]; [done|]. by rewrite IH.
Qed.

Lemma encode_error_none (s : str) :
  (∀ c, c ∈ s → OS.is_surrogate c = false) → OS.encode_error s = None.
Proof.
  intros Hs. unfold OS.encode_error.
  assert (H : ∀ i, OS.first_surrogates s i = None); [ | by rewrite H ].
  induction s as [|c s IH]; intros i; [done|]. simpl.
  rewrite (Hs c) by left. apply IH. intros d Hd. apply Hs. by right.
Qed.

Lemma utf8_size_bound (s : str) : (utf8_size s ≤ 4 * N.of_nat (length s))%N.
Proof.
  induction s as [|c s IH]; [done|].
  change (utf8_size (c :: s)) with (utf8_width c + utf8_size s)%N.
  assert (utf8_width c ≤ 4)%N.
  { unfold utf8_width. repeat case_match; lia. }
  rewrite length_cons. lia.
Qed.

(** ** The calls of the operating system *)

Lemma parent_no_dotdot (p : abspath) :
  Path.dotdot ∉ p → Path.dotdot ∉ Path.parent p.
Proof.
  intros Hp Hin. apply Hp. unfold Path.parent in Hin.
  apply list_elem_of_In in Hin. apply list_elem_of_In.
  induction p as [|c p IH]; [done|].
  destruct p; [done|]. destruct Hin as [<-|Hin]; [by left|right].
  apply IH; [ | done ]. intros H. apply Hp. by right.
Qed.

Lemma parent_no_nul (p : abspath) :
  Path.has_nul p = false → Path.has_nul (Path.parent p) = false.
Proof.
  unfold Path.has_nul, Path.parent.
  induction p as [|c p IH]; [done|]. destruct p as [|d p]; [done|].
  cbn [existsb removelast]. intros H. apply orb_false_iff in H as [Hc Hp].
  rewrite Hc. cbn [orb]. by apply IH.
Qed.

Lemma stat_no_dotdot (root : node) (p : abspath) :
  Path.dotdot ∉ p → OS.stat root p = fs_lookup root p.
Proof. intros Hp. unfold OS.stat. by rewrite canon_no_dotdot. Qed.

Lemma refusal_granted (call : os_call) (p : abspath) (w : world) :
  os_refuses (fs_os (w_fs w)) call p = None → OS.refusal call p w = (Ret tt, w).
Proof. intros H. unfold OS.refusal, bind, get_os. cbv beta iota. by rewrite H. Qed.

Lemma path_stat_found (p : abspath) (n : node) (w : world) :
  Path.has_nul p = false →
  os_refuses (fs_os (w_fs w)) SysStat p = None →
  OS.stat (w_fs w) p = Some n →
  OS.path_stat p w = (Ret n, w).
Proof.
  intros Hnul Hos Hstat. unfold OS.path_stat. rewrite Hnul.
  unfold bind. rewrite (refusal_granted _ _ _ Hos). cbv beta iota.
  unfold get_fs. by rewrite Hstat.
Qed.

(** [exists], [is_file] and [is_dir] of a path that the tree holds and
    on which [stat] is not refused. *)
Lemma probe_found (test : node → bool) (p : abspath) (n : node) (w : world) :
  Path.has_nul p = false →
  os_refuses (fs_os (w_fs w)) SysStat p = None →
  OS.stat (w_fs w) p = Some n →
  OS.probe test p w = (Ret (test n), w).
Proof.
  intros Hnul Hos Hstat. unfold OS.probe, catch, bind.
  by rewrite (path_stat_found p n w Hnul Hos Hstat).
Qed.

(** What is put at a path leaves the directory of the path a
    directory. *)
Lemma fs_put_parent (q : abspath) (root new : node) es m :
  q ≠ [] →
  fs_lookup root (Path.parent q) = Some (Dir es m) →
  ∃ es', fs_lookup (fs_put root q new) (Path.parent q) = Some (Dir es' m).
Proof.
  revert root. induction q as [|c q IH]; intros root Hne Hparent; [done|].
  destruct q as [|c' q].
  - simpl in Hparent. injection Hparent as ->. simpl.
    destruct (find_entry c es); simpl; by eexists.
  - change (Path.parent (c :: c' :: q)) with (c :: Path.parent (c' :: q))
      in Hparent |- *.
    simpl in Hparent. destruct root as [|es' m']; [done|].
    destruct (find_entry c es') as [n|] eqn:Hfind; [ | done ].
    simpl in Hparent.
    change (fs_put (Dir es' m') (c :: c' :: q) new)
      with (match find_entry c es', c' :: q with
            | Some n, _ => Dir (set_entry c (fs_put n (c' :: q) new) es') m'
            | None, [] => Dir (set_entry c new es') m'
            | None, _ :: _ => Dir es' m'
            end).
    rewrite Hfind.
    change (fs_lookup (Dir (set_entry c (fs_put n (c' :: q) new) es') m')
              (c :: Path.parent (c' :: q)))
      with (n' ← find_entry c (set_entry c (fs_put n (c' :: q) new) es');
            fs_lookup n' (Path.parent (c' :: q))).
    rewrite find_set_entry. simpl. by apply IH.
Qed.

Lemma fs_lookup_app (root : node) (p rest : abspath) :
  fs_lookup root (p ++ rest) = (n ← fs_lookup root p; fs_lookup n rest).
Proof.
  revert root. induction p as [|c p IH]; intros root; [done|].
  simpl. destruct root as [|es m]; [done|].
  destruct (find_entry c es); simpl; [ apply IH | done ].
Qed.

(** A node that is put at [p] and agrees below itself with what was at
    [p] changes nothing below [p]. *)
Lemma fs_put_below (root : node) (p rest : abspath) (new : node) :
  fs_lookup new rest = (n ← fs_lookup root p; fs_lookup n rest) →
  rest ≠ [] →
  fs_lookup (fs_put root p new) (p ++ rest) = fs_lookup root (p ++ rest).
Proof.
  revert root. induction p as [|c p IH]; intros root Hagree Hrest.
  - simpl in *. by rewrite Hagree.
  - destruct root as [data m|es m]; [done|].
    cbn [fs_put app].
    destruct (find_entry c es) as [n|] eqn:Hfind.
    + cbn [fs_lookup]. rewrite find_set_entry, Hfind. simpl.
      apply IH; [ | done ]. rewrite Hagree. simpl. by rewrite Hfind.
    + destruct p as [|c' p]; [ | done ].
      cbn [fs_lookup app]. rewrite find_set_entry, Hfind. simpl.
      rewrite Hagree. simpl. by rewrite Hfind.
Qed.

Lemma restamp_below (now : metadata) (n : node) (rest : abspath) :
  rest ≠ [] → fs_lookup (OS.restamp now n) rest = fs_lookup n rest.
Proof. destruct rest; [done|]. by destruct n. Qed.

Lemma with_atime_below (t : Z) (n : node) (rest : abspath) :
  rest ≠ [] → fs_lookup (OS.with_atime t n) rest = fs_lookup n rest.
Proof. destruct rest; [done|]. by destruct n. Qed.

Lemma app_removelast_last (q : abspath) :
  q ≠ [] → q = Path.parent q ++ [Path.name q].
Proof. intros Hq. unfold Path.parent, Path.name. by apply app_removelast_last. Qed.

(** A new node that is entered where the directory exists is found
    there. *)
Lemma fs_lookup_put_new (q : abspath) (root new : node) es m :
  q ≠ [] →
  fs_lookup root (Path.parent q) = Some (Dir es m) →
  fs_lookup (OS.put_new root q new) q = Some new.
Proof.
  intros Hq Hparent. unfold OS.put_new.
  destruct (fs_put_parent q root new es m Hq Hparent) as [es' Hp'].
  rewrite Hp'.
  rewrite (app_removelast_last q Hq) at 3.
  rewrite fs_put_below.
  - rewrite <- (app_removelast_last q Hq). apply fs_lookup_put; [done|].
    by exists es, m.
  - rewrite Hp'. cbn [mbind option_bind]. by rewrite restamp_below.
  - done.
Qed.

(** The writing of a text that can be encoded, to a place that is no
    directory in a directory that exists, when the operating system
    refuses nothing: the file holds the text. *)
Lemma write_text_stores (p : abspath) (content : str) (w : world) :
  Path.has_nul p = false →
  Path.dotdot ∉ p →
  granted w p →
  (∃ es m, fs_lookup (w_fs w) (Path.parent p) = Some (Dir es m)) →
  (∀ es m, fs_lookup (w_fs w) p ≠ Some (Dir es m)) →
  (∀ c, c ∈ content → OS.is_surrogate c = false) →
  ∃ root meta,
    OS.write_text p content w
    = (Ret tt, World (Fs root (fs_os (w_fs w))) (w_trace w))
    ∧ fs_lookup root p = Some (File content meta).
Proof.
  intros Hnul Hdd Hos (es & m & Hparent) Hnotdir Hsur.
  assert (Hne : p ≠ []).
  { intros ->. by apply (Hnotdir es m). }
  unfold OS.write_text. rewrite Hnul. unfold bind at 1.
  rewrite (refusal_granted _ _ _ (Hos SysOpenWrite)). cbv beta iota.
  unfold bind at 1, get_fs at 1. cbv beta iota.
  unfold bind at 1, get_os at 1. cbv beta iota.
  unfold OS.written. rewrite (encode_error_none _ Hsur), (Hos SysWrite).
  rewrite canon_no_dotdot by done. rewrite Hparent.
  destruct (fs_lookup (w_fs w) p) as [[d m'|es' m']|] eqn:Hl.
  - eexists _, _. split; [ reflexivity | ].
    apply fs_lookup_put; [done|]. by exists es, m.
  - by destruct (Hnotdir es' m').
  - eexists _, _. split; [ reflexivity | ].
    by apply (fs_lookup_put_new p _ _ es m).
Qed.

(** The reading of a file that the tree holds, when the operating
    system refuses nothing: the text comes back with the line ends of
    the text mode. *)
Lemma read_text_found (p : abspath) (data : str) (meta : metadata) (w : world) :
  Path.has_nul p = false →
  os_refuses (fs_os (w_fs w)) SysOpenRead p = None →
  OS.stat (w_fs w) p = Some (File data meta) →
  OS.read_text p w = (Ret (OS.universal_newlines data), snd (OS.touch p w)).
Proof.
  intros Hnul Hos Hstat. unfold OS.read_text. rewrite Hnul.
  unfold bind at 1. rewrite (refusal_granted _ _ _ Hos). cbv beta iota.
  unfold bind at 1, get_fs at 1. cbv beta iota. rewrite Hstat.
  unfold bind, ret. by destruct (OS.touch p w) as [[[]|e] w'] eqn:Ht;
    [ | exfalso; revert Ht; unfold OS.touch, OS.touch_at, bind, get_fs, get_os,
          set_fs, ret; repeat case_match; discriminate ].
Qed.

(** ** C6: writing, then reading *)

(** C6, as amended. Let a path resolve inside the sandbox to a place
    whose parent is an existing directory and which is not itself a
    directory, with an extension other than .json, .csv, .xlsx and .xls;
    let the operating system refuse no call on the file and on its
    directory; let the content have fewer than 5000 characters, no
    carriage return and no surrogate. Then the write succeeds, and the
    read that follows answers "文件内容:" and, on the next line, the
    content as written. *)
Theorem write_then_read rt (self : FileTool.t) (filepath content : str)
  (full_path : abspath) (w : world) :
  Path.dotdot ∉ FileTool.base_path self →
  FileTool._get_safe_path self filepath = Ret full_path →
  Path.has_nul full_path = false →
  (∃ es m, fs_lookup (w_fs w) (Path.parent full_path) = Some (Dir es m)) →
  (∀ es m, fs_lookup (w_fs w) full_path ≠ Some (Dir es m)) →
  granted w full_path →
  granted w (Path.parent full_path) →
  lower (Path.suffix full_path) ∉ structured_extensions →
  (length content < 5000)%nat →
  13 ∉ content →
  (∀ c, c ∈ content → OS.is_surrogate c = false) →
  ∃ w1 w2,
    FileTool._write_file self filepath content w
    = (Ret (py "文件保存成功: " ++ filepath), w1)
    ∧ FileTool._read_file rt self filepath w1
      = (Ret (py "文件内容:" ++ FileTool.nl ++ content), w2).
Proof.
  intros Hbase Hsafe Hnul Hparent Hnotdir Hos Hos' Hext Hlen Hcr Hsur.
  pose proof (safe_path_no_dotdot _ _ _ Hbase Hsafe) as Hdd.
  pose proof (parent_no_dotdot _ Hdd) as Hdd'.
  pose proof (parent_no_nul _ Hnul) as Hnul'.
  destruct (write_text_stores full_path content w Hnul Hdd Hos Hparent
              Hnotdir Hsur) as (root & meta & Hwrite & Hfile).
  set (w1 := World (Fs root (fs_os (w_fs w))) (w_trace w)) in *.
  exists w1, (snd (OS.touch full_path w1)). split.
  - unfold FileTool._write_file, catch, bind at 1, lift. rewrite Hsafe.
    cbv beta iota zeta. unfold OS.path_exists, bind at 1.
    destruct Hparent as (es & m & Hp).
    rewrite (probe_found _ (Path.parent full_path) (Dir es m) w Hnul'
               (Hos' SysStat)) by (by rewrite stat_no_dotdot).
    cbv beta iota. cbn [negb]. unfold bind. by rewrite Hwrite.
  - assert (Hstat : OS.stat (w_fs w1) full_path = Some (File content meta)).
    { by rewrite stat_no_dotdot. }
    unfold FileTool._read_file, catch, bind at 1, lift. rewrite Hsafe.
    cbv beta iota zeta.
    unfold OS.path_exists, OS.path_is_file.
    unfold bind at 1.
    rewrite (probe_found _ full_path _ w1 Hnul (Hos SysStat) Hstat).
    cbv beta iota. cbn [negb]. unfold bind at 1.
    rewrite (probe_found _ full_path _ w1 Hnul (Hos SysStat) Hstat).
    cbv beta iota. cbn [negb]. unfold bind at 1.
    rewrite (path_stat_found full_path _ w1 Hnul (Hos SysStat) Hstat).
    cbv beta iota. cbn [st_size].
    assert (Hsize : (10 * 1024 * 1024 <? utf8_size content)%N = false).
    { apply N.ltb_ge. pose proof (utf8_size_bound content). lia. }
    rewrite Hsize.
    unfold structured_extensions in Hext.
    rewrite !not_elem_of_cons in Hext. destruct Hext as (H1 & H2 & H3 & H4 & _).
    rewrite !str_eqb_ne by done. cbn [orb].
    unfold bind.
    rewrite (read_text_found full_path content meta w1 Hnul (Hos SysOpenRead)
               Hstat).
    rewrite universal_newlines_id by done. unfold ret.
    rewrite take_ge by lia.
    destruct (Nat.eqb_spec (length content) 5000); [lia|]. reflexivity.
Qed.

Lemma write_then_read_witness :
  ∃ w1 w2,
    FileTool._write_file sandbox_tool (py "notes.txt") (py "hello")
      (sandbox_world [])
    = (Ret (py "文件保存成功: notes.txt"), w1)
    ∧ FileTool._read_file Reference.runtime sandbox_tool (py "notes.txt") w1
      = (Ret (py "文件内容:" ++ FileTool.nl ++ py "hello"), w2).
Proof.
  apply (write_then_read Reference.runtime sandbox_tool (py "notes.txt")
           (py "hello") [py "sandbox"; py "notes.txt"] (sandbox_world [])).
  - by_decide.
  - vm_compute; reflexivity.
  - vm_compute; reflexivity.
  - eexists _, _. vm_compute; reflexivity.
  - intros es m. vm_compute. discriminate.
  - intros call. reflexivity.
  - intros call. reflexivity.
  - by_decide.
  - vm_compute. lia.
  - by_decide.
  - apply Forall_forall. by_decide.
Defined.

(** C6, as stated, fails: the read of a text file stops after 5000
    characters and marks its answer as cut, so a content of 5000
    characters does not come back as it was written. *)
Lemma long_content_not_returned :
  (utf8_size long_content ≤ 10 * 1024 * 1024)%N
  ∧ result_of (FileTool._write_file sandbox_tool (py "big.txt") long_content)
      (sandbox_world [])
    = Ret (py "文件保存成功: big.txt")
  ∧ result_of (FileTool._read_file Reference.runtime sandbox_tool (py "big.txt"))
      world_after_long_write
    = Ret (py "文件内容:" ++ FileTool.nl ++ long_content ++ FileTool.nl
           ++ py "...(内容截断，只显示前5000字符)")
  ∧ result_of (FileTool._read_file Reference.runtime sandbox_tool (py "big.txt"))
      world_after_long_write
    ≠ Ret (py "文件内容:" ++ FileTool.nl ++ long_content).
Proof.
  split; [ vm_compute; discriminate | ].
  split; [ vm_compute; reflexivity | ].
  assert (H : result_of (FileTool._read_file Reference.runtime sandbox_tool
                           (py "big.txt")) world_after_long_write
              = Ret (py "文件内容:" ++ FileTool.nl ++ long_content ++ FileTool.nl
                     ++ py "...(内容截断，只显示前5000字符)")).
  { vm_compute; reflexivity. }
  split; [ exact H | ].
  rewrite H. intros Heq.
  pose proof (f_equal (fun o => match o with Ret s => length s | _ => O end) Heq)
    as Hlen.
  vm_compute in Hlen. discriminate.
Qed.

(** A carriage return does not come back either: reading in text mode
    turns [\r\n] into [\n]. *)
Example carriage_return_not_returned :
  result_of (FileTool._read_file Reference.runtime sandbox_tool (py "a.txt"))
    (snd (FileTool._write_file sandbox_tool (py "a.txt")
            [97; 13; 10; 98] (sandbox_world [])))
  = Ret (py "文件内容:" ++ FileTool.nl ++ [97; 10; 98]).
Proof. vm_compute; reflexivity. Qed.

(** A directory in which the process may not write, or a name that
    the file system does not take: the write is answered with a
    failure, and the world is as it was. *)
Example refused_write_reported :
  FileTool._write_file sandbox_tool (py "notes.txt") (py "hello")
    (refusing_world SysOpenWrite
       (mk_exn PermissionError
          (py "[Errno 13] Permission denied: '/sandbox/notes.txt'")))
  = (Ret (py "没有权限写入文件: notes.txt"),
     refusing_world SysOpenWrite
       (mk_exn PermissionError
          (py "[Errno 13] Permission denied: '/sandbox/notes.txt'")))
  ∧ result_of (FileTool._write_file sandbox_tool (py "notes.txt") (py "hello"))
      (refusing_world SysOpenWrite
         (mk_exn OSError (py "[Errno 36] File name too long")))
    = Ret (py "写入文件失败: [Errno 36] File name too long").
Proof. split; vm_compute; reflexivity. Qed.

(** ** C2: the sandbox and the deny list *)

(** [../../etc/passwd] leaves a sandbox at /sandbox. *)
Example passwd_escapes :
  FileTool._get_safe_path sandbox_tool (py "../../etc/passwd")
  = Raise (mk_exn PermissionError (py "访问路径超出允许范围: ../../etc/passwd"))
  ∧ ∀ rt w, result_of (FileTool._read_file rt sandbox_tool (py "../../etc/passwd")) w
            = Ret (py "没有权限读取文件: ../../etc/passwd").
Proof. split; [ vm_compute; reflexivity | intros rt w; vm_compute; reflexivity ]. Qed.

(** C2 at its failing input. The path resolves inside the sandbox and
    below ~/Documents, which is on the deny list: [_is_path_safe]
    refuses it and so does [validate_input]. The operations do not ask
    either of them: [execute] reads the file, and the function
    registered for "file_tool" lists the directory. *)
Theorem file_operations_skip_deny_list rt :
  FileTool._get_safe_path (ToolFactory.file_tool project user_home) (py "notes.txt")
  = Ret (project ++ [py "notes.txt"])
  ∧ Path.is_relative_to (project ++ [py "notes.txt"])
      (user_home ++ [py "Documents"]) = true
  ∧ FileTool._is_path_safe (ToolFactory.file_tool project user_home)
      (project ++ [py "notes.txt"]) = false
  ∧ FileTool.validate_input (ToolFactory.file_tool project user_home)
      (<[ py "operation" := py "read" ]> {[ py "path" := py "notes.txt" ]}) = false
  ∧ FileTool.execute rt (ToolFactory.file_tool project user_home)
      (py "read") (py "notes.txt") [] ∅ project_world
    = (Ret (py "文件内容:" ++ FileTool.nl ++ py "hello"), project_world)
  ∧ registry_route rt project user_home (py "file_tool") (py ".") project_world
    = (Ret (Some (py "目录: ." ++ FileTool.nl ++ FileTool.nl ++ py "📄 文件:"
                  ++ FileTool.nl ++ py "📄 notes.txt (5.0 B)")), project_world).
Proof. repeat split; vm_compute; reflexivity. Qed.

(** ** C9: the listing of a directory *)

(** C9 at its failing input. Of eleven files the listing shows ten,
    each with its size, and ends there, with no word of the eleventh:
    the note on entries left out is added only when directories and
    files together are more than twenty. *)
Theorem listing_drops_entry_silently :
  length (FileTool.file_lines
            (OS.iterdir (w_fs eleven_files) [py "sandbox"])) = 11%nat
  ∧ FileTool._list_directory sandbox_tool (py ".") eleven_files
    = (Ret eleven_listing, eleven_files)
  ∧ contains eleven_listing (py "f11") = false
  ∧ contains eleven_listing (py "...") = false.
Proof. repeat split; vm_compute; reflexivity. Qed.

(** With twenty-one files the note is there, and it speaks of twenty
    entries shown where ten are. *)
Example listing_note_over_twenty :
  result_of (FileTool._list_directory sandbox_tool (py "."))
    (sandbox_world
       (map (fun n => (str_of_nat n, File [] file_meta)) (seq 1 21)))
  = Ret (join FileTool.nl
           ([ py "目录: ."; FileTool.nl ++ py "📄 文件:" ]
            ++ map (fun n => py "📄 " ++ str_of_nat n ++ py " (0.0 B)") (seq 1 10)
            ++ [ FileTool.nl ++ py "... 共 21 个项目，只显示前20个" ])).
Proof. vm_compute; reflexivity. Qed.

(* ===================================================================== *)
(** * Further properties of the tools *)
(* ===================================================================== *)

(** ** Strings and patterns *)

Lemma startswith_app (p s : str) : startswith (p ++ s) p = true.
Proof. induction p as [|c p IH]; [by destruct s|]. simpl. by rewrite N.eqb_refl. Qed.

Lemma contains_here (s p : str) : startswith s p = true → contains s p = true.
Proof. intros H. destruct s; simpl in *; by rewrite H. Qed.

(** [d in a + d + b] *)
Lemma contains_app (a d b : str) : contains (a ++ d ++ b) d = true.
Proof.
  induction a as [|c a IH]; simpl.
  - apply contains_here, startswith_app.
  - rewrite IH. apply orb_true_r.
Qed.

Lemma lower_app (a b : str) : lower (a ++ b) = lower a ++ lower b.
Proof. apply map_app. Qed.

Lemma lower_char_idem (c : char) : lower_char (lower_char c) = lower_char c.
Proof.
  unfold lower_char, is_upper_ascii.
  destruct (N.leb_spec 65 c), (N.leb_spec c 90); cbn [andb];
    repeat match goal with
           | |- context [N.leb ?a ?b] => destruct (N.leb_spec a b)
           end; cbn [andb]; try reflexivity; lia.
Qed.

Lemma lower_idem (s : str) : lower (lower s) = lower s.
Proof. unfold lower. rewrite map_map. apply map_ext, lower_char_idem. Qed.

(** A character matches its own lower case under [re.IGNORECASE]. *)
Lemma ci_lower (x : char) : Re.ci (lower_char x) x = true.
Proof. unfold Re.ci. by rewrite lower_char_idem, N.eqb_refl. Qed.

(** A match at some place of the text is found by [re.search]. *)
Lemma search_occurrence (r : Re.regex) (a s : str) :
  is_Some (Re.match_here r [] s) → Re.search r (a ++ s) = true.
Proof.
  intros [res Hs]. induction a as [|c a IH]; simpl.
  - destruct s; simpl in *; by rewrite Hs.
  - destruct (Re.match_here r [] (c :: a ++ s)); [done | exact IH].
Qed.

(** The letters of a word match any spelling of it in capitals and
    small letters. *)
Lemma match_word_i (w : str) (r : Re.regex) (g : list str) (s : str) :
  Re.match_here (map (fun c => Re.One (Re.ci c)) (lower w) ++ r) g (w ++ s)
  = Re.match_here r g s.
Proof.
  induction w as [|x w IH]; [done|]. simpl. by rewrite ci_lower.
Qed.

(** A greedy repetition finds a match when some run of the class, long
    enough, is followed by a match of the rest. *)
Lemma many_finds {R} (p : char → bool) (k : str → str → option R)
  (taken m s : str) :
  Forall (fun c => p c = true) m →
  is_Some (k (rev taken ++ m) s) →
  is_Some (Re.many p k taken (m ++ s)).
Proof.
  intros Hm. revert taken. induction Hm as [|c m Hc Hm IH]; intros taken Hk.
  - rewrite app_nil_r in Hk. simpl. destruct s as [|c s]; simpl; [done|].
    destruct (p c); [|done]. by destruct (Re.many p k (c :: taken) s).
  - simpl. rewrite Hc.
    destruct (IH (c :: taken)) as [res ->]; [ | done ].
    simpl. by rewrite <- app_assoc.
Qed.

Lemma match_many (p : char → bool) (least : nat) (r : Re.regex)
  (g : list str) (m s : str) :
  Forall (fun c => p c = true) m →
  (least ≤ length m)%nat →
  is_Some (Re.match_here r g s) →
  is_Some (Re.match_here (Re.Many p least false :: r) g (m ++ s)).
Proof.
  intros Hm Hlen Hr. simpl. apply many_finds; [done|]. simpl.
  destruct (Nat.leb_spec least (length m)); [done | lia].
Qed.

Lemma kw_get_singleton (k v : str) : kw_get {[ k := v ]} k = v.
Proof. unfold kw_get, kwargs. by rewrite lookup_singleton_eq. Qed.

(** ** The deny list of the calculator *)

Lemma word_matches (lit : string) (w b : str) :
  lower w = py lit → is_Some (Re.match_here (Re.word_i lit) [] (w ++ b)).
Proof.
  intros Hw. unfold Re.word_i. rewrite <- Hw.
  rewrite <- (app_nil_r (map _ (lower w))), match_word_i. by eexists.
Qed.

Lemma call_matches (lit : string) (w blanks b : str) :
  lower w = py lit →
  Forall (fun c => is_space c = true) blanks →
  is_Some (Re.match_here
             (Re.word_i lit ++ [Re.Many Re.ws 0 false] ++ Re.word_i "(") []
             ((w ++ blanks ++ py "(") ++ b)).
Proof.
  intros Hw Hb. unfold Re.word_i at 1. rewrite <- Hw, <- !app_assoc, match_word_i.
  apply match_many; [ done | lia | by eexists ].
Qed.

(** A token of the deny list is matched by one of the patterns, whatever
    follows it. *)
Lemma token_matches (t b : str) :
  deny_listed_token t →
  ∃ pattern, pattern ∈ CalculatorTool.dangerous_patterns
             ∧ is_Some (Re.match_here pattern [] (t ++ b)).
Proof.
  unfold CalculatorTool.dangerous_patterns.
  intros [w Hw | w blanks Hw Hb | w blank Hw Hb | between Hn].
  - rewrite !elem_of_cons, elem_of_nil in Hw.
    destruct Hw as [Hw | [Hw | [Hw | []]]].
    + exists (Re.word_i "os."). split; [ | by apply word_matches ].
      do 5 apply list_elem_of_further. apply list_elem_of_here.
    + exists (Re.word_i "sys."). split; [ | by apply word_matches ].
      do 6 apply list_elem_of_further. apply list_elem_of_here.
    + exists (Re.word_i "subprocess."). split; [ | by apply word_matches ].
      do 7 apply list_elem_of_further. apply list_elem_of_here.
  - rewrite !elem_of_cons, elem_of_nil in Hw.
    destruct Hw as [Hw | [Hw | [Hw | []]]]; eexists;
      (split; [ | by apply call_matches ]).
    + do 1 apply list_elem_of_further. apply list_elem_of_here.
    + do 2 apply list_elem_of_further. apply list_elem_of_here.
    + do 4 apply list_elem_of_further. apply list_elem_of_here.
  - eexists. split; [ apply list_elem_of_here | ].
    unfold Re.word_i. rewrite <- Hw, <- !app_assoc, match_word_i.
    apply (match_many _ _ _ _ [blank]);
      [ by constructor | simpl; lia | by eexists ].
  - eexists. split; [ do 3 apply list_elem_of_further; apply list_elem_of_here | ].
    change (Re.word_i "__") with [Re.One (Re.ci 95); Re.One (Re.ci 95)].
    change (py "__") with [95; 95]. rewrite <- !app_assoc. simpl.
    apply many_finds; [ | by eexists ].
    apply Forall_forall. intros c Hc. unfold Re.dot.
    destruct (N.eqb_spec c 10) as [-> | _]; done.
Qed.

(** An expression with a token of the deny list, in any letter case
    and at any place, is refused by [validate_input]; through
    [__call__] the answer is the validation failure, and [eval] is
    not called. *)
Theorem deny_listed_expression_refused rt (a t b : str) (args : list str)
  (w : world) :
  deny_listed_token t →
  CalculatorTool.validate_input {[ py "expression" := a ++ t ++ b ]} = false
  ∧ result_of (BaseTool.call (CalculatorTool.calculator_tool rt) args
                 {[ py "expression" := a ++ t ++ b ]}) w
    = Ret (py "工具 calculator 输入验证失败")
  ∧ events_of (BaseTool.call (CalculatorTool.calculator_tool rt) args
                 {[ py "expression" := a ++ t ++ b ]}) w
    = [EvLog ERROR (py "工具 calculator 输入验证失败")].
Proof.
  intros Ht.
  assert (Hv : CalculatorTool.validate_input {[ py "expression" := a ++ t ++ b ]}
               = false).
  { unfold CalculatorTool.validate_input. rewrite kw_get_singleton.
    case_bool_decide; [done|].
    destruct (token_matches t b Ht) as (pattern & Hin & Hmatch).
    assert (He : existsb (fun pattern => Re.search pattern (a ++ t ++ b))
                   CalculatorTool.dangerous_patterns = true).
    { apply existsb_exists. exists pattern. split.
      - by apply list_elem_of_In.
      - by apply search_occurrence. }
    by rewrite He. }
  split; [exact Hv|]. by apply calculator_call_rejects.
Qed.

Lemma deny_listed_expression_witness :
  CalculatorTool.validate_input {[ py "expression" := py "1 + OS.getcwd()" ]}
  = false
  ∧ result_of (BaseTool.call (CalculatorTool.calculator_tool Reference.runtime) []
                 {[ py "expression" := py "1 + OS.getcwd()" ]}) empty_world
    = Ret (py "工具 calculator 输入验证失败")
  ∧ events_of (BaseTool.call (CalculatorTool.calculator_tool Reference.runtime) []
                 {[ py "expression" := py "1 + OS.getcwd()" ]}) empty_world
    = [EvLog ERROR (py "工具 calculator 输入验证失败")].
Proof.
  apply (deny_listed_expression_refused Reference.runtime (py "1 + ") (py "OS.")
           (py "getcwd()") [] empty_world).
  apply deny_prefix. by_decide.
Defined.

(** A call of the calculator with positional arguments only, or with
    an empty expression, fails the validation: [validate_input] sees
    the keyword arguments alone. *)
Theorem calculator_needs_keyword rt (args : list str) (kw : kwargs) (w : world) :
  kw_get kw (py "expression") = [] →
  result_of (BaseTool.call (CalculatorTool.calculator_tool rt) args kw) w
  = Ret (py "工具 calculator 输入验证失败")
  ∧ events_of (BaseTool.call (CalculatorTool.calculator_tool rt) args kw) w
    = [EvLog ERROR (py "工具 calculator 输入验证失败")].
Proof.
  intros Hk. apply calculator_call_rejects.
  unfold CalculatorTool.validate_input. rewrite Hk. by case_bool_decide.
Qed.

Lemma calculator_needs_keyword_witness :
  result_of (BaseTool.call (CalculatorTool.calculator_tool Reference.runtime)
               [py "2+3*4"] ∅) empty_world
  = Ret (py "工具 calculator 输入验证失败")
  ∧ events_of (BaseTool.call (CalculatorTool.calculator_tool Reference.runtime)
                 [py "2+3*4"] ∅) empty_world
    = [EvLog ERROR (py "工具 calculator 输入验证失败")].
Proof.
  apply (calculator_needs_keyword Reference.runtime [py "2+3*4"] ∅ empty_world).
  reflexivity.
Defined.

(** ** The preprocessing of an expression *)

Lemma replace_char_absent (old : char) (new s : str) :
  old ∉ s → replace_char old new s = s.
Proof.
  induction s as [|c s IH]; [done|]. intros Hs.
  apply not_elem_of_cons in Hs as [Hc Hs]. unfold replace_char in *. simpl.
  destruct (N.eqb_spec c old) as [->|_]; [done|]. simpl. by rewrite IH.
Qed.

(** A greedy repetition hands what follows the run to its
    continuation. *)
Lemma many_inv {R} (p : char → bool) (k : str → str → option R)
  (taken s : str) (res : R) :
  Re.many p k taken s = Some res →
  ∃ m rest, s = m ++ rest ∧ k (rev taken ++ m) rest = Some res.
Proof.
  revert taken. induction s as [|c s IH]; intros taken; simpl.
  - intros Hk. exists [], []. by rewrite (app_nil_r (rev taken)).
  - destruct (p c).
    + destruct (Re.many p k (c :: taken) s) as [r|] eqn:Hm.
      * intros [= ->]. destruct (IH _ Hm) as (m & rest & -> & Hk).
        exists (c :: m), rest. split; [done|]. simpl in Hk.
        by rewrite <- app_assoc in Hk.
      * intros Hk. exists [], (c :: s). by rewrite (app_nil_r (rev taken)).
    + intros Hk. exists [], (c :: s). by rewrite (app_nil_r (rev taken)).
Qed.

(** A character class that a pattern demands is met in a text the
    pattern matches. *)
Lemma match_here_demands (p : char → bool) (r : Re.regex) (g : list str)
  (s : str) :
  Re.One p ∈ r →
  is_Some (Re.match_here r g s) →
  ∃ c, c ∈ s ∧ p c = true.
Proof.
  revert g s. induction r as [|[q|q least cap] r IH]; intros g s Hin [res Hm].
  - by apply elem_of_nil in Hin.
  - simpl in Hm. destruct s as [|c s]; [done|].
    destruct (q c) eqn:Hq; [|done].
    apply elem_of_cons in Hin as [[= <-] | Hin].
    + exists c. split; [left | done].
    + destruct (IH g s Hin) as (c' & Hc' & Hp); [by eexists|].
      exists c'. split; [by right | done].
  - simpl in Hm. apply many_inv in Hm as (m & rest & -> & Hk).
    apply elem_of_cons in Hin as [[=] | Hin].
    destruct (_ <=? _)%nat; [|done].
    destruct (IH (if cap then g ++ [rev [] ++ m] else g) rest Hin)
      as (c' & Hc' & Hp); [by eexists|].
    exists c'. split; [ | done]. apply elem_of_app. by right.
Qed.

Lemma ci_paren (c : char) : Re.ci 40 c = true → c = 40.
Proof.
  unfold Re.ci, lower_char, is_upper_ascii. simpl.
  rewrite !orb_false_r.
  destruct (N.leb_spec 65 c), (N.leb_spec c 90); simpl;
    intros Heq; apply N.eqb_eq in Heq; lia.
Qed.

(** Without a parenthesis in the text, a pattern that ends with one
    replaces nothing. *)
Lemma sub_call_absent (fn repl : string) (expr : str) :
  40 ∉ expr → CalculatorTool.sub_call fn repl expr = expr.
Proof.
  unfold CalculatorTool.sub_call, Re.sub.
  induction expr as [|c expr IH]; [done|]. intros Hs.
  cbn [Re.sub_go].
  destruct (Re.match_here _ [] (c :: expr)) as [[g rest]|] eqn:Hm.
  - assert (is_Some (Re.match_here
               (Re.word_i fn ++ [Re.Many Re.ws 0 false] ++ Re.word_i "(") []
               (c :: expr))) as Hsome by (by eexists).
    apply (match_here_demands (Re.ci 40)) in Hsome as (x & Hx & Hp).
    + apply ci_paren in Hp as ->. done.
    + rewrite !elem_of_app. right. right. apply list_elem_of_here.
  - rewrite IH; [done|]. by apply not_elem_of_cons in Hs as [_ Hs].
Qed.

(** An expression with no parenthesis, no sign of multiplication or of
    division and no circumflex goes through the preprocessing as it
    is. *)
Theorem preprocess_plain_expression (expr : str) :
  40 ∉ expr → 215 ∉ expr → 247 ∉ expr → 94 ∉ expr →
  CalculatorTool._preprocess_expression expr = expr.
Proof.
  intros Hparen Hmul Hdiv Hpow. unfold CalculatorTool._preprocess_expression.
  cbv zeta.
  rewrite (replace_char_absent 215), (replace_char_absent 247),
    (replace_char_absent 94) by done.
  by rewrite (sub_call_absent "sin"), (sub_call_absent "cos"),
    (sub_call_absent "tan"), (sub_call_absent "sqrt"),
    (sub_call_absent "log"), (sub_call_absent "ln"),
    (sub_call_absent "exp"), (sub_call_absent "abs").
Qed.

Lemma preprocess_plain_witness :
  CalculatorTool._preprocess_expression (py "2+3*4") = py "2+3*4".
Proof.
  apply (preprocess_plain_expression (py "2+3*4")); by_decide.
Defined.

(** ** The answers of [execute] on arithmetic *)





(** ** Units of different categories *)








(** ** What the file tool leaves as it is *)

Lemma same_at_refl (q : abspath) (w : world) : same_at q w w.
Proof. reflexivity. Qed.

Lemma same_at_trans (q : abspath) (w1 w2 w3 : world) :
  same_at q w1 w2 → same_at q w2 w3 → same_at q w1 w3.
Proof. unfold same_at. congruence. Qed.

Lemma same_but_atime_refl (w : world) : same_but_atime w w.
Proof. by repeat split. Qed.

Lemma same_but_atime_trans (w1 w2 w3 : world) :
  same_but_atime w1 w2 → same_but_atime w2 w3 → same_but_atime w1 w3.
Proof.
  unfold same_but_atime. intros (? & ? & ?) (? & ? & ?).
  repeat split; congruence.
Qed.

(** Induction on a tree and on the trees of its entries. *)
Lemma node_induction (P : node → Prop) :
  (∀ d m, P (File d m)) →
  (∀ es m, Forall (fun e => P (snd e)) es → P (Dir es m)) →
  ∀ n, P n.
Proof.
  intros Hfile Hdir. fix IH 1. intros [d m|es m]; [ apply Hfile | ].
  apply Hdir. revert es. fix IHes 1. intros [|[name child] es].
  - constructor.
  - constructor; [ apply IH | apply IHes ].
Qed.

Section Keeps.
Context (R : world → world → Prop) (inside : abspath → Prop).
Hypothesis R_refl : ∀ w, R w w.
Hypothesis R_trans : ∀ w1 w2 w3, R w1 w2 → R w2 w3 → R w1 w3.
(** The recording of an access time inside is kept, and what is below
    a place inside is inside. *)
Hypothesis R_touch : ∀ q, inside q → keeps R (OS.touch_at q).
Hypothesis inside_below : ∀ p rest, inside p → inside (p ++ rest).

Lemma keeps_ret {A} (a : A) : keeps R (ret a).
Proof using R_refl. intros w. apply R_refl. Qed.

Lemma keeps_raise {A} (e : exn) : keeps R (@raise A e).
Proof using R_refl. intros w. apply R_refl. Qed.

Lemma keeps_lift {A} (o : outcome A) : keeps R (lift o).
Proof using R_refl. intros w. apply R_refl. Qed.

Lemma keeps_get_fs : keeps R get_fs.
Proof using R_refl. intros w. apply R_refl. Qed.

Lemma keeps_get_os : keeps R get_os.
Proof using R_refl. intros w. apply R_refl. Qed.

Lemma keeps_bind {A B} (m : M A) (k : A → M B) :
  keeps R m → (∀ a, keeps R (k a)) → keeps R (bind m k).
Proof using R_trans.
  intros Hm Hk w. unfold bind. specialize (Hm w).
  destruct (m w) as [[a|e] w']; [ | exact Hm ].
  apply (R_trans _ w'); [ exact Hm | apply Hk ].
Qed.

(** The continuation of a step runs on the value the step returned. *)
Lemma keeps_bind_lift {A B} (o : outcome A) (k : A → M B) :
  (∀ a, o = Ret a → keeps R (k a)) → keeps R (bind (lift o) k).
Proof using R_refl.
  intros Hk w. unfold bind, lift.
  destruct o as [a|e]; [ by apply Hk | apply R_refl ].
Qed.

(** The tree and the operating system that a step reads are those of
    the world in which it runs. *)
Lemma keeps_bind_world {B} (k : node → os → M B) :
  (∀ w, R w (snd (k (w_fs w) (fs_os (w_fs w)) w))) →
  keeps R (let! root := get_fs in let! os := get_os in k root os).
Proof. intros Hk w. apply Hk. Qed.

Lemma keeps_catch {A} (m : M A) (h : exn → M A) :
  keeps R m → (∀ e, keeps R (h e)) → keeps R (catch m h).
Proof using R_trans.
  intros Hm Hh w. unfold catch. specialize (Hm w).
  destruct (m w) as [[a|e] w']; [ exact Hm | ].
  destruct (isinstance e Exception_); [ | exact Hm ].
  apply (R_trans _ w'); [ exact Hm | apply Hh ].
Qed.

Lemma keeps_catch_all {A} (m h : M A) :
  keeps R m → keeps R h → keeps R (catch_all m h).
Proof using R_trans.
  intros Hm Hh w. unfold catch_all. specialize (Hm w).
  destruct (m w) as [[a|e] w']; [ exact Hm | ].
  apply (R_trans _ w'); [ exact Hm | apply Hh ].
Qed.

(** One step of a computation that is made of steps that keep [R]. *)
Ltac keeps_step :=
  first
    [ apply (keeps_ret _) | apply (keeps_raise _) | apply (keeps_lift _)
    | apply keeps_get_fs | apply keeps_get_os
    | apply (keeps_catch _ _) | apply (keeps_catch_all _ _)
    | apply (keeps_bind _ _)
    | match goal with
      | |- ∀ _, _ => intro
      | |- keeps _ (if ?b then _ else _) => destruct b
      | |- keeps _ (match ?x with _ => _ end) => destruct x
      end ].

Lemma keeps_refusal (call : os_call) (p : abspath) : keeps R (OS.refusal call p).
Proof using R_refl R_trans. unfold OS.refusal. repeat keeps_step. Qed.

Lemma keeps_path_stat (p : abspath) : keeps R (OS.path_stat p).
Proof using R_refl R_trans.
  unfold OS.path_stat.
  repeat first [ apply keeps_refusal | keeps_step ].
Qed.

Lemma keeps_probe (test : node → bool) (p : abspath) : keeps R (OS.probe test p).
Proof using R_refl R_trans.
  unfold OS.probe.
  repeat first [ apply keeps_path_stat | keeps_step ].
Qed.

Lemma keeps_stat_entries (p : abspath) (items : list (str * node)) :
  keeps R (OS.stat_entries p items).
Proof using R_refl R_trans.
  induction items as [|[name n] items IH]; cbn [OS.stat_entries].
  - apply keeps_ret.
  - apply keeps_bind; [ apply keeps_refusal | intros _; exact IH ].
Qed.

Lemma keeps_touch (p : abspath) :
  (∀ root q, OS.canon root p = Some q → inside q) → keeps R (OS.touch p).
Proof using R_refl R_touch.
  intros Hp w. unfold OS.touch, bind, get_fs. cbv beta iota.
  destruct (OS.canon (w_fs w) p) as [q|] eqn:Hq; [ | apply R_refl ].
  apply R_touch. by apply (Hp (w_fs w)).
Qed.

Lemma keeps_touch_all (ps : list abspath) :
  Forall inside ps → keeps R (OS.touch_all ps).
Proof using R_refl R_trans R_touch.
  induction 1 as [|p ps Hp Hps IH]; cbn [OS.touch_all].
  - apply keeps_ret.
  - apply keeps_bind; [ by apply R_touch | intros _; exact IH ].
Qed.

Lemma keeps_read_text (p : abspath) :
  (∀ root q, OS.canon root p = Some q → inside q) → keeps R (OS.read_text p).
Proof using R_refl R_trans R_touch.
  intros Hp. unfold OS.read_text.
  repeat first [ apply keeps_refusal | by apply keeps_touch | keeps_step ].
Qed.

Lemma keeps_listdir (p : abspath) :
  (∀ root q, OS.canon root p = Some q → inside q) → keeps R (OS.listdir p).
Proof using R_refl R_trans R_touch.
  intros Hp. unfold OS.listdir.
  repeat first [ apply keeps_refusal | by apply keeps_touch | keeps_step ].
Qed.

(** The directories of a walk are below the directory where it
    starts. *)
Lemma walk_inside (refused : abspath → bool) (n : node) :
  ∀ (top : str) (p : abspath),
    inside p → Forall inside (map fst (OS.walk refused top p n)).
Proof using inside_below.
  induction n as [d m|es m IH] using node_induction; intros top p Hp.
  - constructor.
  - cbn [OS.walk]. destruct (refused p); [ constructor | ].
    cbn [map fst]. constructor; [ exact Hp | ].
    induction IH as [|[name child] es Hchild _ IHes]; [ constructor | ].
    rewrite map_app. apply Forall_app. split; [ | exact IHes ].
    apply Hchild. by apply inside_below.
Qed.

Section Tool.
Context (rt : Runtime) (self : FileTool.t).
(** The paths of the tool are inside, the links followed. *)
Hypothesis safe_inside :
  ∀ path p, FileTool._get_safe_path self path = Ret p →
            inside p ∧ ∀ root q, OS.canon root p = Some q → inside q.

Lemma search_loop_inside (top pattern : str)
  (dirs : list (abspath * (str * list str))) :
  ∀ matches listed,
    Forall inside listed → Forall inside (map fst dirs) →
    Forall inside (snd (FileTool.search_loop rt top pattern dirs matches listed)).
Proof.
  induction dirs as [|[p [root files]] dirs IH]; intros matches listed Hl Hd.
  - exact Hl.
  - cbn [FileTool.search_loop]. cbn [map fst] in Hd.
    apply Forall_cons in Hd as [Hp Hd].
    assert (Hl' : Forall inside (listed ++ [p])).
    { apply Forall_app. split; [ exact Hl | by constructor ]. }
    destruct (_ <? _)%nat; [ by apply IH | ].
    destruct (_ <=? _)%nat; [ exact Hl' | by apply IH ].
Qed.

Ltac tool_step Hsafe :=
  first
    [ apply (keeps_probe _ _) | apply keeps_path_stat
    | apply keeps_stat_entries
    | apply keeps_read_text; apply (safe_inside _ _ Hsafe)
    | apply keeps_listdir; apply (safe_inside _ _ Hsafe)
    | keeps_step ].

Lemma read_file_keeps (filepath : str) :
  keeps R (FileTool._read_file rt self filepath).
Proof using R_refl R_trans R_touch safe_inside.
  unfold FileTool._read_file. cbv zeta.
  apply keeps_catch; [ | repeat keeps_step ].
  apply keeps_bind_lift. intros full_path Hsafe.
  unfold OS.path_exists, OS.path_is_file. repeat tool_step Hsafe.
Qed.

Lemma list_directory_keeps (dirpath : str) :
  keeps R (FileTool._list_directory self dirpath).
Proof using R_refl R_trans R_touch safe_inside.
  unfold FileTool._list_directory. cbv zeta.
  apply keeps_catch; [ | repeat keeps_step ].
  apply keeps_bind_lift. intros full_path Hsafe.
  unfold OS.path_exists, OS.path_is_dir. repeat tool_step Hsafe.
Qed.

Lemma get_file_info_keeps (filepath : str) :
  keeps R (FileTool._get_file_info rt self filepath).
Proof using R_refl R_trans R_touch safe_inside.
  unfold FileTool._get_file_info. cbv zeta.
  apply keeps_catch; [ | repeat keeps_step ].
  apply keeps_bind_lift. intros full_path Hsafe.
  unfold OS.path_exists, OS.path_is_file. repeat tool_step Hsafe.
Qed.

Lemma search_files_keeps (dirpath pattern : str) :
  keeps R (FileTool._search_files rt self dirpath pattern).
Proof using R_refl R_trans R_touch inside_below safe_inside.
  unfold FileTool._search_files. cbv zeta.
  apply keeps_catch; [ | repeat keeps_step ].
  apply keeps_bind_lift. intros full_path Hsafe.
  unfold OS.path_exists, OS.path_is_dir.
  apply keeps_bind; [ apply keeps_probe | intros found ].
  destruct (negb found); [ apply keeps_ret | ].
  apply keeps_bind; [ apply keeps_probe | intros is_dir ].
  destruct (negb is_dir); [ apply keeps_ret | ].
  apply keeps_bind; [ apply keeps_get_fs | intros root ].
  apply keeps_bind; [ apply keeps_get_os | intros os ].
  match goal with
  | |- keeps R (let '(matches, listed) := ?l in _) =>
      pose proof (search_loop_inside (Path.to_str full_path) pattern
                    (match OS.stat root full_path with
                     | Some n =>
                         OS.walk
                           (fun p => Path.has_nul p
                                     || bool_decide (is_Some (os_refuses os SysListdir p)))
                           (Path.to_str full_path) full_path n
                     | None => []
                     end) [] []) as Hlisted;
      destruct l as [matches listed]
  end.
  cbn [snd] in Hlisted.
  apply keeps_bind; [ | intros _; repeat keeps_step ].
  apply keeps_touch_all. apply Hlisted; [ constructor | ].
  destruct (OS.stat root full_path) as [n|]; [ | constructor ].
  apply walk_inside. apply (safe_inside _ _ Hsafe).
Qed.

Lemma check_exists_keeps (path : str) :
  keeps R (FileTool._check_exists self path).
Proof using R_refl R_trans R_touch safe_inside.
  unfold FileTool._check_exists. cbv zeta.
  apply keeps_catch; [ | repeat keeps_step ].
  apply keeps_bind_lift. intros full_path Hsafe.
  unfold OS.path_exists, OS.path_is_file. repeat tool_step Hsafe.
Qed.

(** [execute] keeps what the two operations that write keep. *)
Lemma execute_keeps (operation path content : str) (kw : kwargs) :
  (strip (lower operation) ∈ changing_operations →
   keeps R (FileTool._write_file self path content)
   ∧ keeps R (FileTool._create_directory self path)) →
  keeps R (FileTool.execute rt self operation path content kw).
Proof using R_refl R_trans R_touch inside_below safe_inside.
  intros Hchanging. unfold FileTool.execute. cbv zeta.
  apply keeps_catch; [ | intros; apply keeps_ret ].
  case_bool_decide; [ apply read_file_keeps | ].
  case_bool_decide as Hw.
  { apply Hchanging. unfold changing_operations.
    rewrite !elem_of_cons in *. tauto. }
  case_bool_decide; [ apply list_directory_keeps | ].
  case_bool_decide; [ apply get_file_info_keeps | ].
  case_bool_decide as Hc.
  { apply Hchanging. unfold changing_operations.
    rewrite !elem_of_cons in *. tauto. }
  case_bool_decide; [ apply search_files_keeps | ].
  case_bool_decide; [ apply check_exists_keeps | ].
  case_bool_decide; apply keeps_ret.
Qed.

End Tool.
End Keeps.

(** ** The access times *)

Lemma forget_atime_dir (es : list (str * node)) (m : metadata) :
  forget_atime (Dir es m)
  = Dir (map (fun e => (fst e, forget_atime (snd e))) es) (no_atime m).
Proof.
  cbn [forget_atime]. f_equal.
  induction es as [|[name child] es IH]; [ done | ].
  cbn [map fst snd]. by rewrite <- IH.
Qed.

Lemma forget_with_atime (t : Z) (n : node) :
  forget_atime (OS.with_atime t n) = forget_atime n.
Proof. by destruct n. Qed.

Lemma forget_set_entry (c : str) (x n : node) (es : list (str * node)) :
  find_entry c es = Some n →
  forget_atime x = forget_atime n →
  map (fun e => (fst e, forget_atime (snd e))) (set_entry c x es)
  = map (fun e => (fst e, forget_atime (snd e))) es.
Proof.
  intros Hfind Hx. induction es as [|[k n'] es IH]; [ done | ].
  cbn [find_entry set_entry] in *.
  destruct (str_eqb k c).
  - injection Hfind as ->. cbn [map fst snd]. by rewrite Hx.
  - cbn [map fst snd]. by rewrite IH.
Qed.

(** A node that is put where a node with the same content and the same
    times of change was leaves the tree as it was, access times
    apart. *)
Lemma forget_put (q : abspath) (root n new : node) :
  fs_lookup root q = Some n →
  forget_atime new = forget_atime n →
  forget_atime (fs_put root q new) = forget_atime root.
Proof.
  revert root. induction q as [|c q IH]; intros root Hl Hnew.
  - simpl in *. by injection Hl as ->.
  - destruct root as [d m|es m]; [ done | ].
    cbn [fs_lookup] in Hl. cbn [fs_put].
    destruct (find_entry c es) as [n0|] eqn:Hfind; [ | done ].
    simpl in Hl. rewrite !forget_atime_dir. f_equal.
    apply (forget_set_entry c _ n0); [ done | ]. by apply IH.
Qed.

Lemma touch_at_same_but_atime (q : abspath) :
  keeps same_but_atime (OS.touch_at q).
Proof.
  intros w. unfold OS.touch_at, bind, get_fs, get_os. cbv beta iota.
  destruct (fs_lookup (w_fs w) q) as [n|] eqn:Hl;
    [ | apply same_but_atime_refl ].
  destruct (os_atime (fs_os (w_fs w)) n) as [t|];
    [ | apply same_but_atime_refl ].
  repeat split. cbn.
  apply (forget_put q _ n); [ done | apply forget_with_atime ].
Qed.

(** Every operation of [execute] other than the writing of a file and
    the creation of a directory leaves the world as it was, but for
    the access times that the operating system records on what is
    read: the names, the contents, the modes and the times of change
    of the tree, and the trace. The name of the operation is to be
    made of characters whose case the model maps as Python does. *)
Theorem reading_operations_change_nothing rt (self : FileTool.t)
  (operation path content : str) (kw : kwargs) (w : world) :
  Forall (fun c => plain_case c = true) operation →
  strip (lower operation) ∉ changing_operations →
  same_but_atime w (snd (FileTool.execute rt self operation path content kw w)).
Proof.
  intros _ Hop.
  apply (execute_keeps same_but_atime (fun _ => True)
           same_but_atime_refl same_but_atime_trans
           (fun q _ => touch_at_same_but_atime q) (fun _ _ _ => I)
           rt self (fun _ _ _ => conj I (fun _ _ _ => I))
           operation path content kw).
  by intros ?.
Qed.

Lemma reading_operations_witness :
  same_but_atime world_after_long_write
    (snd (FileTool.execute Reference.runtime sandbox_tool (py "Read ")
            (py "big.txt") [] ∅ world_after_long_write)).
Proof.
  apply (reading_operations_change_nothing Reference.runtime sandbox_tool
           (py "Read ") (py "big.txt") [] ∅ world_after_long_write).
  - by_decide.
  - by_decide.
Defined.

(** ** What the file tool writes stays in its base directory *)

Lemma find_set_entry_ne (name other : str) (new : node) (es : list (str * node)) :
  name ≠ other →
  find_entry other (set_entry name new es) = find_entry other es.
Proof.
  intros Hne. induction es as [|[k n] es IH]; simpl.
  - by rewrite str_eqb_ne.
  - destruct (str_eqb k name) eqn:Hk; simpl.
    + apply str_eqb_eq in Hk as ->. by rewrite !str_eqb_ne.
    + by rewrite IH.
Qed.

Lemma apart_cons (c d : str) (p q : abspath) :
  apart (c :: p) (d :: q) → c ≠ d ∨ (c = d ∧ apart p q).
Proof.
  unfold apart. simpl. intros [H1 H2].
  destruct (decide (c = d)) as [<- | Hne]; [ right | by left ].
  rewrite str_eqb_refl in H1, H2. by repeat split.
Qed.

Lemma apart_nil_l (q : abspath) : ¬ apart [] q.
Proof. intros [_ H]. by destruct q. Qed.

Lemma apart_nil_r (p : abspath) : ¬ apart p [].
Proof. intros [H _]. by destruct p. Qed.

(** Putting a node at [p] changes nothing at a place apart from [p]. *)
Lemma fs_put_frame (p q : abspath) (root new : node) :
  apart p q → fs_lookup (fs_put root p new) q = fs_lookup root q.
Proof.
  revert root q. induction p as [|c p IH]; intros root q Hap.
  - by destruct (apart_nil_l q).
  - destruct q as [|d q]; [ by destruct (apart_nil_r (c :: p)) | ].
    destruct root as [data m|es m]; [ done | ].
    cbn [fs_put].
    destruct (find_entry c es) as [n|] eqn:Hfind.
    + cbn [fs_lookup]. apply apart_cons in Hap as [Hne | [<- Hap]].
      * by rewrite find_set_entry_ne.
      * rewrite find_set_entry, Hfind. simpl. by apply IH.
    + destruct p as [|c' p]; [ | done ].
      cbn [fs_lookup]. apply apart_cons in Hap as [Hne | [<- Hap]].
      * by rewrite find_set_entry_ne.
      * by destruct (apart_nil_l q).
Qed.

(** A node that is put at [p] and agrees below itself with what was at
    [p] changes nothing but at [p] and above it. *)
Lemma fs_put_elsewhere (root : node) (p q : abspath) (new : node) :
  Path.is_relative_to p q = false →
  (∀ rest, rest ≠ [] →
           fs_lookup new rest = (n ← fs_lookup root p; fs_lookup n rest)) →
  fs_lookup (fs_put root p new) q = fs_lookup root q.
Proof.
  intros Hpq Hagree.
  destruct (Path.is_relative_to q p) eqn:Hqp.
  - apply is_relative_to_prefix in Hqp as [rest ->].
    destruct rest as [|c rest].
    + rewrite app_nil_r in Hpq. by rewrite is_relative_to_refl in Hpq.
    + apply fs_put_below; [ by apply Hagree | done ].
  - by apply fs_put_frame.
Qed.

(** A place apart from the base is not above a place on the line of
    the base. *)
Lemma not_above (base q p : abspath) :
  apart base q → on_line base p → Path.is_relative_to p q = false.
Proof.
  intros [H1 H2] Hline.
  destruct (Path.is_relative_to p q) eqn:Hpq; [ | done ].
  apply is_relative_to_prefix in Hpq as [rest ->].
  destruct Hline as [[r Hr] | [r Hr]].
  - apply app_eq_app in Hr as [l [[-> _] | [-> _]]].
    + rewrite <- H2. symmetry. apply is_relative_to_prefix. by exists l.
    + rewrite <- H1. symmetry. apply is_relative_to_prefix. by exists l.
  - rewrite <- H1. symmetry. apply is_relative_to_prefix.
    exists (rest ++ r). by rewrite Hr, app_assoc.
Qed.

Lemma on_line_parent (base p : abspath) :
  on_line base p → on_line base (Path.parent p).
Proof.
  intros [[r ->] | [r ->]].
  - destruct r as [|c r] using rev_ind.
    + rewrite app_nil_r. right.
      destruct (decide (base = [])) as [-> | Hne]; [ by exists [] | ].
      exists [Path.name base]. by apply app_removelast_last.
    + left. exists r. unfold Path.parent.
      by rewrite app_assoc, removelast_last.
  - right. destruct (decide (p = [])) as [-> | Hne]; [ by exists r | ].
    exists ([Path.name p] ++ r).
    by rewrite app_assoc, <- (app_removelast_last p Hne).
Qed.

Section Confined.
Context (base q0 : abspath).
Hypothesis Hapart : apart base q0.

Lemma touch_at_elsewhere (p : abspath) :
  on_line base p → keeps (same_at q0) (OS.touch_at p).
Proof using Hapart.
  intros Hline w. unfold OS.touch_at, bind, get_fs, get_os. cbv beta iota.
  destruct (fs_lookup (w_fs w) p) as [n|] eqn:Hl; [ | apply same_at_refl ].
  destruct (os_atime (fs_os (w_fs w)) n) as [t|]; [ | apply same_at_refl ].
  unfold same_at. cbn. apply fs_put_elsewhere.
  - by apply (not_above base).
  - intros rest Hrest. rewrite Hl. simpl. by apply with_atime_below.
Qed.

Lemma put_new_elsewhere (root : node) (p : abspath) (new : node) :
  on_line base p →
  fs_lookup root p = None →
  (∀ rest, rest ≠ [] → fs_lookup new rest = None) →
  fs_lookup (OS.put_new root p new) q0 = fs_lookup root q0.
Proof using Hapart.
  intros Hline Hnone Hnew. unfold OS.put_new.
  assert (Hput : fs_lookup (fs_put root p new) q0 = fs_lookup root q0).
  { apply fs_put_elsewhere; [ by apply (not_above base) | ].
    intros rest Hrest. rewrite Hnone. simpl. by apply Hnew. }
  destruct (fs_lookup (fs_put root p new) (Path.parent p)) as [d|] eqn:Hd;
    [ | exact Hput ].
  rewrite fs_put_elsewhere; [ exact Hput | | ].
  - apply (not_above base); [ done | by apply on_line_parent ].
  - intros rest Hrest. rewrite Hd. simpl. by apply restamp_below.
Qed.

Lemma write_text_elsewhere (p : abspath) (content : str) :
  Path.dotdot ∉ p → on_line base p →
  keeps (same_at q0) (OS.write_text p content).
Proof using Hapart.
  intros Hdd Hline. unfold OS.write_text.
  destruct (Path.has_nul p); [ apply keeps_raise, same_at_refl | ].
  apply keeps_bind;
    [ apply same_at_trans
    | apply keeps_refusal; [ apply same_at_refl | apply same_at_trans ]
    | intros _ ].
  apply keeps_bind_world. intros w.
  destruct (OS.written _ p content) as [text failure].
  rewrite canon_no_dotdot by done.
  assert (Hfinish : ∀ root,
            fs_lookup root q0 = fs_lookup (w_fs w) q0 →
            same_at q0 w
              (snd ((set_fs root;;;
                     match failure with
                     | Some e => raise e
                     | None => ret tt
                     end) w))).
  { intros root Hroot. unfold bind, set_fs, same_at.
    cbv beta iota. by destruct failure. }
  destruct (fs_lookup (w_fs w) p) as [[d m|es m]|] eqn:Hl.
  - apply Hfinish. apply fs_put_elsewhere; [ by apply (not_above base) | ].
    intros [|c rest] Hrest; [ done | ]. by rewrite Hl.
  - apply same_at_refl.
  - destruct (fs_lookup (w_fs w) (Path.parent p)) as [[d m|es m]|];
      try apply same_at_refl.
    apply Hfinish. apply put_new_elsewhere; [ done .. | ].
    by intros [|c rest] Hrest.
Qed.

Lemma sys_mkdir_elsewhere (p : abspath) :
  Path.dotdot ∉ p → on_line base p → keeps (same_at q0) (OS.sys_mkdir p).
Proof using Hapart.
  intros Hdd Hline. unfold OS.sys_mkdir.
  destruct (Path.has_nul p); [ apply keeps_raise, same_at_refl | ].
  apply keeps_bind;
    [ apply same_at_trans
    | apply keeps_refusal; [ apply same_at_refl | apply same_at_trans ]
    | intros _ ].
  apply keeps_bind_world. intros w.
  rewrite canon_no_dotdot by done.
  destruct (fs_lookup (w_fs w) p) as [n|] eqn:Hl; [ apply same_at_refl | ].
  destruct (fs_lookup (w_fs w) (Path.parent p)) as [[d m|es m]|];
    try apply same_at_refl.
  unfold set_fs, same_at. cbn. apply put_new_elsewhere; [ done .. | ].
  by intros [|c rest] Hrest.
Qed.

Lemma is_dir_elsewhere (p : abspath) (e : exn) :
  keeps (same_at q0)
    (let! there := OS.path_is_dir p in
     if there : bool then ret tt else raise e).
Proof.
  apply keeps_bind; [ apply same_at_trans | | ].
  - apply keeps_probe; [ apply same_at_refl | apply same_at_trans ].
  - intros [|]; [ apply keeps_ret | apply keeps_raise ]; apply same_at_refl.
Qed.

Lemma mkdir_exist_ok_elsewhere (p : abspath) :
  Path.dotdot ∉ p → on_line base p → keeps (same_at q0) (OS.mkdir_exist_ok p).
Proof using Hapart.
  intros Hdd Hline. unfold OS.mkdir_exist_ok.
  apply keeps_catch; [ apply same_at_trans | by apply sys_mkdir_elsewhere | ].
  intros e. destruct (isinstance e OSError);
    [ apply is_dir_elsewhere | apply keeps_raise, same_at_refl ].
Qed.

Lemma mkdir_parents_elsewhere (fuel : nat) :
  ∀ p, Path.dotdot ∉ p → on_line base p →
       keeps (same_at q0) (OS.mkdir_parents fuel p).
Proof using Hapart.
  induction fuel as [|fuel IH]; intros p Hdd Hline; cbn [OS.mkdir_parents];
    (apply keeps_catch; [ apply same_at_trans | by apply sys_mkdir_elsewhere | ]);
    intros e.
  - destruct (isinstance e FileNotFoundError);
      [ apply keeps_raise, same_at_refl | ].
    destruct (isinstance e OSError);
      [ apply is_dir_elsewhere | apply keeps_raise, same_at_refl ].
  - destruct (isinstance e FileNotFoundError).
    + destruct p as [|c p]; [ apply keeps_raise, same_at_refl | ].
      apply keeps_bind; [ apply same_at_trans | | intros _ ].
      * apply IH; [ by apply parent_no_dotdot | by apply on_line_parent ].
      * by apply mkdir_exist_ok_elsewhere.
    + destruct (isinstance e OSError);
        [ apply is_dir_elsewhere | apply keeps_raise, same_at_refl ].
Qed.

Context (self : FileTool.t).
Hypothesis Hbase : FileTool.base_path self = base.
Hypothesis Hdd : Path.dotdot ∉ base.

Lemma safe_path_on_line (path : str) (p : abspath) :
  FileTool._get_safe_path self path = Ret p →
  (Path.dotdot ∉ p) ∧ on_line base p.
Proof using Hbase Hdd.
  intros Hsafe. split.
  - apply (safe_path_no_dotdot self path); [ by rewrite Hbase | done ].
  - left. rewrite <- Hbase. by apply (safe_path_is_contained self path).
Qed.

Lemma write_file_elsewhere (filepath content : str) :
  keeps (same_at q0) (FileTool._write_file self filepath content).
Proof using Hapart Hbase Hdd.
  unfold FileTool._write_file.
  apply keeps_catch; [ apply same_at_trans | | ].
  - apply keeps_bind_lift; [ apply same_at_refl | ]. intros full_path Hsafe.
    apply safe_path_on_line in Hsafe as [Hp Hline]. cbv zeta.
    apply keeps_bind; [ apply same_at_trans | | intros found ].
    { apply keeps_probe; [ apply same_at_refl | apply same_at_trans ]. }
    destruct (negb found); [ apply keeps_ret, same_at_refl | ].
    apply keeps_bind;
      [ apply same_at_trans | by apply write_text_elsewhere
      | intros _; apply keeps_ret, same_at_refl ].
  - intros e. destruct (isinstance e PermissionError);
      apply keeps_ret, same_at_refl.
Qed.

Lemma create_directory_elsewhere (dirpath : str) :
  keeps (same_at q0) (FileTool._create_directory self dirpath).
Proof using Hapart Hbase Hdd.
  unfold FileTool._create_directory.
  apply keeps_catch; [ apply same_at_trans | | ].
  - apply keeps_bind_lift; [ apply same_at_refl | ]. intros full_path Hsafe.
    apply safe_path_on_line in Hsafe as [Hp Hline].
    apply keeps_bind; [ apply same_at_trans | | intros found ].
    { apply keeps_probe; [ apply same_at_refl | apply same_at_trans ]. }
    destruct found; [ apply keeps_ret, same_at_refl | ].
    apply keeps_bind;
      [ apply same_at_trans | by apply mkdir_parents_elsewhere
      | intros _; apply keeps_ret, same_at_refl ].
  - intros e. destruct (isinstance e PermissionError);
      apply keeps_ret, same_at_refl.
Qed.

End Confined.

(** The file tool is confined to its base directory. When the base
    path has no [..] component, no operation of [execute], whatever its
    arguments, changes what is found at a place that is neither below
    the base directory nor one of the directories above it. *)
Theorem execute_confined_to_base rt (self : FileTool.t)
  (operation path content : str) (kw : kwargs) (q : abspath) (w : world) :
  Path.dotdot ∉ FileTool.base_path self →
  apart (FileTool.base_path self) q →
  fs_lookup (w_fs (snd (FileTool.execute rt self operation path content kw w))) q
  = fs_lookup (w_fs w) q.
Proof.
  intros Hdd Hap.
  apply (execute_keeps (same_at q)
           (fun p => ∃ r, p = FileTool.base_path self ++ r)
           (same_at_refl q) (same_at_trans q)).
  - intros p Hp. apply (touch_at_elsewhere (FileTool.base_path self));
      [ done | by left ].
  - intros p rest [r ->]. exists (r ++ rest). by rewrite app_assoc.
  - intros path0 p Hsafe.
    pose proof (safe_path_no_dotdot self path0 p Hdd Hsafe) as Hp.
    pose proof (safe_path_is_contained self path0 p Hsafe) as Hin.
    split; [ exact Hin | ].
    intros root p'. rewrite canon_no_dotdot by done. by intros [= <-].
  - intros _. split.
    + by apply (write_file_elsewhere (FileTool.base_path self)).
    + by apply (create_directory_elsewhere (FileTool.base_path self)).
Qed.

Lemma execute_confined_witness :
  fs_lookup
    (w_fs (snd (FileTool.execute Reference.runtime
                  (FileTool.init [py "home"; py "user"; py "work"]
                     [py "home"; py "user"] (py "."))
                  (py "write") (py "../Documents/agent/notes.txt") (py "x") ∅
                  project_world)))
    (project ++ [py "notes.txt"])
  = fs_lookup (w_fs project_world) (project ++ [py "notes.txt"]).
Proof.
  apply (execute_confined_to_base Reference.runtime
           (FileTool.init [py "home"; py "user"; py "work"]
              [py "home"; py "user"] (py "."))
           (py "write") (py "../Documents/agent/notes.txt") (py "x") ∅
           (project ++ [py "notes.txt"]) project_world).
  - by_decide.
  - split; vm_compute; reflexivity.
Defined.
